(** * SmartSalesAgent: the conversation state machine and the order services

    A shallow embedding of [services/conversation_service.py],
    [services/order_service.py], [services/payment_service.py],
    [services/ai_service.py] ([analyze_message]) and of the turn handler
    [process_message_task] of [main.py], together with the properties of the
    specification that concern them.

    Modelling conventions.
    - A Python [str] is the list of its code points ([pystr]).  Literals are
      written as in the source and decoded from UTF-8 by [u]; the escape
      [\n] is the code point 10 ([nl]).
    - A Python value of unknown static type (a column read through the ORM,
      a value decoded from JSON) is a [pyval]; [truthy] is Python's truth
      test.
    - The SQLAlchemy session is an in-memory store ([DB]): one list of rows
      per table, in insertion order.  A [commit] followed by [refresh]
      leaves a value of the declared type of its column as it is ([fits]).
      Where the code binds a value it has not made itself (the keyword
      arguments of [update_state], the extracted intent in a log row), what
      the column then holds, or the exception of the commit, is asked of the
      database ([driver] of [Runtime]); a commit that raises writes
      nothing.  Within one session the identity map hands out one object
      per primary key, so the variable [state] of [process_message_task]
      aliases the row that [update_state] and [reset_state] mutate: the
      model reads a row again from the store wherever the source reads it
      through [state].
    - Exceptions are values of [exn]; effectful code lives in the monad [M]
      (store and outbox threaded, result or raised exception returned).
    - [datetime.utcnow()] is the argument [now] of the operation that reads
      it.
    - Built-ins whose definition is a table of the Unicode standard or a
      parser ([str.lower], [format], [json.loads], [int]) and the remote
      chat completion call are variables of the section that uses them.
      What the code takes from the object model of Python and from
      SQLAlchemy and SQLite (the attributes a mapped object has besides
      its columns, the binding of values, the iteration order of a set) is
      the record [Runtime]. *)

From Stdlib Require Import ZArith NArith List String Ascii Bool Lia.
From Stdlib Require Import DecimalString DecimalPos DecimalZ PrimFloat.
From Stdlib Require Import Permutation.
Import ListNotations.

Set Implicit Arguments.
Local Open Scope Z_scope.

(* ================================================================== *)
(** ** Python strings *)

Definition pystr := list N.

Definition bytes_of (s : string) : list N :=
  map N_of_ascii (list_ascii_of_string s).

(** UTF-8 decoding; [need] continuation bytes are still expected and [acc]
    holds the bits read so far. *)
Fixpoint utf8_go (need : nat) (acc : N) (bs : list N) : pystr :=
  match bs with
  | [] => []
  | b :: bs' =>
    match need with
    | O =>
      if (b <? 128)%N then b :: utf8_go 0 0%N bs'
      else if (b <? 224)%N then utf8_go 1 (b - 192)%N bs'
      else if (b <? 240)%N then utf8_go 2 (b - 224)%N bs'
      else utf8_go 3 (b - 240)%N bs'
    | S O => (acc * 64 + (b - 128))%N :: utf8_go 0 0%N bs'
    | S n => utf8_go n (acc * 64 + (b - 128))%N bs'
    end
  end.

Definition u (s : string) : pystr := utf8_go 0 0%N (bytes_of s).

Definition nl : pystr := [10%N].

Fixpoint pystr_eqb (a b : pystr) : bool :=
  match a, b with
  | [], [] => true
  | x :: a', y :: b' => (x =? y)%N && pystr_eqb a' b'
  | _, _ => false
  end.

(** [x in words] for a list literal of strings. *)
Definition str_in (x : pystr) (words : list pystr) : bool :=
  existsb (pystr_eqb x) words.

(** The code points [str.isspace] accepts, which [str.strip()] removes. *)
Definition isspace (c : N) : bool :=
  ((9 <=? c) && (c <=? 13) || (28 <=? c) && (c <=? 32)
   || (c =? 133) || (c =? 160) || (c =? 5760)
   || (8192 <=? c) && (c <=? 8202)
   || (c =? 8232) || (c =? 8233) || (c =? 8239) || (c =? 8287)
   || (c =? 12288))%N.

Fixpoint lstrip (s : pystr) : pystr :=
  match s with
  | c :: s' => if isspace c then lstrip s' else s
  | [] => []
  end.

Definition rstrip (s : pystr) : pystr := rev (lstrip (rev s)).

Definition strip (s : pystr) : pystr := rstrip (lstrip s).

Fixpoint is_prefix (p s : pystr) : bool :=
  match p, s with
  | [], _ => true
  | x :: p', y :: s' => (x =? y)%N && is_prefix p' s'
  | _ :: _, [] => false
  end.

(** [sub in s] on strings. *)
Fixpoint contains (sub s : pystr) : bool :=
  is_prefix sub s ||
  match s with
  | [] => false
  | _ :: s' => contains sub s'
  end.

(** [s.split(sep)] for a non-empty [sep]: [skip] code points of a separator
    just matched are still to be passed over, [cur] is the current part,
    reversed. *)
Fixpoint split_go (sep : pystr) (skip : nat) (cur s : pystr) : list pystr :=
  match s with
  | [] => [rev cur]
  | c :: s' =>
    match skip with
    | S k => split_go sep k cur s'
    | O =>
      if is_prefix sep s
      then rev cur :: split_go sep (List.length sep - 1) [] s'
      else split_go sep 0 (c :: cur) s'
    end
  end.

Definition split (sep s : pystr) : list pystr := split_go sep 0 [] s.

(** [str(i)] for an [int]. *)
Definition str_of_Z (z : Z) : pystr :=
  u (NilZero.string_of_int (Z.to_int z)).

(** ASCII case folding, as SQLite's [LIKE] applies it. *)
Definition ascii_fold (c : N) : N :=
  if ((65 <=? c) && (c <=? 90))%N then (c + 32)%N else c.

(** SQLite's [LIKE]: [%] matches any run, [_] any one code point, ASCII
    letters match without regard to case. *)
Fixpoint like (pat s : pystr) : bool :=
  match pat with
  | [] => match s with [] => true | _ => false end
  | c :: pat' =>
    if (c =? 37)%N then
      (fix star (t : pystr) : bool :=
         like pat' t ||
         match t with
         | [] => false
         | _ :: t' => star t'
         end) s
    else
      match s with
      | [] => false
      | d :: s' =>
        ((c =? 95)%N || (ascii_fold c =? ascii_fold d)%N) && like pat' s'
      end
  end.

(* ================================================================== *)
(** ** Python values *)

#[warnings="-register-all"]
Inductive pyval : Type :=
| PyNone
| PyBool (b : bool)
| PyInt (z : Z)
| PyFloat (f : float)
| PyStr (s : pystr)
| PyDateTime (t : Z)
| PyList (l : list pyval)
| PyDict (d : list (pystr * pyval)).

Definition truthy (v : pyval) : bool :=
  match v with
  | PyNone => false
  | PyBool b => b
  | PyInt z => negb (z =? 0)
  | PyFloat f => negb (PrimFloat.eqb f 0%float)
  | PyStr s => match s with [] => false | _ => true end
  | PyDateTime _ => true
  | PyList l => match l with [] => false | _ => true end
  | PyDict d => match d with [] => false | _ => true end
  end.

(** [a or b]. *)
Definition py_or (a b : pyval) : pyval := if truthy a then a else b.

(** [v == "literal"]. *)
Definition eq_str (v : pyval) (s : pystr) : bool :=
  match v with
  | PyStr t => pystr_eqb t s
  | _ => false
  end.

(** The integer a value stands for when it is compared with an integer
    column ([bool] is a subclass of [int]); [None] and the other types match
    no row. *)
Definition as_int (v : pyval) : option Z :=
  match v with
  | PyInt z => Some z
  | PyBool b => Some (if b then 1 else 0)
  | _ => None
  end.

Definition eq_int (col : Z) (v : pyval) : bool :=
  match as_int v with
  | Some z => col =? z
  | None => false
  end.

(** [d.get(key)] on a dictionary given as its items. *)
Fixpoint dict_get (d : list (pystr * pyval)) (key : pystr) : pyval :=
  match d with
  | [] => PyNone
  | (k, v) :: d' => if pystr_eqb k key then v else dict_get d' key
  end.

(** An optional string column printed by an f-string. *)
Definition fmt_opt (o : option pystr) : pystr :=
  match o with
  | Some s => s
  | None => u "None"
  end.

(* ================================================================== *)
(** ** Exceptions

    The subclasses of [Exception] the modelled code can meet.
    [OverflowError] and [StatementError] are what a commit raises on a
    value the driver cannot bind, [InvalidRequestError] what [refresh]
    raises on an object that is not persistent in the session;
    [RemoteError] stands for whatever the remote call raises. *)

Inductive exn : Type :=
| AttributeError
| TypeError
| IndexError
| KeyError
| ValueError (msg : pystr)
| OverflowError
| StatementError
| InvalidRequestError
| RemoteError (code : Z).

Inductive result (A : Type) : Type :=
| Ok (a : A)
| Raise (e : exn).

Arguments Ok {A} a.
Arguments Raise {A} e.

(* ================================================================== *)
(** ** The tables of [database.py]

    The catalogue rows carry the columns the conversation service reads;
    a nullable string column is an [option pystr].  A conversation state is
    written through [setattr] with values of any type, so each of its
    columns holds a [pyval]; the same holds for an order, whose details are
    a JSON value. *)

(** The declaration of a column: its type, whether it takes [NULL], and
    whether it is a primary key or carries a [unique] constraint. *)
Module Sql.
Inductive type : Type := Integer | String | Text | JSON | DateTime.
End Sql.

Record decl : Type := Decl {
  sql_type : Sql.type;
  nullable : bool;
  unique : bool
}.

Module ProductCategory.
Record t : Type := mk {
  id : Z;
  name : pystr;
  icon : option pystr
}.
End ProductCategory.

Module ProductType.
Record t : Type := mk {
  id : Z;
  category_id : Z;
  name : pystr;
  material : option pystr
}.
End ProductType.

Module ProductVariant.
Record t : Type := mk {
  id : Z;
  type_id : Z;
  name : pystr;
  size : option pystr;
  size_details : option pystr;
  variant_type : option pystr;
  min_quantity : option Z;
  is_available : bool
}.
End ProductVariant.

Module ConversationState.
Record t : Type := mk {
  id : pyval;
  phone_number : pyval;
  current_step : pyval;
  selected_category_id : pyval;
  selected_type_id : pyval;
  selected_variant_id : pyval;
  selected_quantity : pyval;
  selected_accessories : pyval;
  customer_name : pyval;
  notes : pyval;
  last_message : pyval;
  updated_at : pyval
}.

Definition set_id v s :=
  mk v (phone_number s) (current_step s) (selected_category_id s)
     (selected_type_id s) (selected_variant_id s) (selected_quantity s)
     (selected_accessories s) (customer_name s) (notes s) (last_message s)
     (updated_at s).
Definition set_phone_number v s :=
  mk (id s) v (current_step s) (selected_category_id s)
     (selected_type_id s) (selected_variant_id s) (selected_quantity s)
     (selected_accessories s) (customer_name s) (notes s) (last_message s)
     (updated_at s).
Definition set_current_step v s :=
  mk (id s) (phone_number s) v (selected_category_id s)
     (selected_type_id s) (selected_variant_id s) (selected_quantity s)
     (selected_accessories s) (customer_name s) (notes s) (last_message s)
     (updated_at s).
Definition set_selected_category_id v s :=
  mk (id s) (phone_number s) (current_step s) v
     (selected_type_id s) (selected_variant_id s) (selected_quantity s)
     (selected_accessories s) (customer_name s) (notes s) (last_message s)
     (updated_at s).
Definition set_selected_type_id v s :=
  mk (id s) (phone_number s) (current_step s) (selected_category_id s)
     v (selected_variant_id s) (selected_quantity s)
     (selected_accessories s) (customer_name s) (notes s) (last_message s)
     (updated_at s).
Definition set_selected_variant_id v s :=
  mk (id s) (phone_number s) (current_step s) (selected_category_id s)
     (selected_type_id s) v (selected_quantity s)
     (selected_accessories s) (customer_name s) (notes s) (last_message s)
     (updated_at s).
Definition set_selected_quantity v s :=
  mk (id s) (phone_number s) (current_step s) (selected_category_id s)
     (selected_type_id s) (selected_variant_id s) v
     (selected_accessories s) (customer_name s) (notes s) (last_message s)
     (updated_at s).
Definition set_selected_accessories v s :=
  mk (id s) (phone_number s) (current_step s) (selected_category_id s)
     (selected_type_id s) (selected_variant_id s) (selected_quantity s)
     v (customer_name s) (notes s) (last_message s)
     (updated_at s).
Definition set_customer_name v s :=
  mk (id s) (phone_number s) (current_step s) (selected_category_id s)
     (selected_type_id s) (selected_variant_id s) (selected_quantity s)
     (selected_accessories s) v (notes s) (last_message s)
     (updated_at s).
Definition set_notes v s :=
  mk (id s) (phone_number s) (current_step s) (selected_category_id s)
     (selected_type_id s) (selected_variant_id s) (selected_quantity s)
     (selected_accessories s) (customer_name s) v (last_message s)
     (updated_at s).
Definition set_last_message v s :=
  mk (id s) (phone_number s) (current_step s) (selected_category_id s)
     (selected_type_id s) (selected_variant_id s) (selected_quantity s)
     (selected_accessories s) (customer_name s) (notes s) v
     (updated_at s).
Definition set_updated_at v s :=
  mk (id s) (phone_number s) (current_step s) (selected_category_id s)
     (selected_type_id s) (selected_variant_id s) (selected_quantity s)
     (selected_accessories s) (customer_name s) (notes s) (last_message s)
     v.

(** The mapped columns of the record: each with its name, the way
    [getattr] and [setattr] reach it, and its declaration in
    [database.py].  The other attributes of the Python object (the names
    the mapped class inherits from the declarative base and from [object])
    are no part of the row; see [hasattr] below. *)
Record column : Type := Column {
  col_name : pystr;
  col_decl : decl;
  col_get : t -> pyval;
  col_set : pyval -> t -> t
}.

Definition columns : list column :=
  Eval cbv [u utf8_go bytes_of map list_ascii_of_string N_of_ascii N.add
            N.mul N.sub N.ltb N.compare N_of_digits Pos.add Pos.succ Pos.mul
            Pos.compare Pos.compare_cont Pos.sub Pos.sub_mask Pos.pred_double
            Pos.double_mask Pos.succ_double_mask Pos.double_pred_mask
            Pos.pred_mask Pos.pred_N] in
  [ Column (u "id") (Decl Sql.Integer false true) id set_id;
    Column (u "phone_number") (Decl Sql.String false true)
           phone_number set_phone_number;
    Column (u "current_step") (Decl Sql.String true false)
           current_step set_current_step;
    Column (u "selected_category_id") (Decl Sql.Integer true false)
           selected_category_id set_selected_category_id;
    Column (u "selected_type_id") (Decl Sql.Integer true false)
           selected_type_id set_selected_type_id;
    Column (u "selected_variant_id") (Decl Sql.Integer true false)
           selected_variant_id set_selected_variant_id;
    Column (u "selected_quantity") (Decl Sql.Integer true false)
           selected_quantity set_selected_quantity;
    Column (u "selected_accessories") (Decl Sql.JSON true false)
           selected_accessories set_selected_accessories;
    Column (u "customer_name") (Decl Sql.String true false)
           customer_name set_customer_name;
    Column (u "notes") (Decl Sql.Text true false) notes set_notes;
    Column (u "last_message") (Decl Sql.Text true false)
           last_message set_last_message;
    Column (u "updated_at") (Decl Sql.DateTime true false)
           updated_at set_updated_at ].

Definition lookup (key : pystr) : option column :=
  find (fun c => pystr_eqb (col_name c) key) columns.

(** [key] names a mapped column. *)
Definition is_column (key : pystr) : bool :=
  match lookup key with Some _ => true | None => false end.

(** The value of the column [key], if [key] names one. *)
Definition get_column (s : t) (key : pystr) : option pyval :=
  match lookup key with Some c => Some (col_get c s) | None => None end.

(** The row with the column [key] set to [v]; any other name leaves the
    row as it is. *)
Definition set_column (s : t) (key : pystr) (v : pyval) : t :=
  match lookup key with Some c => col_set c v s | None => s end.
End ConversationState.

Module Order.
Record t : Type := mk {
  id : Z;
  customer_phone : pyval;
  customer_name : pyval;
  business_name : pyval;
  order_details : pyval;
  total_amount : pyval;
  invoice_path : pyval;
  status : pyval;
  has_capacity : pyval;
  approved_amount : pyval;
  estimated_days : pyval;
  payment_url : pyval;
  payment_status : pyval;
  paid_at : pyval;
  notes : pyval;
  created_at : pyval
}.

Definition set_total_amount v o :=
  mk (id o) (customer_phone o) (customer_name o) (business_name o)
     (order_details o) v (invoice_path o) (status o) (has_capacity o)
     (approved_amount o) (estimated_days o) (payment_url o)
     (payment_status o) (paid_at o) (notes o) (created_at o).
Definition set_status v o :=
  mk (id o) (customer_phone o) (customer_name o) (business_name o)
     (order_details o) (total_amount o) (invoice_path o) v (has_capacity o)
     (approved_amount o) (estimated_days o) (payment_url o)
     (payment_status o) (paid_at o) (notes o) (created_at o).
Definition set_has_capacity v o :=
  mk (id o) (customer_phone o) (customer_name o) (business_name o)
     (order_details o) (total_amount o) (invoice_path o) (status o) v
     (approved_amount o) (estimated_days o) (payment_url o)
     (payment_status o) (paid_at o) (notes o) (created_at o).
Definition set_approved_amount v o :=
  mk (id o) (customer_phone o) (customer_name o) (business_name o)
     (order_details o) (total_amount o) (invoice_path o) (status o)
     (has_capacity o) v (estimated_days o) (payment_url o)
     (payment_status o) (paid_at o) (notes o) (created_at o).
Definition set_estimated_days v o :=
  mk (id o) (customer_phone o) (customer_name o) (business_name o)
     (order_details o) (total_amount o) (invoice_path o) (status o)
     (has_capacity o) (approved_amount o) v (payment_url o)
     (payment_status o) (paid_at o) (notes o) (created_at o).
Definition set_payment_url v o :=
  mk (id o) (customer_phone o) (customer_name o) (business_name o)
     (order_details o) (total_amount o) (invoice_path o) (status o)
     (has_capacity o) (approved_amount o) (estimated_days o) v
     (payment_status o) (paid_at o) (notes o) (created_at o).
Definition set_payment_status v o :=
  mk (id o) (customer_phone o) (customer_name o) (business_name o)
     (order_details o) (total_amount o) (invoice_path o) (status o)
     (has_capacity o) (approved_amount o) (estimated_days o) (payment_url o)
     v (paid_at o) (notes o) (created_at o).
Definition set_paid_at v o :=
  mk (id o) (customer_phone o) (customer_name o) (business_name o)
     (order_details o) (total_amount o) (invoice_path o) (status o)
     (has_capacity o) (approved_amount o) (estimated_days o) (payment_url o)
     (payment_status o) v (notes o) (created_at o).
End Order.

Module ChatLog.
Record t : Type := mk {
  phone_number : pyval;
  message_type : pyval;
  message_content : pyval;
  intent : pyval;
  timestamp : pyval
}.
End ChatLog.

(** The store behind a session. *)
Record DB : Type := mkDB {
  product_categories : list ProductCategory.t;
  product_types : list ProductType.t;
  product_variants : list ProductVariant.t;
  conversation_states : list ConversationState.t;
  orders : list Order.t;
  chat_logs : list ChatLog.t
}.

Definition with_states (d : DB) (l : list ConversationState.t) : DB :=
  mkDB (product_categories d) (product_types d) (product_variants d) l
       (orders d) (chat_logs d).

Definition with_orders (d : DB) (l : list Order.t) : DB :=
  mkDB (product_categories d) (product_types d) (product_variants d)
       (conversation_states d) l (chat_logs d).

Definition with_logs (d : DB) (l : list ChatLog.t) : DB :=
  mkDB (product_categories d) (product_types d) (product_variants d)
       (conversation_states d) (orders d) l.

(** The value an autoincrement primary key takes on insertion. *)
Definition next_id (ids : list Z) : Z := 1 + fold_right Z.max 0 ids.

(** The row an attribute assignment followed by [commit] rewrites: the first
    one the query matched. *)
Fixpoint update_first {A : Type} (p : A -> bool) (f : A -> A) (l : list A)
  : list A :=
  match l with
  | [] => []
  | x :: l' => if p x then f x :: l' else x :: update_first p f l'
  end.

(* ================================================================== *)
(** ** What the code takes from the libraries *)

(** The integers SQLite holds. *)
Definition int64 (z : Z) : bool := (- 2 ^ 63 <=? z) && (z <? 2 ^ 63).

(** [fits c v]: the value is of the declared type of the column, which has
    no [unique] constraint.  A commit stores such a value and a refresh
    reads it back as it is.  (A [pystr] is the text of a [str] that encodes
    to UTF-8.) *)
Definition fits (c : decl) (v : pyval) : bool :=
  negb (unique c) &&
  match v with
  | PyNone => nullable c
  | PyInt z =>
    match sql_type c with Sql.Integer => int64 z | _ => false end
  | PyStr _ =>
    match sql_type c with Sql.String | Sql.Text => true | _ => false end
  | PyDateTime _ =>
    match sql_type c with Sql.DateTime => true | _ => false end
  | _ => false
  end.

Record Runtime : Type := mkRuntime {
  (** The names a mapped object has besides its columns, for which
      [hasattr] is true: those of the declarative base ([metadata],
      [registry], [_sa_instance_state]) and of [object] ([__class__],
      [__dict__], the special methods). *)
  inherited : pystr -> bool;
  (** [setattr] on such a name: [None] when the assignment only shadows the
      class attribute on the instance, the exception when the assignment
      raises ([__class__]) or breaks the instrumentation of the object, so
      that the next assignment to a column raises
      ([_sa_instance_state]). *)
  shadow : pystr -> pyval -> option exn;
  (** The commit of a value that does not fit the declaration of its
      column, given the store, the table and the column: the value a
      refresh then reads (SQLite's type affinity turns the text "1000" in
      an integer column into 1000), or the exception the commit raises (a
      list, a dictionary, an integer beyond 64 bits, a broken
      constraint). *)
  driver : DB -> pystr -> pystr -> pyval -> result pyval;
  (** The order in which a [set] of strings is iterated, given its
      elements in order of insertion; it changes with the hash seed. *)
  set_iter : list pystr -> list pystr
}.

(** What a column holds after a commit and a refresh. *)
Definition stored (rt : Runtime) (d : DB) (table column : pystr) (c : decl)
    (v : pyval) : result pyval :=
  if fits c v then Ok v else driver rt d table column v.

(** The keys of the categories are integers SQLite holds, as they are in
    every store it has written. *)
Definition sqlite_keys (d : DB) : bool :=
  forallb (fun c => int64 (ProductCategory.id c)) (product_categories d).

(* ================================================================== *)
(** ** [ConversationManager]: the state store *)

Definition STEPS : list pystr :=
  [ u "greeting"; u "category"; u "type"; u "size"; u "variant";
    u "quantity"; u "accessories"; u "confirm"; u "invoice" ].

Definition int_ids (l : list pyval) : list Z :=
  flat_map (fun v => match as_int v with Some z => [z] | None => [] end) l.

(** The filter [ConversationState.phone_number == phone_number]. *)
Definition has_phone (phone : pystr) (s : ConversationState.t) : bool :=
  eq_str (ConversationState.phone_number s) phone.

Definition get_or_create_state (d : DB) (now : Z) (phone_number : pystr)
  : ConversationState.t * DB :=
  match find (has_phone phone_number) (conversation_states d) with
  | Some state => (state, d)
  | None =>
    let state :=
      ConversationState.mk
        (PyInt (next_id (int_ids (map ConversationState.id
                                      (conversation_states d)))))
        (PyStr phone_number) (PyStr (u "greeting"))
        PyNone PyNone PyNone PyNone PyNone PyNone PyNone PyNone
        (PyDateTime now) in
    (state, with_states d (conversation_states d ++ [state]))
  end.

(** [hasattr(state, key)]: the name of a column, or another name of the
    mapped object. *)
Definition hasattr (rt : Runtime) (state : ConversationState.t)
    (key : pystr) : bool :=
  ConversationState.is_column key || inherited rt key.

(** [setattr(state, key, value)] where [hasattr] holds.  An instrumented
    attribute takes any value; what the column can hold is decided at the
    commit. *)
Definition setattr (rt : Runtime) (state : ConversationState.t)
    (key : pystr) (value : pyval) : result ConversationState.t :=
  match ConversationState.lookup key with
  | Some c => Ok (ConversationState.col_set c value state)
  | None =>
    match shadow rt key value with
    | Some e => Raise e
    | None => Ok state
    end
  end.

(** [for key, value in kwargs.items(): if hasattr(state, key):
    setattr(state, key, value)]. *)
Fixpoint assign_kwargs (rt : Runtime) (kwargs : list (pystr * pyval))
    (state : ConversationState.t) : result ConversationState.t :=
  match kwargs with
  | [] => Ok state
  | (key, value) :: kwargs' =>
    if hasattr rt state key then
      match setattr rt state key value with
      | Ok state' => assign_kwargs rt kwargs' state'
      | Raise e => Raise e
      end
    else assign_kwargs rt kwargs' state
  end.

Definition states_table : pystr := u "conversation_states".

(** [db.commit(); db.refresh(state)] after assignments to the attributes
    [names]: each column among them is bound with the value the object
    carries, and is read back as the database holds it.  The first value
    the database refuses makes the commit raise. *)
Definition commit_column (rt : Runtime) (d : DB) (names : list pystr)
    (acc : result ConversationState.t) (c : ConversationState.column)
  : result ConversationState.t :=
  match acc with
  | Raise e => Raise e
  | Ok st =>
    if str_in (ConversationState.col_name c) names then
      match stored rt d states_table (ConversationState.col_name c)
                   (ConversationState.col_decl c)
                   (ConversationState.col_get c st) with
      | Ok v => Ok (ConversationState.col_set c v st)
      | Raise e => Raise e
      end
    else Ok st
  end.

Definition commit_state (rt : Runtime) (d : DB) (names : list pystr)
    (state : ConversationState.t) : result ConversationState.t :=
  fold_left (commit_column rt d names) ConversationState.columns (Ok state).

(** When an assignment or the commit raises, the transaction is rolled
    back: the store is the one [get_or_create_state] left. *)
Definition update_state (rt : Runtime) (d : DB) (now : Z)
    (phone_number : pystr) (kwargs : list (pystr * pyval))
  : result ConversationState.t * DB :=
  let (state, d1) := get_or_create_state d now phone_number in
  match assign_kwargs rt kwargs state with
  | Raise e => (Raise e, d1)
  | Ok state =>
    let state := ConversationState.set_updated_at (PyDateTime now) state in
    match commit_state rt d1 (map fst kwargs) state with
    | Raise e => (Raise e, d1)
    | Ok state' =>
      (Ok state',
       with_states d1
         (update_first (has_phone phone_number) (fun _ => state')
                       (conversation_states d1)))
    end
  end.

(** The columns the loop of [update_state] leaves when no assignment
    raises. *)
Definition apply_kwargs (kwargs : list (pystr * pyval))
    (state : ConversationState.t) : ConversationState.t :=
  fold_left
    (fun st kv =>
       if ConversationState.is_column (fst kv)
       then ConversationState.set_column st (fst kv) (snd kv)
       else st)
    kwargs state.

(** What [update_state] returns and stores when no assignment raises and
    every value fits its column. *)
Definition updated (d : DB) (now : Z) (phone_number : pystr)
    (kwargs : list (pystr * pyval)) : ConversationState.t * DB :=
  let (state, d1) := get_or_create_state d now phone_number in
  let state' :=
    ConversationState.set_updated_at (PyDateTime now)
      (apply_kwargs kwargs state) in
  (state',
   with_states d1
     (update_first (has_phone phone_number) (fun _ => state')
                   (conversation_states d1))).

(** [kwargs_fit rt kwargs]: every name is a column, given a value that
    fits it, or is no attribute of the object. *)
Definition kwargs_fit (rt : Runtime) (kwargs : list (pystr * pyval))
  : bool :=
  forallb
    (fun kv =>
       match ConversationState.lookup (fst kv) with
       | Some c => fits (ConversationState.col_decl c) (snd kv)
       | None => negb (inherited rt (fst kv))
       end)
    kwargs.

Definition reset_fields (now : Z) (state : ConversationState.t)
  : ConversationState.t :=
  let state := ConversationState.set_current_step (PyStr (u "greeting")) state in
  let state := ConversationState.set_selected_category_id PyNone state in
  let state := ConversationState.set_selected_type_id PyNone state in
  let state := ConversationState.set_selected_variant_id PyNone state in
  let state := ConversationState.set_selected_quantity PyNone state in
  let state := ConversationState.set_selected_accessories PyNone state in
  let state := ConversationState.set_notes PyNone state in
  ConversationState.set_updated_at (PyDateTime now) state.

Definition reset_state (d : DB) (now : Z) (phone_number : pystr)
  : ConversationState.t * DB :=
  let (state, d1) := get_or_create_state d now phone_number in
  let state' := reset_fields now state in
  (state',
   with_states d1
     (update_first (has_phone phone_number) (fun _ => state')
                   (conversation_states d1))).

Fixpoint index_of (x : pystr) (l : list pystr) : option nat :=
  match l with
  | [] => None
  | y :: l' =>
    if pystr_eqb y x then Some O
    else match index_of x l' with Some i => Some (S i) | None => None end
  end.

Definition get_next_step (current_step : pystr) : pystr :=
  match index_of current_step STEPS with
  | Some current_index =>
    if (current_index <? List.length STEPS - 1)%nat
    then nth (current_index + 1) STEPS (u "greeting")
    else u "greeting"
  | None => u "greeting"
  end.

(* ================================================================== *)
(** ** [ConversationManager]: the prompts *)

Fixpoint enumerate {A : Type} (start : Z) (l : list A) : list (Z * A) :=
  match l with
  | [] => []
  | x :: l' => (start, x) :: enumerate (start + 1) l'
  end.

Definition some_nonempty (o : option pystr) : bool :=
  match o with
  | Some (_ :: _) => true
  | _ => false
  end.

Definition _greeting_message : pystr :=
  let base_greeting :=
    u "أهلاً بك! نحن هنا لتحويل فكرتك إلى واقع. في أي طلب، يمكنك كتابة ملاحظاتك الدقيقة إذا كنت "
    ++ u "تفضل شيئاً خاصاً بالتصميم، مثل: 'أريد حبل الكيس مخفياً من الداخل' أو 'استبداله بشريطة حمراء'. "
    ++ u "أنا أفهم طلبك جيداً، وجميع ملاحظاتك ستؤخذ بعين الاعتبار بدقة، فلا تقلق." in
  let identity_line :=
    u "أنا وكيل المبيعات لدى مطبعة خالد الحسن، ومستعد أخدمك من البداية للنهاية." in
  let follow_up :=
    u "هل تود أن نبدأ الآن بتحديد نوع المنتج أو المواد التي تفكر بها؟ أرسل لي أي تفاصيل موجودة عندك وسأرتبها لك." in
  base_greeting ++ nl ++ identity_line ++ nl ++ follow_up.

Definition _category_message (d : DB) : pystr :=
  fold_left
    (fun msg ic =>
       msg ++ fmt_opt (ProductCategory.icon (snd ic)) ++ u " "
           ++ str_of_Z (fst ic) ++ u ". " ++ ProductCategory.name (snd ic)
           ++ nl)
    (enumerate 1 (product_categories d))
    (u "اختر القسم:" ++ nl ++ nl).

Definition _type_message (d : DB) (category_id : pyval) : pystr :=
  let types :=
    filter (fun t => eq_int (ProductType.category_id t) category_id)
           (product_types d) in
  match types with
  | [] => u "عذراً، لا توجد منتجات في هذا القسم حالياً."
  | _ =>
    fold_left
      (fun msg it =>
         let material :=
           if some_nonempty (ProductType.material (snd it))
           then u " (" ++ fmt_opt (ProductType.material (snd it)) ++ u ")"
           else [] in
         msg ++ str_of_Z (fst it) ++ u ". " ++ ProductType.name (snd it)
             ++ material ++ nl)
      (enumerate 1 types)
      (u "اختر النوع:" ++ nl ++ nl)
  end.

Definition variants_of_type (d : DB) (type_id : pyval)
  : list ProductVariant.t :=
  filter (fun v => eq_int (ProductVariant.type_id v) type_id)
         (product_variants d).

Definition key_in (k : pystr) (items : list (pystr * pystr)) : bool :=
  existsb (fun kv => pystr_eqb (fst kv) k) items.

Definition _size_message (d : DB) (type_id : pyval) : pystr :=
  let variants := variants_of_type d type_id in
  let sizes :=
    fold_left
      (fun sizes v =>
         match ProductVariant.size v with
         | Some sz =>
           if some_nonempty (Some sz) && negb (key_in sz sizes) then
             let details :=
               if some_nonempty (ProductVariant.size_details v)
               then u " (" ++ fmt_opt (ProductVariant.size_details v) ++ u ")"
               else [] in
             sizes ++ [(sz, details)]
           else sizes
         | None => sizes
         end)
      variants [] in
  match sizes with
  | [] => u "ما هو الحجم المطلوب؟"
  | _ =>
    fold_left
      (fun msg isd =>
         msg ++ str_of_Z (fst isd) ++ u ". " ++ fst (snd isd)
             ++ snd (snd isd) ++ nl)
      (enumerate 1 sizes)
      (u "📏 اختر الحجم:" ++ nl ++ nl)
  end.

(** [variant_types.add(v.variant_type)] on the set built by
    [_variant_message].  The set is kept as the list of its elements in
    order of first insertion; the order in which Python iterates it is
    [set_iter]. *)
Definition set_add (x : pystr) (l : list pystr) : list pystr :=
  if str_in x l then l else l ++ [x].

Definition variant_types_of (variants : list ProductVariant.t)
  : list pystr :=
  fold_left
    (fun variant_types v =>
       match ProductVariant.variant_type v with
       | Some vt =>
         if some_nonempty (Some vt) then set_add vt variant_types
         else variant_types
       | None => variant_types
       end)
    variants [].

(** The result is [PyNone] where the source returns [None] ("Skip this
    step"). *)
Definition _variant_message (rt : Runtime) (d : DB) (type_id : pyval)
  : pyval :=
  let variants := variants_of_type d type_id in
  let variant_types := variant_types_of variants in
  match variant_types with
  | [] => PyNone
  | _ =>
    PyStr
      (fold_left
         (fun msg ivt =>
            let i := str_of_Z (fst ivt) in
            let vt := snd ivt in
            if contains (u "مزدوج") vt || contains (u "دبل") vt then
              msg ++ i ++ u ". " ++ vt ++ u " (فاخر - عزل حراري عالي) ⭐" ++ nl
            else if contains (u "واحد") vt || contains (u "سنجل") vt then
              msg ++ i ++ u ". " ++ vt ++ u " (اقتصادي)" ++ nl
            else if contains (u "مموج") vt then
              msg ++ i ++ u ". " ++ vt ++ u " (فخم - ملمس بارز) ✨" ++ nl
            else
              msg ++ i ++ u ". " ++ vt ++ nl)
         (enumerate 1 (set_iter rt variant_types))
         (u "اختر النوع:" ++ nl ++ nl))
  end.

(** The line of the variant prompt for the kind [vt] at number [i]. *)
Definition variant_line (ivt : Z * pystr) : pystr :=
  let i := str_of_Z (fst ivt) in
  let vt := snd ivt in
  i ++ u ". " ++ vt
    ++ (if contains (u "مزدوج") vt || contains (u "دبل") vt then
          u " (فاخر - عزل حراري عالي) ⭐"
        else if contains (u "واحد") vt || contains (u "سنجل") vt then
          u " (اقتصادي)"
        else if contains (u "مموج") vt then
          u " (فخم - ملمس بارز) ✨"
        else [])
    ++ nl.

Definition fmt_opt_Z (o : option Z) : pystr :=
  match o with
  | Some z => str_of_Z z
  | None => u "None"
  end.

Definition _quantity_message (d : DB) (state : ConversationState.t)
  : pystr :=
  let min_qty :=
    if truthy (ConversationState.selected_variant_id state) then
      match find (fun v => eq_int (ProductVariant.id v)
                                  (ConversationState.selected_variant_id state))
                 (product_variants d) with
      | Some variant => fmt_opt_Z (ProductVariant.min_quantity variant)
      | None => str_of_Z 500
      end
    else str_of_Z 500 in
  nl ++ u "🔢 كم الكمية المطلوبة؟" ++ nl ++ nl
     ++ u "📌 الحد الأدنى للطلب: " ++ min_qty ++ u " قطعة" ++ nl
     ++ u "💡 كلما زادت الكمية، انخفض سعر الوحدة" ++ nl.

(** [Query.get(ident)]: the row with that primary key. *)
Definition get_category (d : DB) (ident : pyval)
  : option ProductCategory.t :=
  find (fun c => eq_int (ProductCategory.id c) ident) (product_categories d).

Definition get_type (d : DB) (ident : pyval) : option ProductType.t :=
  find (fun t => eq_int (ProductType.id t) ident) (product_types d).

Definition get_variant (d : DB) (ident : pyval) : option ProductVariant.t :=
  find (fun v => eq_int (ProductVariant.id v) ident) (product_variants d).

Definition of_opt_str (o : option pystr) : pyval :=
  match o with Some s => PyStr s | None => PyNone end.

Definition of_opt_Z (o : option Z) : pyval :=
  match o with Some z => PyInt z | None => PyNone end.

(** [d[key] = v] on a dictionary that has the key. *)
Fixpoint dict_set (d : list (pystr * pyval)) (key : pystr) (v : pyval)
  : list (pystr * pyval) :=
  match d with
  | [] => [(key, v)]
  | (k, x) :: d' =>
    if pystr_eqb k key then (k, v) :: d' else (k, x) :: dict_set d' key v
  end.

(** [get_order_summary] as the source has it: the block that builds and
    returns the greeting text stands inside the branch
    [if state.selected_category_id:], so a state with a category yields that
    text and not the dictionary. *)
Definition get_order_summary (d : DB) (state : ConversationState.t)
  : pyval :=
  let result :=
    [ (u "category", PyNone);
      (u "type", PyNone);
      (u "variant", PyNone);
      (u "quantity", ConversationState.selected_quantity state);
      (u "accessories", ConversationState.selected_accessories state);
      (u "customer_name", ConversationState.customer_name state) ] in
  if truthy (ConversationState.selected_category_id state) then
    let result :=
      match get_category d (ConversationState.selected_category_id state) with
      | Some cat => dict_set result (u "category")
                             (PyStr (ProductCategory.name cat))
      | None => result
      end in
    PyStr _greeting_message
  else
    let result :=
      if truthy (ConversationState.selected_variant_id state) then
        match get_variant d (ConversationState.selected_variant_id state) with
        | Some variant =>
          dict_set result (u "variant")
            (PyDict
               [ (u "name", PyStr (ProductVariant.name variant));
                 (u "size", of_opt_str (ProductVariant.size variant));
                 (u "size_details",
                  of_opt_str (ProductVariant.size_details variant));
                 (u "variant_type",
                  of_opt_str (ProductVariant.variant_type variant));
                 (u "min_quantity",
                  of_opt_Z (ProductVariant.min_quantity variant)) ])
        | None => result
        end
      else result in
    PyDict result.

(* ================================================================== *)
(** ** [order_service.py] and [payment_service.py] *)

Definition create_order_from_state (d : DB) (now : Z)
    (state : ConversationState.t) : Order.t * DB :=
  let summary := get_order_summary d state in
  let order :=
    Order.mk
      (next_id (map Order.id (orders d)))
      (ConversationState.phone_number state)
      (py_or (ConversationState.customer_name state)
             (PyStr (u "عميل بدون اسم")))
      PyNone
      summary
      PyNone
      PyNone
      (PyStr (u "PendingApproval"))
      PyNone PyNone PyNone PyNone
      (PyStr (u "Pending"))
      PyNone PyNone
      (PyDateTime now) in
  (order, with_orders d (orders d ++ [order])).

(** [db.query(Order).get(order_id)]. *)
Definition has_id (order_id : Z) (o : Order.t) : bool :=
  Order.id o =? order_id.

Definition get_order (d : DB) (order_id : Z) : option Order.t :=
  find (has_id order_id) (orders d).

Definition not_found (order_id : Z) : exn :=
  ValueError (u "Order " ++ str_of_Z order_id ++ u " not found").

Definition set_management_decision (d : DB) (order_id : Z)
    (has_capacity : bool) (approved_amount estimated_days : pyval)
  : result Order.t * DB :=
  match get_order d order_id with
  | None => (Raise (not_found order_id), d)
  | Some order =>
    let order := Order.set_has_capacity (PyBool has_capacity) order in
    let order :=
      if negb has_capacity then
        Order.set_status (PyStr (u "RejectedNoCapacity")) order
      else
        let order := Order.set_approved_amount approved_amount order in
        let order := Order.set_estimated_days estimated_days order in
        let order := Order.set_total_amount approved_amount order in
        Order.set_status (PyStr (u "ApprovedWaitingPayment")) order in
    (Ok order,
     with_orders d (update_first (has_id order_id) (fun _ => order) (orders d)))
  end.

Definition mark_order_paid (d : DB) (now : Z) (order_id : Z)
  : result Order.t * DB :=
  match get_order d order_id with
  | None => (Raise (not_found order_id), d)
  | Some order =>
    let order := Order.set_payment_status (PyStr (u "Paid")) order in
    let order := Order.set_status (PyStr (u "Paid")) order in
    let order := Order.set_paid_at (PyDateTime now) order in
    (Ok order,
     with_orders d (update_first (has_id order_id) (fun _ => order) (orders d)))
  end.

(** [create_payment_link] receives the order object.  An order whose key
    the store holds is the object of the session for that row: the commit
    writes its attributes to the row.  An order whose key the store does
    not hold is not persistent in the session: the commit writes nothing
    and [db.refresh(order)] raises [InvalidRequestError]. *)
Definition create_payment_link (d : DB) (order : Order.t)
  : result Order.t * DB :=
  if Order.id order =? 0 then
    (Raise (ValueError
              (u "Order must be persisted before creating payment link")), d)
  else
    let dummy_url :=
      u "https://pay.example.com/order/" ++ str_of_Z (Order.id order) in
    let order := Order.set_payment_url (PyStr dummy_url) order in
    let order := Order.set_payment_status (PyStr (u "Pending")) order in
    match get_order d (Order.id order) with
    | Some _ =>
      (Ok order,
       with_orders d
         (update_first (has_id (Order.id order)) (fun _ => order) (orders d)))
    | None => (Raise InvalidRequestError, d)
    end.

(* ================================================================== *)
(** ** The effect monad of a turn *)

(** What a turn can change: the store, and the messages handed to
    [send_response] (recipient and text, oldest first). *)
Record World : Type := mkWorld {
  db : DB;
  outbox : list (pystr * pyval)
}.

Definition M (A : Type) : Type := World -> result A * World.

Definition ret {A : Type} (a : A) : M A := fun w => (Ok a, w).

Definition raise {A : Type} (e : exn) : M A := fun w => (Raise e, w).

Definition bind {A B : Type} (m : M A) (k : A -> M B) : M B :=
  fun w =>
    match m w with
    | (Ok a, w') => k a w'
    | (Raise e, w') => (Raise e, w')
    end.

Notation "x <- m ;; k" := (bind m (fun x => k))
  (at level 61, m at next level, right associativity).

(** A store operation that cannot fail. *)
Definition on_db {A : Type} (f : DB -> A * DB) : M A :=
  fun w => let (a, d) := f (db w) in (Ok a, mkWorld d (outbox w)).

(** A store operation that may raise. *)
Definition try_db {A : Type} (f : DB -> result A * DB) : M A :=
  fun w => let (r, d) := f (db w) in (r, mkWorld d (outbox w)).

(** A computation that reads the store and may raise. *)
Definition read_db {A : Type} (f : DB -> result A) : M A :=
  fun w => (f (db w), w).

Definition of_result {A : Type} (r : result A) : M A := fun w => (r, w).

(** [keeps f m]: running [m] leaves the part [f] of the store as it was,
    whether [m] returns or raises. *)
Definition keeps {A T : Type} (f : DB -> T) (m : M A) : Prop :=
  forall w, f (db (snd (m w))) = f (db w).

(** [appends m]: running [m] adds orders at the end of the table, if
    any, and rewrites none. *)
Definition appends {A : Type} (m : M A) : Prop :=
  forall w, exists l, orders (db (snd (m w))) = orders (db w) ++ l.

(** The order with key [i] is stored and has no total amount. *)
Definition unpriced (i : Z) (d : DB) : Prop :=
  exists o, get_order d i = Some o /\ Order.total_amount o = PyNone.

(** [send_response]: the Twilio call is wrapped in a handler that logs and
    returns [False], and the simulated path prints, so nothing is raised. *)
Definition send_response (to_number : pystr) (message : pyval) : M unit :=
  fun w => (Ok tt, mkWorld (db w) (outbox w ++ [(to_number, message)])).

(** [create_invoice] ends by building [Order(..., product_name=...)].
    [Order] has no attribute of that name and the declarative constructor
    raises [TypeError] on such a keyword, so no call returns and no row is
    added.  Rendering the document is outside the store. *)
Definition create_invoice (customer_name : pyval)
    (customer_phone : pystr) (product_name : pyval) (price : Z)
  : M pystr :=
  raise TypeError.

Definition logs_table : pystr := u "chat_logs".

(** The log row as the database holds it: the four columns the handler
    sets, bound in a commit. *)
Definition stored_log (rt : Runtime) (d : DB) (l : ChatLog.t)
  : result ChatLog.t :=
  match stored rt d logs_table (u "phone_number")
               (Decl Sql.String false false) (ChatLog.phone_number l) with
  | Raise e => Raise e
  | Ok phone_number =>
    match stored rt d logs_table (u "message_type")
                 (Decl Sql.String true false) (ChatLog.message_type l) with
    | Raise e => Raise e
    | Ok message_type =>
      match stored rt d logs_table (u "message_content")
                   (Decl Sql.String true false)
                   (ChatLog.message_content l) with
      | Raise e => Raise e
      | Ok message_content =>
        match stored rt d logs_table (u "intent")
                     (Decl Sql.String true false) (ChatLog.intent l) with
        | Raise e => Raise e
        | Ok intent =>
          Ok (ChatLog.mk phone_number message_type message_content intent
                         (ChatLog.timestamp l))
        end
      end
    end
  end.

Fixpoint stored_logs (rt : Runtime) (d : DB) (logs : list ChatLog.t)
  : result (list ChatLog.t) :=
  match logs with
  | [] => Ok []
  | l :: logs' =>
    match stored_log rt d l with
    | Raise e => Raise e
    | Ok row =>
      match stored_logs rt d logs' with
      | Raise e => Raise e
      | Ok rows => Ok (row :: rows)
      end
    end
  end.

(** [db.add(log); db.add(out_log); db.commit()]: the rows are written
    together, or the commit raises and none is. *)
Definition commit_logs (rt : Runtime) (logs : list ChatLog.t) : M unit :=
  fun w =>
    match stored_logs rt (db w) logs with
    | Ok rows =>
      (Ok tt, mkWorld (with_logs (db w) (chat_logs (db w) ++ rows))
                      (outbox w))
    | Raise e => (Raise e, w)
    end.

(** [v.get(key)]: only a dictionary has the method. *)
Definition py_get (v : pyval) (key : pystr) : result pyval :=
  match v with
  | PyDict d => Ok (dict_get d key)
  | _ => Raise AttributeError
  end.

Fixpoint join (sep : pystr) (lines : list pystr) : pystr :=
  match lines with
  | [] => []
  | [x] => x
  | x :: rest => x ++ sep ++ join sep rest
  end.

Definition dq : pystr := [34%N].

Definition reset_words : list pystr :=
  [ u "إلغاء"; u "cancel"; u "بداية"; u "start"; u "من جديد" ].

Definition approve_words : list pystr :=
  [ u "موافق"; u "ok"; u "نعم"; u "تمام" ].

Definition edit_words : list pystr := [ u "تعديل"; u "edit" ].

Definition cancel_words : list pystr :=
  [ u "إلغاء"; u "الغاء"; u "cancel" ].

Definition order_received : pystr :=
  u "تم استلام طلبك." ++ nl
  ++ u "بحال توفر طلبك وموافقة الادارة على التنفيذ راح أعطيك تفاصيل الدفع بأقرب وقت.".

Definition order_cancelled : pystr :=
  u "تم إلغاء الطلب الحالي. متى ما حبيت نبدأ من جديد أنا جاهز.".

Definition error_msg : pystr :=
  nl ++ u "عذراً، حدث خطأ. 😅" ++ nl ++ nl
  ++ u "يمكنك:" ++ nl
  ++ u "• كتابة " ++ dq ++ u "بداية" ++ dq ++ u " للبدء من جديد" ++ nl
  ++ u "• أو اكتب ما تحتاجه وسأحاول مساعدتك" ++ nl.

(** The remote chat completion: the request is the list of (role, content)
    messages; an answer is the content of each choice ([None] when a choice
    carries no text), a failure is an exception. *)
Definition chat_api : Type :=
  list (pystr * pystr) -> result (list (option pystr)).

(** What [analyze_message] returns: the dictionary with the keys
    [response] and [data]. *)
Record Analysis : Type := mkAnalysis {
  response : pystr;
  data : pyval
}.

Section Engine.

Variable rt : Runtime.

(** [str.lower], [format(v)] as an f-string applies it to a value of
    unknown type, and [json.loads]. *)
Variable py_lower : pystr -> pystr.
Variable py_format : pyval -> pystr.
Variable json_loads : pystr -> result pyval.

(** The two prompt texts of [ai_service.py], which only travel to the
    remote model. *)
Variable SYSTEM_PROMPT : pystr.
Variable EXTRACTION_PROMPT : pystr.

(** *** [build_final_summary] and [generate_step_message] *)

Fixpoint accessory_items (l : list pyval) : result (list pystr) :=
  match l with
  | [] => Ok []
  | PyDict acc :: l' =>
    let name := py_or (dict_get acc (u "name")) (dict_get acc (u "id")) in
    let qty := dict_get acc (u "qty") in
    match accessory_items l' with
    | Ok rest =>
      if truthy name && truthy qty
      then Ok ((u "  • " ++ py_format name ++ u " × " ++ py_format qty)
               :: rest)
      else Ok rest
    | Raise e => Raise e
    end
  | _ :: _ => Raise AttributeError
  end.

(** [for acc in state.selected_accessories], entered with a truthy value:
    a list yields its elements; a dictionary or a string yields strings, on
    which [.get] is missing; any other value is not iterable. *)
Definition accessory_lines (accessories : pyval) : result (list pystr) :=
  match accessories with
  | PyList l => accessory_items l
  | PyDict _ | PyStr _ => Raise AttributeError
  | _ => Raise TypeError
  end.

Definition build_final_summary (d : DB) (state : ConversationState.t)
  : result pystr :=
  let lines := [ u "📋 ملخص طلبك النهائي:"; [] ] in
  let lines :=
    if truthy (ConversationState.selected_category_id state) then
      match get_category d (ConversationState.selected_category_id state) with
      | Some category =>
        lines ++ [ u "🗂 القسم: " ++ ProductCategory.name category ]
      | None => lines
      end
    else lines in
  let lines :=
    if truthy (ConversationState.selected_type_id state) then
      match get_type d (ConversationState.selected_type_id state) with
      | Some ptype =>
        let material :=
          if some_nonempty (ProductType.material ptype)
          then u " (" ++ fmt_opt (ProductType.material ptype) ++ u ")"
          else [] in
        lines ++ [ u "📄 النوع: " ++ ProductType.name ptype ++ material ]
      | None => lines
      end
    else lines in
  let lines :=
    if truthy (ConversationState.selected_variant_id state) then
      match get_variant d (ConversationState.selected_variant_id state) with
      | Some variant =>
        let lines := lines ++ [ u "📦 المنتج: " ++ ProductVariant.name variant ] in
        let lines :=
          if some_nonempty (ProductVariant.size_details variant) then
            lines ++ [ u "📏 المقاس: "
                       ++ fmt_opt (ProductVariant.size_details variant) ]
          else if some_nonempty (ProductVariant.size variant) then
            lines ++ [ u "📏 المقاس: " ++ fmt_opt (ProductVariant.size variant) ]
          else lines in
        if some_nonempty (ProductVariant.variant_type variant) then
          lines ++ [ u "⚙️ النوع: "
                     ++ fmt_opt (ProductVariant.variant_type variant) ]
        else lines
      | None => lines
      end
    else lines in
  let lines :=
    if truthy (ConversationState.selected_quantity state) then
      lines ++ [ u "🔢 الكمية: "
                 ++ py_format (ConversationState.selected_quantity state) ]
    else lines in
  match
    (if truthy (ConversationState.selected_accessories state) then
       match accessory_lines (ConversationState.selected_accessories state) with
       | Ok accs => Ok (lines ++ [ u "➕ الملحقات:" ] ++ accs)
       | Raise e => Raise e
       end
     else Ok lines)
  with
  | Raise e => Raise e
  | Ok lines =>
    let lines :=
      if truthy (ConversationState.notes state) then
        lines ++ [ []; u "📝 ملاحظات العميل: "
                       ++ py_format (ConversationState.notes state) ]
      else lines in
    let lines :=
      lines ++ [ [];
                 u "💰 السعر: سيتم تحديده من قبل إدارة مطبعة خالد الحسن بعد مراجعة الإمكانية." ] in
    Ok (join nl lines)
  end.

Definition _confirm_message (d : DB) (state : ConversationState.t)
  : result pystr :=
  match build_final_summary d state with
  | Ok summary =>
    Ok (summary ++ nl ++ nl ++ u "هذا هو ملخص طلبك النهائي." ++ nl ++ nl
                ++ u "هل أنت موافق على هذا الطلب؟" ++ nl
                ++ u "اكتب: موافق / تعديل / إلغاء")
  | Raise e => Raise e
  end.

Definition generate_step_message (d : DB) (state : ConversationState.t)
  : result pyval :=
  let current_step := ConversationState.current_step state in
  if eq_str current_step (u "greeting") then
    Ok (PyStr _greeting_message)
  else if eq_str current_step (u "category") then
    Ok (PyStr (_category_message d))
  else if eq_str current_step (u "type") then
    Ok (PyStr (_type_message d (ConversationState.selected_category_id state)))
  else if eq_str current_step (u "size") then
    Ok (PyStr (_size_message d (ConversationState.selected_type_id state)))
  else if eq_str current_step (u "variant") then
    Ok (_variant_message rt d (ConversationState.selected_type_id state))
  else if eq_str current_step (u "quantity") then
    Ok (PyStr (_quantity_message d state))
  else if eq_str current_step (u "confirm") then
    match _confirm_message d state with
    | Ok msg => Ok (PyStr msg)
    | Raise e => Raise e
    end
  else Ok (PyStr (u "كيف يمكنني مساعدتك؟")).

(** *** [analyze_message] *)

Definition marker : pystr := u "---JSON---".

Definition intent_only (intent : pystr) : pyval :=
  PyDict [ (u "intent", PyStr intent) ].

(** The body of the [try] block. *)
Definition analyze_body (acreate : chat_api) (message : pystr)
    (conversation_history : option (list (pystr * pystr)))
  : result Analysis :=
  let messages := [ (u "system", SYSTEM_PROMPT) ] in
  let messages :=
    match conversation_history with
    | Some (h :: hs) => messages ++ (h :: hs)
    | _ => messages
    end in
  let messages := messages ++ [ (u "user", message) ] in
  let messages := messages ++ [ (u "system", EXTRACTION_PROMPT) ] in
  match acreate messages with
  | Raise e => Raise e
  | Ok choices =>
    match choices with
    | [] => Raise IndexError
    | None :: _ => Raise TypeError
    | Some full_response :: _ =>
      if contains marker full_response then
        let parts := split marker full_response in
        let response_text := strip (nth 0 parts []) in
        let extracted_data :=
          match json_loads (strip (nth 1 parts [])) with
          | Ok v => v
          | Raise _ => intent_only (u "other")
          end in
        Ok (mkAnalysis response_text extracted_data)
      else
        Ok (mkAnalysis full_response (intent_only (u "other")))
    end
  end.

Definition low_confidence : Analysis :=
  mkAnalysis (u "عذراً، حدث خطأ. كيف يمكنني مساعدتك؟") (intent_only (u "error")).

(** [try: ... except Exception as e: ...]: the function is [async]; one
    call is one run of its body. *)
Definition analyze_message (acreate : chat_api) (message : pystr)
    (conversation_history : option (list (pystr * pystr)))
  : result Analysis :=
  match analyze_body acreate message conversation_history with
  | Ok r => Ok r
  | Raise _ => Ok low_confidence
  end.

(** *** [process_message_task] *)

(** [v[key]] on the dictionaries [get_order_summary] builds. *)
Definition py_item (v : pyval) (key : pystr) : result pyval :=
  match v with
  | PyDict d =>
    if existsb (fun kv => pystr_eqb (fst kv) key) d
    then Ok (dict_get d key)
    else Raise KeyError
  | _ => Raise TypeError
  end.

Definition invoice_issued (product_name quantity : pyval) : pystr :=
  nl ++ u "✅ تم إصدار الفاتورة!" ++ nl ++ nl
  ++ u "📋 تفاصيل الطلب:" ++ nl
  ++ u "📦 " ++ py_format product_name ++ nl
  ++ u "🔢 الكمية: " ++ py_format quantity ++ nl ++ nl
  ++ u "سيتم التواصل معك لتأكيد الطلب والتسليم." ++ nl
  ++ u "شكراً لتعاملك معنا! 🙏" ++ nl.

(** The query [ProductCategory.name.like(f"%{category}%")] with [.first()]. *)
Definition find_category_like (d : DB) (category : pyval)
  : option ProductCategory.t :=
  find (fun c => like (u "%" ++ py_format category ++ u "%")
                      (ProductCategory.name c))
       (product_categories d).

(** The handler after the call of [analyze_message], block by block.
    [state] is rebound to the row each store operation returns: it is the
    object the handler holds. *)

(** [if extracted_data.get("category"): ...] *)
Definition merge_category (now : Z) (sender_phone : pystr)
    (extracted_data : pyval) (state : ConversationState.t)
  : M ConversationState.t :=
  category <- of_result (py_get extracted_data (u "category")) ;;
  if truthy category then
    cat <- read_db (fun d => Ok (find_category_like d category)) ;;
    match cat with
    | Some cat =>
      try_db (fun d =>
        update_state rt d now sender_phone
          [ (u "selected_category_id", PyInt (ProductCategory.id cat));
            (u "current_step", PyStr (u "type")) ])
    | None => ret state
    end
  else ret state.

(** [if extracted_data.get("quantity"): ...] *)
Definition merge_quantity (now : Z) (sender_phone : pystr)
    (extracted_data : pyval) (state : ConversationState.t)
  : M ConversationState.t :=
  quantity <- of_result (py_get extracted_data (u "quantity")) ;;
  if truthy quantity then
    try_db (fun d =>
      update_state rt d now sender_phone
        [ (u "selected_quantity", quantity);
          (u "current_step", PyStr (u "confirm")) ])
  else ret state.

(** [if extracted_data.get("ready_for_invoice"): ...]; the result is the
    response text and the state the handler holds afterwards. *)
Definition invoice_if_ready (now : Z) (sender_phone : pystr)
    (extracted_data response_text : pyval) (state : ConversationState.t)
  : M (pyval * ConversationState.t) :=
  ready_for_invoice <-
    of_result (py_get extracted_data (u "ready_for_invoice")) ;;
  if truthy ready_for_invoice then
    order_summary <- read_db (fun d => Ok (get_order_summary d state)) ;;
    variant <- of_result (py_get order_summary (u "variant")) ;;
    if truthy variant
       && truthy (ConversationState.selected_quantity state) then
      product_name <- of_result (py_item variant (u "name")) ;;
      invoice_path <-
        create_invoice
          (py_or (ConversationState.customer_name state)
                 (PyStr (u "عميل")))
          sender_phone product_name 0 ;;
      let response_text :=
        PyStr (invoice_issued product_name
                 (ConversationState.selected_quantity state)) in
      state <- on_db (fun d => reset_state d now sender_phone) ;;
      ret (response_text, state)
    else ret (response_text, state)
  else ret (response_text, state).

(** From [if not response_text:] to the commit of the two log rows.  The
    reply is sent before the rows are built and committed. *)
Definition respond_and_log (now : Z) (incoming_msg sender_phone : pystr)
    (extracted_data response_text : pyval) (state : ConversationState.t)
  : M unit :=
  response_text <-
    (if negb (truthy response_text)
     then read_db (fun d => generate_step_message d state)
     else ret response_text) ;;
  _ <- send_response sender_phone response_text ;;
  intent <- of_result (py_get extracted_data (u "intent")) ;;
  commit_logs rt
    [ ChatLog.mk (PyStr sender_phone) (PyStr (u "incoming"))
                 (PyStr incoming_msg) intent (PyDateTime now);
      ChatLog.mk (PyStr sender_phone) (PyStr (u "outgoing"))
                 response_text PyNone (PyDateTime now) ].

Definition interpret_message (acreate : chat_api) (now : Z)
    (incoming_msg sender_phone : pystr) (state : ConversationState.t)
  : M unit :=
  result <- of_result (analyze_message acreate incoming_msg None) ;;
  let response_text := PyStr (response result) in
  let extracted_data := data result in
  state <- merge_category now sender_phone extracted_data state ;;
  state <- merge_quantity now sender_phone extracted_data state ;;
  rs <- invoice_if_ready now sender_phone extracted_data response_text state ;;
  respond_and_log now incoming_msg sender_phone extracted_data
                  (fst rs) (snd rs).

(** The body of the [try] block of the handler. *)
Definition process_body (acreate : chat_api) (now : Z)
    (incoming_msg sender_phone : pystr) : M unit :=
  state <- on_db (fun d => get_or_create_state d now sender_phone) ;;
  if str_in (py_lower (strip incoming_msg)) reset_words then
    state <- on_db (fun d => reset_state d now sender_phone) ;;
    response_text <- read_db (fun d => generate_step_message d state) ;;
    send_response sender_phone response_text
  else if eq_str (ConversationState.current_step state) (u "confirm") then
    let normalized := py_lower (strip incoming_msg) in
    if str_in normalized approve_words then
      order <- on_db (fun d => create_order_from_state d now state) ;;
      send_response sender_phone (PyStr order_received)
    else if str_in normalized edit_words then
      state <- try_db (fun d =>
                 update_state rt d now sender_phone
                   [ (u "current_step", PyStr (u "quantity")) ]) ;;
      response_text <- read_db (fun d => generate_step_message d state) ;;
      send_response sender_phone response_text
    else if str_in normalized cancel_words then
      state <- on_db (fun d => reset_state d now sender_phone) ;;
      send_response sender_phone (PyStr order_cancelled)
    else interpret_message acreate now incoming_msg sender_phone state
  else interpret_message acreate now incoming_msg sender_phone state.

(** The turns that reach [analyze_message]: the message is no reset word
    and, at step [confirm], none of the words answered there. *)
Definition reaches_interpretation (incoming_msg : pystr)
    (state : ConversationState.t) : bool :=
  let normalized := py_lower (strip incoming_msg) in
  negb (str_in normalized reset_words)
  && negb (eq_str (ConversationState.current_step state) (u "confirm")
           && (str_in normalized approve_words
               || str_in normalized edit_words
               || str_in normalized cancel_words)).

(** One turn.  Every store operation commits as it runs, and a commit that
    raises is rolled back, so the handler of [except Exception] finds the
    store as the last commit left it; it sends the apology, whether or not a
    reply has been sent before. *)
Definition process_message_task (acreate : chat_api) (now : Z)
    (incoming_msg sender_phone : pystr) (w : World) : World :=
  match process_body acreate now incoming_msg sender_phone w with
  | (Ok _, w') => w'
  | (Raise _, w') => snd (send_response sender_phone (PyStr error_msg) w')
  end.

(** *** Histories

    What can happen to the store besides a management decision: a turn of
    a conversation, a direct call of the state store, a payment
    confirmation, and the creation of a payment link for a persisted
    order (the object passed is the row with that key). *)
Inductive event : Type :=
| Turn (acreate : chat_api) (now : Z) (incoming_msg sender_phone : pystr)
| UpdateState (now : Z) (phone_number : pystr)
              (kwargs : list (pystr * pyval))
| ResetState (now : Z) (phone_number : pystr)
| MarkPaid (now : Z) (order_id : Z)
| PaymentLink (order_id : Z).

Definition apply_event (e : event) (w : World) : World :=
  match e with
  | Turn acreate now incoming_msg sender_phone =>
    process_message_task acreate now incoming_msg sender_phone w
  | UpdateState now phone_number kwargs =>
    mkWorld (snd (update_state rt (db w) now phone_number kwargs))
            (outbox w)
  | ResetState now phone_number =>
    mkWorld (snd (reset_state (db w) now phone_number)) (outbox w)
  | MarkPaid now order_id =>
    mkWorld (snd (mark_order_paid (db w) now order_id)) (outbox w)
  | PaymentLink order_id =>
    match get_order (db w) order_id with
    | Some order => mkWorld (snd (create_payment_link (db w) order)) (outbox w)
    | None => w
    end
  end.

Definition run (events : list event) (w : World) : World :=
  fold_left (fun w e => apply_event e w) events w.

End Engine.

(* ================================================================== *)
(** ** Concrete data for the examples

    Instances of the section variables that agree with the built-ins on
    the values the examples use, part of the catalogue [init_db] seeds
    (variant keys as the autoincrement assigns them in seeding order), and
    one customer. *)

(** A runtime for the examples.  It knows four of the inherited names:
    assigning [metadata] or [registry] shadows the class attribute,
    assigning [__class__] raises [TypeError], and after an assignment to
    [_sa_instance_state] the assignment of [updated_at] raises
    [AttributeError].  Its database refuses every value that does not fit
    its column, an integer with [OverflowError]; this is what SQLite does
    with the values the examples bind (a list, a dictionary, and an
    integer beyond 64 bits in an integer column).  Its sets are iterated
    in order of insertion. *)
Definition sqlite : Runtime :=
  mkRuntime
    (fun key =>
       str_in key [ u "metadata"; u "registry"; u "__class__";
                    u "_sa_instance_state" ])
    (fun key value =>
       if pystr_eqb key (u "__class__") then Some TypeError
       else if pystr_eqb key (u "_sa_instance_state") then Some AttributeError
       else None)
    (fun d table column value =>
       match value with
       | PyInt _ => Raise OverflowError
       | _ => Raise StatementError
       end)
    (fun elements => elements).

(** [str.lower] on a string whose cased characters are ASCII letters. *)
Definition lower_ascii (s : pystr) : pystr := map ascii_fold s.

(** [format] on a string, an integer, a Boolean and [None]. *)
Definition format_plain (v : pyval) : pystr :=
  match v with
  | PyStr s => s
  | PyInt z => str_of_Z z
  | PyBool true => u "True"
  | PyBool false => u "False"
  | _ => u "None"
  end.

(** The JSON document [{"quantity": 1000}]. *)
Definition quantity_doc : pystr :=
  u "{" ++ dq ++ u "quantity" ++ dq ++ u ": 1000}".

(** [json.loads] on [quantity_doc]; any other text is taken as malformed. *)
Definition json_sample (s : pystr) : result pyval :=
  if pystr_eqb s quantity_doc
  then Ok (PyDict [ (u "quantity", PyInt 1000) ])
  else Raise (ValueError (u "Expecting value")).

Definition catalogue : DB :=
  mkDB
    [ ProductCategory.mk 1 (u "أكواب") (Some (u "☕"));
      ProductCategory.mk 3 (u "علب الطعام") (Some (u "🍔")) ]
    [ ProductType.mk 1 1 (u "أكواب ساخنة") (Some (u "ورق مقوى"));
      ProductType.mk 6 3 (u "علب البرجر") (Some (u "كرتون")) ]
    [ ProductVariant.mk 2 1 (u "كوب ساخن 8oz سنجل") (Some (u "8 oz")) None
        (Some (u "جدار واحد")) (Some 500) true;
      ProductVariant.mk 5 1 (u "كوب ساخن 8oz دبل") (Some (u "8 oz")) None
        (Some (u "جدار مزدوج")) (Some 500) true;
      ProductVariant.mk 23 6 (u "علبة برجر عادي") (Some (u "عادي"))
        (Some (u "10×10 سم")) None (Some 500) true;
      ProductVariant.mk 24 6 (u "علبة برجر جامبو") (Some (u "جامبو"))
        (Some (u "12×12 سم")) None (Some 500) true ]
    [] [] [].

Definition customer : pystr := u "+100".

(** The customer's row with the given step and selections. *)
Definition row (step : pystr) (category type_ variant quantity name : pyval)
  : ConversationState.t :=
  ConversationState.mk (PyInt 1) (PyStr customer) (PyStr step)
    category type_ variant quantity PyNone name PyNone PyNone
    (PyDateTime 0).

Definition world_with (s : ConversationState.t) : World :=
  mkWorld (with_states catalogue [s]) [].

(** The customer of the specification's scenario: at step [confirm] with
    the double-wall 8 oz hot cup and a quantity of 1000. *)
Definition at_confirm : ConversationState.t :=
  row (u "confirm") (PyInt 1) (PyInt 1) (PyInt 5) (PyInt 1000) PyNone.

(** A remote model that fails, one that answers with an empty text, and
    one that answers with a sentence followed by [quantity_doc]. *)
Definition api_down : chat_api := fun _ => Raise (RemoteError 503).

Definition api_silent : chat_api := fun _ => Ok [ Some [] ].

Definition api_quantity : chat_api :=
  fun _ => Ok [ Some (u "تمام" ++ u "---JSON---" ++ quantity_doc) ].

(* ================================================================== *)
(** ** Further operations of the services *)

(** [ConversationManager.find_matching_variant]: the filters on the type
    and on availability, a [LIKE] filter for each criterion that is given
    and not empty, and [.first()].  A [NULL] column matches no [LIKE]. *)
Definition like_opt (pattern : pystr) (col : option pystr) : bool :=
  match col with
  | Some s => like pattern s
  | None => false
  end.

Definition find_matching_variant (d : DB) (type_id : Z)
    (size variant_type : option pystr) : option ProductVariant.t :=
  let query := fun v : ProductVariant.t =>
    (ProductVariant.type_id v =? type_id) && ProductVariant.is_available v in
  let query :=
    if some_nonempty size
    then fun v => query v
                  && like_opt (u "%" ++ fmt_opt size ++ u "%")
                              (ProductVariant.size v)
    else query in
  let query :=
    if some_nonempty variant_type
    then fun v => query v
                  && like_opt (u "%" ++ fmt_opt variant_type ++ u "%")
                              (ProductVariant.variant_type v)
    else query in
  find query (product_variants d).

(** [any(word in s for word in words)]. *)
Definition any_in (words : list pystr) (s : pystr) : bool :=
  existsb (fun word => contains word s) words.

(** Where [re.search] finds [(\d+)]: the first decimal digit of the text
    and the digits that follow it without a gap. *)
Fixpoint take_while (p : N -> bool) (s : pystr) : pystr :=
  match s with
  | c :: s' => if p c then c :: take_while p s' else []
  | [] => []
  end.

Fixpoint drop_until (p : N -> bool) (s : pystr) : pystr :=
  match s with
  | c :: s' => if p c then s else drop_until p s'
  | [] => []
  end.

Definition first_digits (isdecimal : N -> bool) (s : pystr) : pystr :=
  take_while isdecimal (drop_until isdecimal s).

Definition greetings : list pystr :=
  [ u "مرحب"; u "السلام"; u "صباح"; u "مساء"; u "هلا"; u "أهلا"; u "هاي";
    u "hello" ].

Definition sizes : list (pystr * pystr) :=
  [ (u "صغير", u "صغير"); (u "وسط", u "وسط"); (u "كبير", u "كبير");
    (u "4", u "4 oz"); (u "8", u "8 oz"); (u "12", u "12 oz");
    (u "16", u "16 oz") ].

Section Fallback.

(** [str.lower]; the test [\d] of the [re] module on a [str] pattern (a
    decimal digit of any script); [int] on a run of such digits, which
    raises [ValueError] on a run longer than the interpreter's limit for
    the conversion (4300 digits unless configured otherwise);
    [json.loads]; and the prompt [analyze_intent] builds around the
    message, which only travels to the remote model. *)
Variable py_lower : pystr -> pystr.
Variable py_isdecimal : N -> bool.
Variable py_int : pystr -> result Z.
Variable json_loads : pystr -> result pyval.
Variable intent_prompt : pystr -> pystr.

Definition detect_category (message_lower : pystr) : pystr :=
  if any_in [ u "كوب"; u "اكواب"; u "أكواب"; u "cup" ] message_lower then
    u "أكواب"
  else if any_in [ u "كيس"; u "اكياس"; u "أكياس"; u "bag" ] message_lower then
    u "أكياس"
  else if any_in [ u "علب"; u "علبة"; u "برجر"; u "بيتزا"; u "box" ]
                 message_lower then
    u "علب"
  else if any_in [ u "كيك"; u "حلو"; u "ايس كريم"; u "cake" ]
                 message_lower then
    u "حلويات"
  else u "none".

(** The dictionary [extracted], in the order its keys are set; the
    exception is the one [int] raises. *)
Definition detect_extracted (message_lower : pystr)
  : result (list (pystr * pyval)) :=
  let extracted := [] in
  let extracted :=
    match find (fun kv => contains (fst kv) message_lower) sizes with
    | Some kv => extracted ++ [ (u "size", PyStr (snd kv)) ]
    | None => extracted
    end in
  let extracted :=
    if contains (u "دبل") message_lower
       || contains (u "مزدوج") message_lower then
      extracted ++ [ (u "variant", PyStr (u "جدار مزدوج")) ]
    else if contains (u "سنجل") message_lower
            || contains (u "واحد") message_lower
            || contains (u "عادي") message_lower then
      extracted ++ [ (u "variant", PyStr (u "جدار واحد")) ]
    else if contains (u "مموج") message_lower then
      extracted ++ [ (u "variant", PyStr (u "جدار مموج")) ]
    else extracted in
  match first_digits py_isdecimal message_lower with
  | [] => Ok extracted
  | digits =>
    match py_int digits with
    | Ok quantity => Ok (extracted ++ [ (u "quantity", PyInt quantity) ])
    | Raise e => Raise e
    end
  end.

Definition fallback_intent_detection (message : pystr) : result pyval :=
  let message_lower := py_lower message in
  if any_in greetings message_lower then
    Ok (PyDict [ (u "intent", PyStr (u "greeting"));
                 (u "product_category", PyStr (u "none"));
                 (u "extracted_info", PyDict []) ])
  else
    let category := detect_category message_lower in
    match detect_extracted message_lower with
    | Raise e => Raise e
    | Ok extracted =>
      let intent :=
        if negb (pystr_eqb category (u "none")) then u "inquiry"
        else u "other" in
      Ok (PyDict [ (u "intent", PyStr intent);
                   (u "product_category", PyStr category);
                   (u "extracted_info", PyDict extracted) ])
    end.

(** The body of the [try] block of [analyze_intent]. *)
Definition analyze_intent_body (acreate : chat_api) (message : pystr)
  : result pyval :=
  match acreate [ (u "user", intent_prompt message) ] with
  | Raise e => Raise e
  | Ok choices =>
    match choices with
    | [] => Raise IndexError
    | None :: _ => Raise AttributeError
    | Some content :: _ =>
      let result_text := strip content in
      let result_text :=
        if contains (u "```json") result_text then
          strip (nth 0 (split (u "```")
                              (nth 1 (split (u "```json") result_text) []))
                     [])
        else if contains (u "```") result_text then
          strip (nth 0 (split (u "```")
                              (nth 1 (split (u "```") result_text) []))
                     [])
        else result_text in
      json_loads result_text
    end
  end.

(** [try: ... except Exception as e: ... return
    fallback_intent_detection(message)]: what the handler raises is
    raised by the function. *)
Definition analyze_intent (acreate : chat_api) (message : pystr)
  : result pyval :=
  match analyze_intent_body acreate message with
  | Ok v => Ok v
  | Raise _ => fallback_intent_detection message
  end.

End Fallback.

(** [quiet m]: [m] sends nothing, whether it returns or raises. *)
Definition quiet {A : Type} (m : M A) : Prop :=
  forall w, outbox (snd (m w)) = outbox w.

(** [replied to w r]: the run from [w] that ended as [r] has sent one
    message, to [to], if it returned, and none if it raised. *)
Definition replied {A : Type} (to : pystr) (w : World)
    (r : result A * World) : Prop :=
  match r with
  | (Ok _, w') => exists msg, outbox w' = outbox w ++ [(to, msg)]
  | (Raise _, w') => outbox w' = outbox w
  end.

(** [replies to m]: when [m] returns it has sent one message, to [to]; when
    it raises it has sent none. *)
Definition replies {A : Type} (to : pystr) (m : M A) : Prop :=
  forall w, replied to w (m w).

(** The declaration of the text columns of a log row. *)
Definition log_text : decl := Decl Sql.String true false.

(** [answers to m]: [m] sends one message, to [to], or it raises before
    sending any. *)
Definition answers {A : Type} (to : pystr) (m : M A) : Prop :=
  forall w,
    match m w with
    | (Ok _, w') => exists msg, outbox w' = outbox w ++ [(to, msg)]
    | (Raise _, w') =>
      outbox w' = outbox w
      \/ exists msg, outbox w' = outbox w ++ [(to, msg)]
    end.

(** [maintains P m]: a property of the store that holds before [m] holds
    after it, whether [m] returns or raises. *)
Definition maintains {A : Type} (P : DB -> Prop) (m : M A) : Prop :=
  forall w, P (db w) -> P (db (snd (m w))).

(** The steps the turn handler writes. *)
Definition written_steps : list pyval :=
  [ PyStr (u "greeting"); PyStr (u "type"); PyStr (u "quantity");
    PyStr (u "confirm") ].

(** The row another customer has in the store. *)
Definition row_of (other : pystr) (d : DB) : option ConversationState.t :=
  find (has_phone other) (conversation_states d).

(** ASCII instances of the digit test and of [int], with the limit of
    4300 digits. *)
Definition isdecimal_ascii (c : N) : bool := ((48 <=? c) && (c <=? 57))%N.

Definition int_ascii (digits : pystr) : result Z :=
  if (List.length digits <=? 4300)%nat then
    Ok (fold_left (fun acc c => 10 * acc + (Z.of_N c - 48)) digits 0)
  else
    Raise (ValueError
             (u "Exceeds the limit (4300 digits) for integer string conversion")).

(** The JSON document [{"quantity": [1000]}], in which the quantity is a
    list, [json.loads] on it, and a remote model that answers with a
    sentence followed by it. *)
Definition listed_quantity_doc : pystr :=
  u "{" ++ dq ++ u "quantity" ++ dq ++ u ": [1000]}".

Definition json_listed (s : pystr) : result pyval :=
  if pystr_eqb s listed_quantity_doc
  then Ok (PyDict [ (u "quantity", PyList [ PyInt 1000 ]) ])
  else Raise (ValueError (u "Expecting value")).

Definition api_listed : chat_api :=
  fun _ => Ok [ Some (u "تمام" ++ u "---JSON---" ++ listed_quantity_doc) ].

(** The JSON document [{"intent": ["order"]}], in which the intent is a
    list, with its [json.loads] and its remote model. *)
Definition listed_intent_doc : pystr :=
  u "{" ++ dq ++ u "intent" ++ dq ++ u ": [" ++ dq ++ u "order" ++ dq
  ++ u "]}".

Definition json_intent (s : pystr) : result pyval :=
  if pystr_eqb s listed_intent_doc
  then Ok (PyDict [ (u "intent", PyList [ PyStr (u "order") ]) ])
  else Raise (ValueError (u "Expecting value")).

Definition api_intent : chat_api :=
  fun _ => Ok [ Some (u "تمام" ++ u "---JSON---" ++ listed_intent_doc) ].

(** The JSON document [{"category": "أكواب"}], [json.loads] on it, and a
    remote model that answers with a sentence followed by it. *)
Definition category_doc : pystr :=
  u "{" ++ dq ++ u "category" ++ dq ++ u ": " ++ dq ++ u "أكواب" ++ dq
  ++ u "}".

Definition json_category (s : pystr) : result pyval :=
  if pystr_eqb s category_doc
  then Ok (PyDict [ (u "category", PyStr (u "أكواب")) ])
  else Raise (ValueError (u "Expecting value")).

Definition api_category : chat_api :=
  fun _ => Ok [ Some (u "اختر النوع" ++ u "---JSON---" ++ category_doc) ].

(* ================================================================== *)
(** * Properties *)

Unset Implicit Arguments.

(** Literals and word tests stay folded under [simpl]. *)
Arguments u : simpl never.
Arguments str_in : simpl never.
Arguments strip : simpl never.
Arguments contains : simpl never.
Arguments like : simpl never.
Arguments str_of_Z : simpl never.
Arguments generate_step_message : simpl never.
Arguments analyze_message : simpl never.
Arguments get_order_summary : simpl never.
Arguments get_or_create_state : simpl never.
Arguments update_state : simpl never.
Arguments updated : simpl never.
Arguments reset_state : simpl never.
Arguments create_order_from_state : simpl never.

(** ** Strings, rows and lookups *)

Lemma pystr_eqb_refl (a : pystr) : pystr_eqb a a = true.
Proof.
  induction a as [|x a IH]; simpl; [reflexivity|].
  now rewrite N.eqb_refl, IH.
Qed.

Lemma pystr_eqb_eq (a b : pystr) : pystr_eqb a b = true <-> a = b.
Proof.
  split.
  - revert b; induction a as [|x a IH]; intros [|y b] H; simpl in H;
      try discriminate; [reflexivity|].
    apply andb_true_iff in H as [Hx Hr].
    apply N.eqb_eq in Hx. apply IH in Hr. now subst.
  - intros ->. apply pystr_eqb_refl.
Qed.

Lemma eq_str_true (v : pyval) (s : pystr) :
  eq_str v s = true -> v = PyStr s.
Proof.
  destruct v; simpl; try discriminate.
  intros H. apply pystr_eqb_eq in H. now subst.
Qed.

Lemma eq_str_refl (s : pystr) : eq_str (PyStr s) s = true.
Proof. apply pystr_eqb_refl. Qed.

Lemma find_app_none {A : Type} (p : A -> bool) (l : list A) (x : A) :
  find p l = None -> p x = true -> find p (l ++ [x]) = Some x.
Proof.
  induction l as [|y l IH]; simpl; intros Hn Hx.
  - now rewrite Hx.
  - destruct (p y); [discriminate|]. now apply IH.
Qed.

Lemma find_update_first {A : Type} (p : A -> bool) (l : list A) (x y : A) :
  find p l = Some x -> p y = true ->
  find p (update_first p (fun _ => y) l) = Some y.
Proof.
  induction l as [|z l IH]; simpl; intros Hf Hy; [discriminate|].
  destruct (p z) eqn:Hz; simpl.
  - now rewrite Hy.
  - rewrite Hz. now apply IH.
Qed.

(** Rewriting the first match with itself changes nothing. *)
Lemma update_first_same {A : Type} (p : A -> bool) (l : list A) (x : A) :
  find p l = Some x -> update_first p (fun _ => x) l = l.
Proof.
  induction l as [|z l IH]; simpl; intros Hf; [reflexivity|].
  destruct (p z).
  - now injection Hf as ->.
  - f_equal. now apply IH.
Qed.

(** ** The state store *)

(** After [get_or_create_state] the customer has a row, it is the one
    returned, and nothing but the table of states can have changed. *)
Lemma get_or_create_state_spec (d : DB) (now : Z) (phone : pystr) :
  let s := fst (get_or_create_state d now phone) in
  let d' := snd (get_or_create_state d now phone) in
  find (has_phone phone) (conversation_states d') = Some s
  /\ ConversationState.phone_number s = PyStr phone
  /\ orders d' = orders d
  /\ chat_logs d' = chat_logs d
  /\ product_categories d' = product_categories d
  /\ product_types d' = product_types d
  /\ product_variants d' = product_variants d.
Proof.
  unfold get_or_create_state.
  destruct (find (has_phone phone) (conversation_states d)) as [s|] eqn:E;
    simpl.
  - repeat split; auto.
    apply find_some in E as [_ E]. now apply eq_str_true.
  - repeat split; auto.
    apply find_app_none; [exact E|]. apply eq_str_refl.
Qed.

(** A customer who has a row keeps it, and the store, as they are. *)
Lemma get_or_create_state_found (d : DB) (now : Z) (phone : pystr)
    (s : ConversationState.t) :
  find (has_phone phone) (conversation_states d) = Some s ->
  get_or_create_state d now phone = (s, d).
Proof. unfold get_or_create_state. now intros ->. Qed.

Lemma reset_fields_phone (now : Z) (s : ConversationState.t) :
  ConversationState.phone_number (reset_fields now s)
  = ConversationState.phone_number s.
Proof. reflexivity. Qed.

(** What [reset_state] returns and leaves in the store. *)
Lemma reset_state_spec (d : DB) (now : Z) (phone : pystr) :
  let prior := fst (get_or_create_state d now phone) in
  let s := fst (reset_state d now phone) in
  let d' := snd (reset_state d now phone) in
  s = reset_fields now prior
  /\ find (has_phone phone) (conversation_states d') = Some s
  /\ orders d' = orders d
  /\ chat_logs d' = chat_logs d.
Proof.
  pose proof (get_or_create_state_spec d now phone) as H.
  unfold reset_state.
  destruct (get_or_create_state d now phone) as [st d1]; simpl in *.
  destruct H as (Hf & Hp & Ho & Hl & _).
  repeat split; auto.
  eapply find_update_first; [exact Hf|].
  unfold has_phone. rewrite reset_fields_phone, Hp. apply eq_str_refl.
Qed.

(** The row [reset_state] returns, column by column. *)
Lemma reset_state_row (d : DB) (now : Z) (phone : pystr) :
  let prior := fst (get_or_create_state d now phone) in
  let s := fst (reset_state d now phone) in
  ConversationState.current_step s = PyStr (u "greeting")
  /\ ConversationState.selected_category_id s = PyNone
  /\ ConversationState.selected_type_id s = PyNone
  /\ ConversationState.selected_variant_id s = PyNone
  /\ ConversationState.selected_quantity s = PyNone
  /\ ConversationState.selected_accessories s = PyNone
  /\ ConversationState.notes s = PyNone
  /\ ConversationState.phone_number s = PyStr phone
  /\ ConversationState.customer_name s
     = ConversationState.customer_name prior
  /\ ConversationState.last_message s
     = ConversationState.last_message prior
  /\ find (has_phone phone)
          (conversation_states (snd (reset_state d now phone)))
     = Some s.
Proof.
  destruct (reset_state_spec d now phone) as (Hs & Hf & _).
  destruct (get_or_create_state_spec d now phone) as (_ & Hp & _).
  cbv zeta. rewrite Hf, Hs. simpl.
  repeat split; auto.
Qed.

(** C3, in the form the code satisfies.  For every store, time and customer identifier,
    [reset_state] returns a row at step [greeting] whose selected
    category, type, variant, quantity and add-ons and whose notes are
    [None]; the row carries the customer identifier and keeps the customer
    name (and the last message) of the prior state; it is the row the
    store then holds for the customer. *)
Theorem reset_state_clears_selections (d : DB) (now : Z) (phone : pystr) :
  let prior := fst (get_or_create_state d now phone) in
  let s := fst (reset_state d now phone) in
  ConversationState.current_step s = PyStr (u "greeting")
  /\ ConversationState.selected_category_id s = PyNone
  /\ ConversationState.selected_type_id s = PyNone
  /\ ConversationState.selected_variant_id s = PyNone
  /\ ConversationState.selected_quantity s = PyNone
  /\ ConversationState.selected_accessories s = PyNone
  /\ ConversationState.notes s = PyNone
  /\ ConversationState.phone_number s = PyStr phone
  /\ ConversationState.customer_name s
     = ConversationState.customer_name prior
  /\ ConversationState.last_message s
     = ConversationState.last_message prior
  /\ find (has_phone phone)
          (conversation_states (snd (reset_state d now phone)))
     = Some s.
Proof.
  destruct (reset_state_spec d now phone) as (Hs & Hf & _).
  destruct (get_or_create_state_spec d now phone) as (_ & Hp & _).
  cbv zeta. rewrite Hf, Hs. unfold reset_fields. simpl.
  repeat split; auto.
Qed.

(** C3, counterexample.  The customer's row is at step [confirm] and
    carries the name "Ali"; after [reset_state] the row is at [greeting] and
    the name is still "Ali", a non-empty string. *)
Lemma reset_state_keeps_customer_name :
  let prior :=
    row (u "confirm") (PyInt 1) (PyInt 1) (PyInt 5) (PyInt 1000)
        (PyStr (u "Ali")) in
  let s := fst (reset_state (db (world_with prior)) 7 customer) in
  ConversationState.current_step s = PyStr (u "greeting")
  /\ ConversationState.customer_name s = PyStr (u "Ali")
  /\ truthy (ConversationState.customer_name s) = true.
Proof. vm_compute. repeat split; reflexivity. Qed.

Lemma find_has_phone (phone : pystr) (l : list ConversationState.t)
    (s : ConversationState.t) :
  find (has_phone phone) l = Some s ->
  ConversationState.phone_number s = PyStr phone.
Proof.
  intros H. apply find_some in H as [_ H]. now apply eq_str_true.
Qed.

(** What [update_state] returns and leaves in the store when nothing is
    refused. *)
Lemma updated_spec (d : DB) (now : Z) (phone : pystr)
    (kwargs : list (pystr * pyval)) :
  let prior := fst (get_or_create_state d now phone) in
  let s := fst (updated d now phone kwargs) in
  let d' := snd (updated d now phone kwargs) in
  s = ConversationState.set_updated_at (PyDateTime now)
        (apply_kwargs kwargs prior)
  /\ (ConversationState.phone_number s = PyStr phone ->
      find (has_phone phone) (conversation_states d') = Some s)
  /\ orders d' = orders d
  /\ chat_logs d' = chat_logs d.
Proof.
  pose proof (get_or_create_state_spec d now phone) as H.
  unfold updated.
  destruct (get_or_create_state d now phone) as [st d1]; simpl in *.
  destruct H as (Hf & Hp & Ho & Hl & _).
  repeat split; auto.
  intros Hs. eapply find_update_first; [exact Hf|].
  unfold has_phone. simpl in Hs |- *. rewrite Hs. apply eq_str_refl.
Qed.

(** ** Partial updates: the columns *)

Lemma lookup_some (key : pystr) (c : ConversationState.column) :
  ConversationState.lookup key = Some c ->
  In c ConversationState.columns /\ ConversationState.col_name c = key.
Proof.
  unfold ConversationState.lookup. intros H.
  apply find_some in H as [Hin E]. apply pystr_eqb_eq in E. now split.
Qed.

(** Writing one column leaves every other column as it was. *)
Lemma columns_independent (c c' : ConversationState.column) (v : pyval)
    (s : ConversationState.t) :
  In c ConversationState.columns -> In c' ConversationState.columns ->
  ConversationState.col_name c <> ConversationState.col_name c' ->
  ConversationState.col_get c' (ConversationState.col_set c v s)
  = ConversationState.col_get c' s.
Proof.
  intros Hc Hc' Hne. unfold ConversationState.columns in Hc, Hc'.
  simpl in Hc, Hc'.
  repeat destruct Hc as [<-|Hc]; try contradiction;
    repeat destruct Hc' as [<-|Hc']; try contradiction;
    try reflexivity; exfalso; apply Hne; reflexivity.
Qed.

Lemma getattr_setattr_other (s : ConversationState.t) (key key' : pystr)
    (v : pyval) :
  key <> key' ->
  ConversationState.get_column (ConversationState.set_column s key v) key'
  = ConversationState.get_column s key'.
Proof.
  intros Hne. unfold ConversationState.get_column, ConversationState.set_column.
  destruct (ConversationState.lookup key) as [c|] eqn:Ec; [|reflexivity].
  destruct (ConversationState.lookup key') as [c'|] eqn:Ec'; [|reflexivity].
  apply lookup_some in Ec as [Hc Hn]. apply lookup_some in Ec' as [Hc' Hn'].
  f_equal. apply columns_independent; auto. congruence.
Qed.

Lemma getattr_setattr_same (s : ConversationState.t) (key : pystr)
    (v : pyval) :
  ConversationState.is_column key = true ->
  ConversationState.get_column (ConversationState.set_column s key v) key = Some v.
Proof.
  unfold ConversationState.is_column, ConversationState.get_column,
    ConversationState.set_column.
  destruct (ConversationState.lookup key) as [c|] eqn:Ec; [|discriminate].
  intros _. apply lookup_some in Ec as [Hc _]. f_equal.
  unfold ConversationState.columns in Hc. simpl in Hc.
  repeat destruct Hc as [<-|Hc]; try contradiction; reflexivity.
Qed.

Lemma apply_kwargs_frame (kwargs : list (pystr * pyval))
    (s : ConversationState.t) (key : pystr) :
  ~ In key (map fst kwargs) ->
  ConversationState.get_column (apply_kwargs kwargs s) key
  = ConversationState.get_column s key.
Proof.
  unfold apply_kwargs. revert s.
  induction kwargs as [|[k v] kwargs IH]; intros s Hn; simpl;
    [reflexivity|].
  simpl in Hn. rewrite IH by tauto.
  destruct (ConversationState.is_column k); [|reflexivity].
  apply getattr_setattr_other. intros ->. tauto.
Qed.

Lemma apply_kwargs_known (kwargs : list (pystr * pyval))
    (s : ConversationState.t) :
  apply_kwargs kwargs s
  = apply_kwargs
      (filter (fun kv => ConversationState.is_column (fst kv)) kwargs) s.
Proof.
  unfold apply_kwargs. revert s.
  induction kwargs as [|[k v] kwargs IH]; intros s; simpl; [reflexivity|].
  destruct (ConversationState.is_column k) eqn:E; simpl.
  - now rewrite E, IH.
  - apply IH.
Qed.

(** A name assigned once, and only once, ends with the value supplied. *)
Lemma apply_kwargs_assigns (kwargs : list (pystr * pyval))
    (s : ConversationState.t) (key : pystr) (v : pyval) :
  NoDup (map fst kwargs) -> In (key, v) kwargs ->
  ConversationState.is_column key = true ->
  ConversationState.get_column (apply_kwargs kwargs s) key = Some v.
Proof.
  unfold apply_kwargs. revert s.
  induction kwargs as [|[k x] kwargs IH]; intros s Hnd Hin Hk; simpl;
    [contradiction|].
  inversion Hnd as [|? ? Hnot Hnd']; subst.
  destruct Hin as [E|Hin].
  - injection E as -> ->. fold (apply_kwargs kwargs).
    rewrite Hk, apply_kwargs_frame by exact Hnot.
    now apply getattr_setattr_same.
  - now apply IH.
Qed.

(** ** Partial updates: assignment and commit *)

Lemma str_in_iff (x : pystr) (l : list pystr) :
  str_in x l = true <-> In x l.
Proof.
  unfold str_in. rewrite existsb_exists. split.
  - intros (y & Hy & E). apply pystr_eqb_eq in E. now subst.
  - intros H. exists x. split; [exact H|apply pystr_eqb_refl].
Qed.

Lemma str_in_cons (x y : pystr) (l : list pystr) :
  str_in x (y :: l) = pystr_eqb x y || str_in x l.
Proof. reflexivity. Qed.

Lemma column_names_distinct :
  NoDup (map ConversationState.col_name ConversationState.columns).
Proof.
  unfold ConversationState.columns. cbn [map ConversationState.col_name].
  repeat (constructor; [cbn [In]; intuition discriminate|]).
  constructor.
Qed.

Lemma lookup_column (c : ConversationState.column) :
  In c ConversationState.columns ->
  ConversationState.lookup (ConversationState.col_name c) = Some c.
Proof.
  intros H. unfold ConversationState.columns in H. cbn [In] in H.
  repeat destruct H as [<-|H]; try contradiction; reflexivity.
Qed.

Lemma col_get_set (c : ConversationState.column) (v : pyval)
    (s : ConversationState.t) :
  In c ConversationState.columns ->
  ConversationState.col_get c (ConversationState.col_set c v s) = v.
Proof.
  intros H. unfold ConversationState.columns in H. cbn [In] in H.
  repeat destruct H as [<-|H]; try contradiction; reflexivity.
Qed.

Lemma col_set_get (c : ConversationState.column) (s : ConversationState.t) :
  In c ConversationState.columns ->
  ConversationState.col_set c (ConversationState.col_get c s) s = s.
Proof.
  intros H. unfold ConversationState.columns in H. cbn [In] in H.
  destruct s.
  repeat destruct H as [<-|H]; try contradiction; reflexivity.
Qed.

(** The column [updated_at]. *)
Lemma updated_at_column (c : ConversationState.column) :
  In c ConversationState.columns ->
  ConversationState.col_name c = u "updated_at" ->
  forall v s,
    ConversationState.col_get c (ConversationState.set_updated_at v s) = v
    /\ ConversationState.col_decl c = Decl Sql.DateTime true false.
Proof.
  intros H E v s. unfold ConversationState.columns in H. cbn [In] in H.
  repeat destruct H as [<-|H]; try contradiction;
    try (vm_compute in E; discriminate E).
  now split.
Qed.

Lemma other_than_updated_at (c : ConversationState.column) (v : pyval)
    (s : ConversationState.t) :
  In c ConversationState.columns ->
  ConversationState.col_name c <> u "updated_at" ->
  ConversationState.col_get c (ConversationState.set_updated_at v s)
  = ConversationState.col_get c s.
Proof.
  intros H E. unfold ConversationState.columns in H. cbn [In] in H.
  repeat destruct H as [<-|H]; try contradiction; reflexivity.
Qed.

Lemma apply_kwargs_cons (k : pystr) (v : pyval)
    (kwargs : list (pystr * pyval)) (s : ConversationState.t) :
  apply_kwargs ((k, v) :: kwargs) s
  = apply_kwargs kwargs
      (if ConversationState.is_column k
       then ConversationState.set_column s k v else s).
Proof. reflexivity. Qed.

(** When the loop returns it has assigned the columns named. *)
Lemma assign_kwargs_ok (rt : Runtime) (kwargs : list (pystr * pyval))
    (s s' : ConversationState.t) :
  assign_kwargs rt kwargs s = Ok s' -> s' = apply_kwargs kwargs s.
Proof.
  revert s. induction kwargs as [|[k v] kwargs IH]; intros s;
    cbn [assign_kwargs].
  - intros H. now injection H as <-.
  - rewrite apply_kwargs_cons.
    unfold hasattr, setattr, ConversationState.is_column,
      ConversationState.set_column.
    destruct (ConversationState.lookup k) as [c|]; cbn [orb].
    + apply IH.
    + destruct (inherited rt k); [|apply IH].
      destruct (shadow rt k v); [discriminate|apply IH].
Qed.

Lemma assign_kwargs_fit (rt : Runtime) (kwargs : list (pystr * pyval))
    (s : ConversationState.t) :
  kwargs_fit rt kwargs = true ->
  assign_kwargs rt kwargs s = Ok (apply_kwargs kwargs s).
Proof.
  revert s. induction kwargs as [|[k v] kwargs IH]; intros s H;
    [reflexivity|].
  unfold kwargs_fit in H. cbn [forallb fst snd] in H.
  apply andb_true_iff in H as [Hk H].
  rewrite apply_kwargs_cons. cbn [assign_kwargs].
  unfold hasattr, setattr, ConversationState.is_column,
    ConversationState.set_column.
  destruct (ConversationState.lookup k) as [c|]; cbn [orb].
  - now apply IH.
  - apply negb_true_iff in Hk. rewrite Hk. now apply IH.
Qed.

(** A column that is named ends the loop with one of the values supplied
    for it. *)
Lemma apply_kwargs_named (kwargs : list (pystr * pyval))
    (s : ConversationState.t) (c : ConversationState.column) :
  In c ConversationState.columns ->
  str_in (ConversationState.col_name c) (map fst kwargs) = true ->
  exists v,
    In (ConversationState.col_name c, v) kwargs
    /\ ConversationState.col_get c (apply_kwargs kwargs s) = v.
Proof.
  intros Hc. revert s.
  induction kwargs as [|[k v] kwargs IH]; intros s Hn; [discriminate|].
  cbn [map fst] in Hn. rewrite str_in_cons in Hn.
  rewrite apply_kwargs_cons.
  destruct (str_in (ConversationState.col_name c) (map fst kwargs)) eqn:E.
  - destruct (IH (if ConversationState.is_column k
                  then ConversationState.set_column s k v else s) eq_refl)
      as (x & Hx & Ex).
    exists x. split; [now right|exact Ex].
  - rewrite orb_false_r in Hn. apply pystr_eqb_eq in Hn. subst k.
    exists v. split; [now left|].
    assert (Hnot : ~ In (ConversationState.col_name c) (map fst kwargs)).
    { intros Hin. apply str_in_iff in Hin. congruence. }
    assert (Hs1 : (if ConversationState.is_column
                          (ConversationState.col_name c)
                   then ConversationState.set_column s
                          (ConversationState.col_name c) v
                   else s)
                  = ConversationState.col_set c v s).
    { unfold ConversationState.is_column, ConversationState.set_column.
      now rewrite (lookup_column c Hc). }
    rewrite Hs1.
    pose proof (apply_kwargs_frame kwargs (ConversationState.col_set c v s)
                  (ConversationState.col_name c) Hnot) as F.
    unfold ConversationState.get_column in F.
    rewrite (lookup_column c Hc) in F. injection F as ->.
    now apply col_get_set.
Qed.

Lemma commit_raised (rt : Runtime) (d : DB) (names : list pystr)
    (cs : list ConversationState.column) (e : exn) :
  fold_left (commit_column rt d names) cs (Raise e) = Raise e.
Proof. induction cs as [|c cs IH]; [reflexivity|exact IH]. Qed.

(** The commit, column by column: a column that is not named keeps its
    value, a named one holds what the database made of its value. *)
Lemma commit_fold (rt : Runtime) (d : DB) (names : list pystr)
    (cs : list ConversationState.column) :
  incl cs ConversationState.columns ->
  NoDup (map ConversationState.col_name cs) ->
  forall s s',
    fold_left (commit_column rt d names) cs (Ok s) = Ok s' ->
    (forall c,
       In c ConversationState.columns ->
       ~ In (ConversationState.col_name c)
            (map ConversationState.col_name cs) ->
       ConversationState.col_get c s' = ConversationState.col_get c s)
    /\ (forall c,
          In c cs ->
          if str_in (ConversationState.col_name c) names
          then stored rt d states_table (ConversationState.col_name c)
                      (ConversationState.col_decl c)
                      (ConversationState.col_get c s)
               = Ok (ConversationState.col_get c s')
          else ConversationState.col_get c s'
               = ConversationState.col_get c s).
Proof.
  induction cs as [|c0 cs IH]; intros Hincl Hnd s s' H.
  - cbn in H. injection H as <-. split; [reflexivity|contradiction].
  - cbn [map] in Hnd. inversion Hnd as [|? ? Hnot Hnd']; subst.
    assert (Hc0 : In c0 ConversationState.columns)
      by (apply Hincl; now left).
    assert (Hincl' : incl cs ConversationState.columns)
      by (intros x Hx; apply Hincl; now right).
    cbn [fold_left] in H. unfold commit_column at 2 in H.
    destruct (str_in (ConversationState.col_name c0) names) eqn:N0.
    + destruct (stored rt d states_table (ConversationState.col_name c0)
                       (ConversationState.col_decl c0)
                       (ConversationState.col_get c0 s)) as [v|e] eqn:S0;
        [|rewrite commit_raised in H; discriminate H].
      destruct (IH Hincl' Hnd' _ _ H) as [A B].
      assert (Hother : forall c,
                In c ConversationState.columns ->
                ConversationState.col_name c
                <> ConversationState.col_name c0 ->
                ConversationState.col_get c
                  (ConversationState.col_set c0 v s)
                = ConversationState.col_get c s).
      { intros c Hc Hne. apply columns_independent; [exact Hc0|exact Hc|].
        intros E. apply Hne. now symmetry. }
      split.
      * intros c Hc Hn. cbn [map In] in Hn.
        rewrite A by tauto. apply Hother; [exact Hc|].
        intros E. apply Hn. now left.
      * intros c [<-|Hin].
        -- rewrite N0, (A c0 Hc0 Hnot), (col_get_set c0 v s Hc0).
           exact S0.
        -- assert (Hne : ConversationState.col_name c
                         <> ConversationState.col_name c0).
           { intros E. apply Hnot. rewrite <- E. now apply in_map. }
           specialize (B c Hin).
           rewrite (Hother c (Hincl' c Hin) Hne) in B. exact B.
    + destruct (IH Hincl' Hnd' _ _ H) as [A B]. split.
      * intros c Hc Hn. cbn [map In] in Hn. apply A; tauto.
      * intros c [<-|Hin]; [|now apply B].
        rewrite N0. now apply A.
Qed.

Lemma commit_state_spec (rt : Runtime) (d : DB) (names : list pystr)
    (s s' : ConversationState.t) :
  commit_state rt d names s = Ok s' ->
  forall c,
    In c ConversationState.columns ->
    if str_in (ConversationState.col_name c) names
    then stored rt d states_table (ConversationState.col_name c)
                (ConversationState.col_decl c)
                (ConversationState.col_get c s)
         = Ok (ConversationState.col_get c s')
    else ConversationState.col_get c s' = ConversationState.col_get c s.
Proof.
  intros H.
  apply (commit_fold rt d names ConversationState.columns
           (incl_refl _) column_names_distinct s s' H).
Qed.

(** A commit of values that fit their columns leaves the row as the
    object carries it. *)
Lemma commit_state_fit (rt : Runtime) (d : DB) (names : list pystr)
    (s : ConversationState.t) :
  (forall c,
     In c ConversationState.columns ->
     str_in (ConversationState.col_name c) names = true ->
     fits (ConversationState.col_decl c) (ConversationState.col_get c s)
     = true) ->
  commit_state rt d names s = Ok s.
Proof.
  intros H. unfold commit_state.
  assert (G : forall cs,
             incl cs ConversationState.columns ->
             fold_left (commit_column rt d names) cs (Ok s) = Ok s).
  { induction cs as [|c cs IH]; intros Hincl; [reflexivity|].
    cbn [fold_left]. unfold commit_column at 2.
    assert (Hc : In c ConversationState.columns) by (apply Hincl; now left).
    destruct (str_in (ConversationState.col_name c) names) eqn:N.
    - unfold stored. rewrite (H c Hc N), (col_set_get c s Hc).
      apply IH. intros x Hx. apply Hincl. now right.
    - apply IH. intros x Hx. apply Hincl. now right. }
  apply G, incl_refl.
Qed.

(** A commit the database accepts column by column returns. *)
Lemma commit_state_total (rt : Runtime) (d : DB) (names : list pystr)
    (s : ConversationState.t) :
  (forall c,
     In c ConversationState.columns ->
     str_in (ConversationState.col_name c) names = true ->
     exists v,
       stored rt d states_table (ConversationState.col_name c)
              (ConversationState.col_decl c) (ConversationState.col_get c s)
       = Ok v) ->
  exists s', commit_state rt d names s = Ok s'.
Proof.
  unfold commit_state.
  assert (G : forall cs,
    incl cs ConversationState.columns ->
    NoDup (map ConversationState.col_name cs) ->
    forall st,
      (forall c,
         In c cs ->
         str_in (ConversationState.col_name c) names = true ->
         exists v,
           stored rt d states_table (ConversationState.col_name c)
                  (ConversationState.col_decl c)
                  (ConversationState.col_get c st)
           = Ok v) ->
      exists s', fold_left (commit_column rt d names) cs (Ok st) = Ok s').
  { induction cs as [|c0 cs IH]; intros Hincl Hnd st H; [now exists st|].
    cbn [map] in Hnd. inversion Hnd as [|? ? Hnot Hnd']; subst.
    assert (Hc0 : In c0 ConversationState.columns)
      by (apply Hincl; now left).
    assert (Hincl' : incl cs ConversationState.columns)
      by (intros x Hx; apply Hincl; now right).
    cbn [fold_left]. unfold commit_column at 2.
    destruct (str_in (ConversationState.col_name c0) names) eqn:N0.
    - destruct (H c0 (or_introl eq_refl) N0) as [v ->].
      apply (IH Hincl' Hnd'). intros c Hc Hn.
      rewrite columns_independent;
        [apply H; [now right|exact Hn]|exact Hc0|now apply Hincl'|].
      intros E. apply Hnot. rewrite E. now apply in_map.
    - apply (IH Hincl' Hnd'). intros c Hc Hn. apply H; [now right|exact Hn]. }
  intros H. apply (G _ (incl_refl _) column_names_distinct).
  intros c Hc. now apply H.
Qed.

(** [update_state] on names and values the database takes as they are. *)
Lemma update_state_fit (rt : Runtime) (d : DB) (now : Z) (phone : pystr)
    (kwargs : list (pystr * pyval)) :
  kwargs_fit rt kwargs = true ->
  update_state rt d now phone kwargs
  = (Ok (fst (updated d now phone kwargs)), snd (updated d now phone kwargs)).
Proof.
  intros H. unfold update_state, updated.
  destruct (get_or_create_state d now phone) as [st d1].
  rewrite (assign_kwargs_fit rt kwargs st H).
  rewrite commit_state_fit; [reflexivity|].
  intros c Hc Hn.
  destruct (pystr_eqb (ConversationState.col_name c) (u "updated_at")) eqn:E.
  - apply pystr_eqb_eq in E.
    destruct (updated_at_column c Hc E (PyDateTime now)
                (apply_kwargs kwargs st)) as [-> ->].
    reflexivity.
  - rewrite other_than_updated_at;
      [|exact Hc|intros E'; rewrite E', pystr_eqb_refl in E; discriminate E].
    destruct (apply_kwargs_named kwargs st c Hc Hn) as (v & Hin & ->).
    unfold kwargs_fit in H. rewrite forallb_forall in H.
    specialize (H _ Hin). cbn [fst snd] in H.
    now rewrite (lookup_column c Hc) in H.
Qed.

(** What [update_state] returns, when it returns: each named column holds
    what the database made of the value assigned, each other column the
    value it had, the update time apart. *)
Lemma update_state_returns (rt : Runtime) (d : DB) (now : Z) (phone : pystr)
    (kwargs : list (pystr * pyval)) (s : ConversationState.t) (d' : DB) :
  update_state rt d now phone kwargs = (Ok s, d') ->
  let prior := fst (get_or_create_state d now phone) in
  let d1 := snd (get_or_create_state d now phone) in
  let assigned :=
    ConversationState.set_updated_at (PyDateTime now)
      (apply_kwargs kwargs prior) in
  d' = with_states d1
         (update_first (has_phone phone) (fun _ => s)
                       (conversation_states d1))
  /\ forall c,
       In c ConversationState.columns ->
       if str_in (ConversationState.col_name c) (map fst kwargs)
       then stored rt d1 states_table (ConversationState.col_name c)
                   (ConversationState.col_decl c)
                   (ConversationState.col_get c assigned)
            = Ok (ConversationState.col_get c s)
       else ConversationState.col_get c s
            = ConversationState.col_get c assigned.
Proof.
  unfold update_state.
  destruct (get_or_create_state d now phone) as [st d1]. cbn [fst snd].
  destruct (assign_kwargs rt kwargs st) as [st1|e] eqn:A; [|discriminate].
  apply assign_kwargs_ok in A. subst st1.
  destruct (commit_state rt d1 (map fst kwargs) _) as [st2|e] eqn:C;
    [|discriminate].
  intros H. injection H as <- <-. split; [reflexivity|].
  intros c Hc. exact (commit_state_spec rt d1 _ _ _ C c Hc).
Qed.

(** When [update_state] raises, the store is the one
    [get_or_create_state] left. *)
Lemma update_state_raises (rt : Runtime) (d : DB) (now : Z) (phone : pystr)
    (kwargs : list (pystr * pyval)) (e : exn) (d' : DB) :
  update_state rt d now phone kwargs = (Raise e, d') ->
  d' = snd (get_or_create_state d now phone).
Proof.
  unfold update_state.
  destruct (get_or_create_state d now phone) as [st d1]. cbn [snd].
  destruct (assign_kwargs rt kwargs st) as [st1|e1];
    [destruct (commit_state rt d1 (map fst kwargs) _)|];
    intros H; now injection H.
Qed.

Lemma apply_kwargs_phone (kwargs : list (pystr * pyval))
    (s : ConversationState.t) :
  ~ In (u "phone_number") (map fst kwargs) ->
  ConversationState.phone_number (apply_kwargs kwargs s)
  = ConversationState.phone_number s.
Proof.
  intros H. pose proof (apply_kwargs_frame kwargs s (u "phone_number") H) as E.
  now injection E.
Qed.

(** The row [update_state] returns carries the customer identifier, when
    the identifier is not among the names assigned. *)
Lemma update_state_phone (rt : Runtime) (d : DB) (now : Z) (phone : pystr)
    (kwargs : list (pystr * pyval)) (s : ConversationState.t) (d' : DB) :
  ~ In (u "phone_number") (map fst kwargs) ->
  update_state rt d now phone kwargs = (Ok s, d') ->
  ConversationState.phone_number s = PyStr phone.
Proof.
  intros Hk H.
  destruct (update_state_returns rt d now phone kwargs s d' H) as [_ Hc].
  destruct (get_or_create_state_spec d now phone) as (_ & Hp & _).
  specialize (Hc (ConversationState.Column (u "phone_number")
                    (Decl Sql.String false true)
                    ConversationState.phone_number
                    ConversationState.set_phone_number)).
  assert (Hn : str_in (u "phone_number") (map fst kwargs) = false).
  { destruct (str_in _ _) eqn:E; [|reflexivity].
    apply str_in_iff in E. contradiction. }
  cbn [ConversationState.col_name ConversationState.col_get] in Hc.
  rewrite Hn in Hc. rewrite Hc.
  - cbn [ConversationState.phone_number ConversationState.set_updated_at].
    now rewrite apply_kwargs_phone.
  - unfold ConversationState.columns. cbn [In]. tauto.
Qed.

(** The row [update_state] returns is the one the store then holds. *)
Lemma update_state_stored (rt : Runtime) (d : DB) (now : Z) (phone : pystr)
    (kwargs : list (pystr * pyval)) (s : ConversationState.t) (d' : DB) :
  ~ In (u "phone_number") (map fst kwargs) ->
  update_state rt d now phone kwargs = (Ok s, d') ->
  find (has_phone phone) (conversation_states d') = Some s.
Proof.
  intros Hk H.
  pose proof (update_state_phone rt d now phone kwargs s d' Hk H) as Hp.
  destruct (update_state_returns rt d now phone kwargs s d' H) as [-> _].
  destruct (get_or_create_state_spec d now phone) as (Hf & _).
  cbn [conversation_states with_states].
  eapply find_update_first; [exact Hf|].
  unfold has_phone. rewrite Hp. apply eq_str_refl.
Qed.

Lemma update_state_orders (rt : Runtime) (d : DB) (now : Z) (phone : pystr)
    (kwargs : list (pystr * pyval)) :
  orders (snd (update_state rt d now phone kwargs)) = orders d.
Proof.
  pose proof (get_or_create_state_spec d now phone) as (_ & _ & Ho & _).
  destruct (update_state rt d now phone kwargs) as [[s|e] d'] eqn:E;
    cbn [snd].
  - destruct (update_state_returns rt d now phone kwargs s d' E) as [-> _].
    exact Ho.
  - now rewrite (update_state_raises rt d now phone kwargs e d' E).
Qed.

Lemma updated_orders (d : DB) (now : Z) (phone : pystr)
    (kwargs : list (pystr * pyval)) :
  orders (snd (updated d now phone kwargs)) = orders d.
Proof. apply updated_spec. Qed.

Lemma updated_stored (d : DB) (now : Z) (phone : pystr)
    (kwargs : list (pystr * pyval)) :
  ~ In (u "phone_number") (map fst kwargs) ->
  find (has_phone phone)
       (conversation_states (snd (updated d now phone kwargs)))
  = Some (fst (updated d now phone kwargs)).
Proof.
  intros H.
  destruct (updated_spec d now phone kwargs) as (Hs & Hf & _).
  destruct (get_or_create_state_spec d now phone) as (_ & Hp & _).
  apply Hf. rewrite Hs.
  change (ConversationState.phone_number
            (apply_kwargs kwargs (fst (get_or_create_state d now phone)))
          = PyStr phone).
  now rewrite apply_kwargs_phone.
Qed.

(** ** Frame rules of the monad *)

Lemma keeps_ret {A T : Type} (f : DB -> T) (a : A) : keeps f (ret a).
Proof. intros w. reflexivity. Qed.

Lemma keeps_raise {A T : Type} (f : DB -> T) (e : exn) :
  keeps f (@raise A e).
Proof. intros w. reflexivity. Qed.

Lemma keeps_of_result {A T : Type} (f : DB -> T) (r : result A) :
  keeps f (of_result r).
Proof. intros w. reflexivity. Qed.

Lemma keeps_read_db {A T : Type} (f : DB -> T) (g : DB -> result A) :
  keeps f (read_db g).
Proof. intros w. reflexivity. Qed.

Lemma keeps_send {T : Type} (f : DB -> T) (to : pystr) (msg : pyval) :
  keeps f (send_response to msg).
Proof. intros w. reflexivity. Qed.

Lemma keeps_on_db {A T : Type} (f : DB -> T) (op : DB -> A * DB) :
  (forall d, f (snd (op d)) = f d) -> keeps f (on_db op).
Proof.
  intros H w. unfold on_db. specialize (H (db w)).
  destruct (op (db w)) as [a d']. exact H.
Qed.

Lemma keeps_try_db {A T : Type} (f : DB -> T) (op : DB -> result A * DB) :
  (forall d, f (snd (op d)) = f d) -> keeps f (try_db op).
Proof.
  intros H w. unfold try_db. specialize (H (db w)).
  destruct (op (db w)) as [a d']. exact H.
Qed.

(** On names and values the database takes as they are, the update is
    the operation that cannot fail. *)
Lemma try_update_fit (rt : Runtime) (now : Z) (phone : pystr)
    (kwargs : list (pystr * pyval)) (w : World) :
  kwargs_fit rt kwargs = true ->
  try_db (fun d => update_state rt d now phone kwargs) w
  = on_db (fun d => updated d now phone kwargs) w.
Proof.
  intros H. unfold try_db, on_db. rewrite (update_state_fit rt _ _ _ _ H).
  now destruct (updated (db w) now phone kwargs).
Qed.

Lemma keeps_bind {A B T : Type} (f : DB -> T) (m : M A) (k : A -> M B) :
  keeps f m -> (forall a, keeps f (k a)) -> keeps f (bind m k).
Proof.
  intros Hm Hk w. unfold bind. specialize (Hm w).
  destruct (m w) as [[a|e] w1]; simpl in *.
  - now rewrite Hk.
  - exact Hm.
Qed.

Lemma keeps_bind_raise {A B T : Type} (f : DB -> T) (e : exn)
    (k : A -> M B) :
  keeps f (bind (raise e) k).
Proof. intros w. reflexivity. Qed.

Lemma keeps_orders_commit_logs (rt : Runtime) (logs : list ChatLog.t) :
  keeps orders (commit_logs rt logs).
Proof.
  intros w. unfold commit_logs. now destruct (stored_logs rt (db w) logs).
Qed.

Lemma keeps_states_commit_logs (rt : Runtime) (logs : list ChatLog.t) :
  keeps conversation_states (commit_logs rt logs).
Proof.
  intros w. unfold commit_logs. now destruct (stored_logs rt (db w) logs).
Qed.

Lemma reset_state_orders (d : DB) (now : Z) (phone : pystr) :
  orders (snd (reset_state d now phone)) = orders d.
Proof. apply reset_state_spec. Qed.

Lemma get_or_create_state_orders (d : DB) (now : Z) (phone : pystr) :
  orders (snd (get_or_create_state d now phone)) = orders d.
Proof. apply get_or_create_state_spec. Qed.

Create HintDb frame.

#[local] Hint Resolve keeps_ret keeps_raise keeps_of_result keeps_read_db
  keeps_send keeps_orders_commit_logs keeps_states_commit_logs
  keeps_bind_raise : frame.
#[local] Hint Resolve update_state_orders updated_orders reset_state_orders
  get_or_create_state_orders : frame.

(** Splits a frame goal along the binds and conditionals of the program. *)
Ltac frame :=
  repeat first
    [ apply keeps_bind_raise
    | apply keeps_bind; [|intros ?]
    | apply keeps_on_db; intros ?; solve [auto with frame]
    | apply keeps_try_db; intros ?; solve [auto with frame]
    | solve [auto with frame]
    | match goal with
      | |- keeps _ (if ?c then _ else _) => destruct c
      | |- keeps _ (match ?c with _ => _ end) => destruct c
      end ].

Section EngineFacts.

Variable rt : Runtime.
Variable py_lower : pystr -> pystr.
Variable py_format : pyval -> pystr.
Variable json_loads : pystr -> result pyval.
Variable SYSTEM_PROMPT : pystr.
Variable EXTRACTION_PROMPT : pystr.

(** The turn handler and its parts at these built-ins. *)
Let turn := process_message_task rt py_lower py_format json_loads
                                 SYSTEM_PROMPT EXTRACTION_PROMPT.
Let body := process_body rt py_lower py_format json_loads
                         SYSTEM_PROMPT EXTRACTION_PROMPT.
Let interpret := interpret_message rt py_format json_loads
                                   SYSTEM_PROMPT EXTRACTION_PROMPT.
Let analyze := analyze_message json_loads SYSTEM_PROMPT EXTRACTION_PROMPT.

(** *** Which parts of a turn touch which table *)

Lemma merge_category_orders now phone extracted state :
  keeps orders (merge_category rt py_format now phone extracted state).
Proof. unfold merge_category. frame. Qed.

Lemma merge_quantity_orders now phone extracted state :
  keeps orders (merge_quantity rt now phone extracted state).
Proof. unfold merge_quantity. frame. Qed.

Lemma invoice_if_ready_orders now phone extracted text state :
  keeps orders (invoice_if_ready py_format now phone extracted text state).
Proof. unfold invoice_if_ready, create_invoice. frame. Qed.

(** The reset that follows [create_invoice] is never reached. *)
Lemma invoice_if_ready_states now phone extracted text state :
  keeps conversation_states
        (invoice_if_ready py_format now phone extracted text state).
Proof. unfold invoice_if_ready, create_invoice. frame. Qed.

Lemma respond_and_log_orders now msg phone extracted text state :
  keeps orders (respond_and_log rt py_format now msg phone extracted text state).
Proof. unfold respond_and_log. frame. Qed.

Lemma respond_and_log_states now msg phone extracted text state :
  keeps conversation_states
        (respond_and_log rt py_format now msg phone extracted text state).
Proof. unfold respond_and_log. frame. Qed.

(** Interpretation of a message never creates an order. *)
Lemma interpret_message_orders acreate now msg phone state :
  keeps orders (interpret acreate now msg phone state).
Proof.
  unfold interpret, interpret_message.
  apply keeps_bind; [auto with frame|intros a].
  apply keeps_bind; [apply merge_category_orders|intros s1].
  apply keeps_bind; [apply merge_quantity_orders|intros s2].
  apply keeps_bind; [apply invoice_if_ready_orders|intros rs].
  apply respond_and_log_orders.
Qed.

(** The store a turn leaves is the one its [try] block leaves. *)
Lemma turn_db acreate now msg phone w :
  db (turn acreate now msg phone w) = db (snd (body acreate now msg phone w)).
Proof.
  unfold turn, body, process_message_task.
  destruct (process_body _ _ _ _ _ _ _ _ _ _ w) as [[[]|e] w1]; reflexivity.
Qed.

(** *** The reset command *)

Lemma generate_step_message_greeting d state :
  ConversationState.current_step state = PyStr (u "greeting") ->
  generate_step_message rt py_format d state = Ok (PyStr _greeting_message).
Proof.
  intros H. unfold generate_step_message. now rewrite H, eq_str_refl.
Qed.

(** What the [try] block does on a reset word. *)
Lemma body_reset acreate now msg phone w :
  str_in (py_lower (strip msg)) reset_words = true ->
  body acreate now msg phone w
  = (Ok tt,
     mkWorld
       (snd (reset_state (snd (get_or_create_state (db w) now phone))
                         now phone))
       (outbox w ++ [(phone, PyStr _greeting_message)])).
Proof.
  intros H. unfold body, process_body, bind, on_db.
  destruct (get_or_create_state (db w) now phone) as [s1 d1]; simpl.
  rewrite H. unfold read_db. simpl.
  pose proof (reset_state_row d1 now phone) as Hr.
  destruct (reset_state d1 now phone) as [s2 d2]; simpl in *.
  destruct Hr as (Hstep & _).
  now rewrite (generate_step_message_greeting d2 s2 Hstep).
Qed.

(** C4.  Whatever the store holds for the customer, and so at any step, a
    message that after [strip] and [lower] is one of the words
    "إلغاء", "cancel", "بداية", "start", "من جديد" leaves the customer's
    row at step [greeting] with the selections cleared, leaves the table
    of orders as it was, and sends the greeting text. *)
Theorem reset_word_resets_and_creates_no_order acreate now msg phone w :
  str_in (py_lower (strip msg)) reset_words = true ->
  let w' := turn acreate now msg phone w in
  orders (db w') = orders (db w)
  /\ (exists s,
        find (has_phone phone) (conversation_states (db w')) = Some s
        /\ ConversationState.current_step s = PyStr (u "greeting")
        /\ ConversationState.selected_category_id s = PyNone
        /\ ConversationState.selected_type_id s = PyNone
        /\ ConversationState.selected_variant_id s = PyNone
        /\ ConversationState.selected_quantity s = PyNone
        /\ ConversationState.selected_accessories s = PyNone)
  /\ outbox w' = outbox w ++ [(phone, PyStr _greeting_message)].
Proof.
  intros H w'.
  assert (Hw : w' = snd (body acreate now msg phone w)).
  { unfold w', turn, process_message_task. fold body.
    now rewrite (body_reset acreate now msg phone w H). }
  rewrite Hw, (body_reset acreate now msg phone w H). simpl.
  set (d1 := snd (get_or_create_state (db w) now phone)).
  pose proof (reset_state_row d1 now phone) as Hr.
  cbv zeta in Hr.
  destruct Hr as (H1 & H2 & H3 & H4 & H5 & H6 & _ & _ & _ & _ & Hf).
  split; [|split; [|reflexivity]].
  - rewrite reset_state_orders. apply get_or_create_state_orders.
  - eexists. repeat split; eauto.
Qed.

(** *** The answers at step [confirm] *)

Lemma str_in_inv (x : pystr) (words : list pystr) :
  str_in x words = true -> In x words.
Proof.
  unfold str_in. intros H. apply existsb_exists in H as (y & Hy & E).
  apply pystr_eqb_eq in E. now subst.
Qed.

Lemma approve_not_reset (x : pystr) :
  str_in x approve_words = true -> str_in x reset_words = false.
Proof.
  intros H. apply str_in_inv in H. unfold approve_words in H. simpl in H.
  repeat destruct H as [<-|H]; try reflexivity. contradiction.
Qed.

(** What the [try] block does on a word of approval at step [confirm]:
    one order is added, one acknowledgement is sent, and nothing else
    happens; [reset_state] is not called. *)
Lemma body_approve acreate now msg phone w s :
  find (has_phone phone) (conversation_states (db w)) = Some s ->
  ConversationState.current_step s = PyStr (u "confirm") ->
  str_in (py_lower (strip msg)) approve_words = true ->
  body acreate now msg phone w
  = (Ok tt,
     mkWorld (snd (create_order_from_state (db w) now s))
             (outbox w ++ [(phone, PyStr order_received)])).
Proof.
  intros Hf Hs Ha. unfold body, process_body, bind, on_db.
  rewrite (get_or_create_state_found _ now _ _ Hf).
  rewrite (approve_not_reset _ Ha), Hs, eq_str_refl, Ha. simpl.
  now destruct (create_order_from_state (db w) now s).
Qed.

Lemma create_order_from_state_store d now state :
  snd (create_order_from_state d now state)
  = with_orders d (orders d ++ [fst (create_order_from_state d now state)]).
Proof. reflexivity. Qed.

(** The approval turn: exactly one order more, for this customer, pending
    approval; the table of conversation states is untouched. *)
Lemma approve_turn acreate now msg phone w s :
  find (has_phone phone) (conversation_states (db w)) = Some s ->
  ConversationState.current_step s = PyStr (u "confirm") ->
  str_in (py_lower (strip msg)) approve_words = true ->
  let w' := turn acreate now msg phone w in
  let order := fst (create_order_from_state (db w) now s) in
  orders (db w') = orders (db w) ++ [order]
  /\ Order.customer_phone order = PyStr phone
  /\ conversation_states (db w') = conversation_states (db w).
Proof.
  intros Hf Hs Ha w' order.
  assert (Hw : db w' = snd (create_order_from_state (db w) now s)).
  { unfold w'. rewrite turn_db. unfold body.
    fold body. now rewrite (body_approve acreate now msg phone w s Hf Hs Ha). }
  rewrite Hw, create_order_from_state_store. simpl.
  repeat split. apply (find_has_phone _ _ _ Hf).
Qed.

(** *** Extracted quantity *)

Lemma body_interprets acreate now msg phone w :
  let s1 := fst (get_or_create_state (db w) now phone) in
  let d1 := snd (get_or_create_state (db w) now phone) in
  reaches_interpretation py_lower msg s1 = true ->
  body acreate now msg phone w
  = interpret acreate now msg phone s1 (mkWorld d1 (outbox w)).
Proof.
  unfold reaches_interpretation, body, process_body, bind, on_db.
  destruct (get_or_create_state (db w) now phone) as [s1 d1]; simpl.
  intros H. apply andb_true_iff in H as [Hr Hc].
  apply negb_true_iff in Hr. apply negb_true_iff in Hc. rewrite Hr.
  destruct (eq_str (ConversationState.current_step s1) (u "confirm"));
    [|reflexivity].
  simpl in Hc. apply orb_false_iff in Hc as [Hc Hcancel].
  apply orb_false_iff in Hc as [Happrove Hedit].
  now rewrite Happrove, Hedit, Hcancel.
Qed.

Lemma find_category_like_key d category cat :
  sqlite_keys d = true ->
  find_category_like py_format d category = Some cat ->
  int64 (ProductCategory.id cat) = true.
Proof.
  unfold find_category_like, sqlite_keys. intros H F.
  apply find_some in F as [Hin _]. rewrite forallb_forall in H.
  now apply H.
Qed.

Lemma category_kwargs_fit (z : Z) :
  int64 z = true ->
  kwargs_fit rt [ (u "selected_category_id", PyInt z);
                  (u "current_step", PyStr (u "type")) ] = true.
Proof.
  intros H. transitivity (int64 z && true); [reflexivity|now rewrite H].
Qed.

Lemma quantity_kwargs_fit (z : Z) :
  int64 z = true ->
  kwargs_fit rt [ (u "selected_quantity", PyInt z);
                  (u "current_step", PyStr (u "confirm")) ] = true.
Proof.
  intros H. transitivity (int64 z && true); [reflexivity|now rewrite H].
Qed.

(** With the keys of the catalogue in the range of SQLite, the category
    block returns. *)
Lemma merge_category_returns now phone dd state w :
  sqlite_keys (db w) = true ->
  exists s2 w2,
    merge_category rt py_format now phone (PyDict dd) state w = (Ok s2, w2).
Proof.
  intros Hk. unfold merge_category, bind, of_result, read_db, ret; simpl.
  destruct (truthy (dict_get dd (u "category"))); [|eauto].
  destruct (find_category_like py_format (db w) _) as [cat|] eqn:F; [|eauto].
  rewrite try_update_fit
    by (apply category_kwargs_fit; now apply (find_category_like_key _ _ _ Hk F)).
  unfold on_db. destruct (updated _ _ _ _); eauto.
Qed.

(** After the quantity block the customer's row carries the quantity and
    stands at [confirm]. *)
Lemma merge_quantity_sets now phone dd state w q :
  dict_get dd (u "quantity") = PyInt q -> q <> 0 -> int64 q = true ->
  exists s3 w3,
    merge_quantity rt now phone (PyDict dd) state w = (Ok s3, w3)
    /\ find (has_phone phone) (conversation_states (db w3)) = Some s3
    /\ ConversationState.selected_quantity s3 = PyInt q
    /\ ConversationState.current_step s3 = PyStr (u "confirm").
Proof.
  intros Hq Hne Hr. unfold merge_quantity, bind, of_result; simpl.
  rewrite Hq. cbn [truthy].
  replace (negb (q =? 0)) with true
    by (symmetry; apply negb_true_iff; now apply Z.eqb_neq).
  rewrite try_update_fit by (now apply quantity_kwargs_fit).
  unfold on_db.
  pose proof (updated_spec (db w) now phone
                [ (u "selected_quantity", PyInt q);
                  (u "current_step", PyStr (u "confirm")) ]) as H.
  pose proof (get_or_create_state_spec (db w) now phone) as Hg.
  destruct (updated _ _ _ _) as [s3 d3]. simpl in *.
  destruct H as (Hs & Hfind & _). destruct Hg as (_ & Hp & _).
  exists s3, (mkWorld d3 (outbox w)). simpl.
  split; [reflexivity|]. rewrite Hs in *. clear Hs.
  repeat split. apply Hfind. exact Hp.
Qed.

Lemma merge_category_catalogue now phone extracted state :
  keeps product_categories
        (merge_category rt py_format now phone extracted state).
Proof.
  unfold merge_category.
  apply keeps_bind; [auto with frame|intros category].
  destruct (truthy category); [|auto with frame].
  apply keeps_bind; [auto with frame|intros [cat|]]; [|auto with frame].
  apply keeps_try_db. intros d.
  pose proof (get_or_create_state_spec d now phone)
    as (_ & _ & _ & _ & Hc & _).
  destruct (update_state rt d now phone _) as [[s|e] d'] eqn:E; cbn [snd].
  - destruct (update_state_returns rt d now phone _ s d' E) as [-> _].
    exact Hc.
  - now rewrite (update_state_raises rt d now phone _ e d' E).
Qed.


End EngineFacts.

(** *** The turn handler at concrete inputs *)

(** C4, witness: the customer at [confirm] writes " Cancel ". *)
Lemma reset_word_witness :
  str_in (lower_ascii (strip (u " Cancel "))) reset_words = true
  /\ (let w := world_with at_confirm in
      let w' :=
        process_message_task sqlite lower_ascii format_plain json_sample [] []
          api_down 7 (u " Cancel ") customer w in
      orders (db w') = orders (db w)
      /\ (exists s,
            find (has_phone customer) (conversation_states (db w')) = Some s
            /\ ConversationState.current_step s = PyStr (u "greeting")
            /\ ConversationState.selected_category_id s = PyNone
            /\ ConversationState.selected_type_id s = PyNone
            /\ ConversationState.selected_variant_id s = PyNone
            /\ ConversationState.selected_quantity s = PyNone
            /\ ConversationState.selected_accessories s = PyNone)
      /\ outbox w' = outbox w ++ [(customer, PyStr _greeting_message)]).
Proof.
  split; [reflexivity|].
  exact (reset_word_resets_and_creates_no_order
           sqlite lower_ascii format_plain json_sample [] []
           api_down 7 (u " Cancel ") customer (world_with at_confirm)
           eq_refl).
Defined.


(** Outside the integers: the model answers with a quantity that is a
    list.  The commit of [update_state] raises, the customer's row keeps
    its step and takes no quantity, and the reply is the apology. *)
Example listed_quantity_is_refused :
  let prior := row (u "category") PyNone PyNone PyNone PyNone PyNone in
  let w' :=
    process_message_task sqlite lower_ascii format_plain json_listed [] []
      api_listed 7 (u "1000") customer (world_with prior) in
  map ConversationState.current_step (conversation_states (db w'))
  = [ PyStr (u "category") ]
  /\ map ConversationState.selected_quantity (conversation_states (db w'))
     = [ PyNone ]
  /\ outbox w' = [ (customer, PyStr error_msg) ].
Proof. vm_compute. repeat split; reflexivity. Qed.

(** An extracted intent that is a list: the reply is sent, the commit of
    the two log rows raises, no row is logged and the apology follows the
    reply. *)
Example listed_intent_is_answered_twice :
  let prior := row (u "category") PyNone PyNone PyNone PyNone PyNone in
  let w' :=
    process_message_task sqlite lower_ascii format_plain json_intent [] []
      api_intent 7 (u "cups") customer (world_with prior) in
  outbox w' = [ (customer, PyStr (u "تمام")); (customer, PyStr error_msg) ]
  /\ chat_logs (db w') = []
  /\ conversation_states (db w') = [ prior ].
Proof. vm_compute. repeat split; reflexivity. Qed.

(** C1, at a concrete turn.  The customer at [confirm] writes
    "ok": one order for the customer is created, pending approval, and
    the customer's row is exactly what it was, still at [confirm] with the
    variant and the quantity selected.  A second "ok" creates a second
    order. *)
Example approve_word_leaves_state_at_confirm :
  let w := world_with at_confirm in
  let w1 :=
    process_message_task sqlite lower_ascii format_plain json_sample [] []
      api_down 7 (u "ok") customer w in
  let w2 :=
    process_message_task sqlite lower_ascii format_plain json_sample [] []
      api_down 8 (u "ok") customer w1 in
  map Order.customer_phone (orders (db w1)) = [ PyStr customer ]
  /\ map Order.status (orders (db w1)) = [ PyStr (u "PendingApproval") ]
  /\ conversation_states (db w1) = [ at_confirm ]
  /\ ConversationState.current_step at_confirm = PyStr (u "confirm")
  /\ ConversationState.selected_quantity at_confirm = PyInt 1000
  /\ map Order.id (orders (db w2)) = [ 1; 2 ].
Proof. vm_compute. repeat split; reflexivity. Qed.

(** ** The order snapshot *)

(** With a category selected, [get_order_summary] returns the greeting
    text, whatever the catalogue holds. *)
Lemma get_order_summary_with_category d state :
  truthy (ConversationState.selected_category_id state) = true ->
  get_order_summary d state = PyStr _greeting_message.
Proof. intros H. unfold get_order_summary. now rewrite H. Qed.

(** Without one, it returns the dictionary, with the quantity and the
    customer name of the state. *)
Lemma get_order_summary_without_category d state :
  truthy (ConversationState.selected_category_id state) = false ->
  exists items,
    get_order_summary d state = PyDict items
    /\ dict_get items (u "quantity")
       = ConversationState.selected_quantity state
    /\ dict_get items (u "category") = PyNone.
Proof.
  intros H. unfold get_order_summary. rewrite H.
  destruct (truthy (ConversationState.selected_variant_id state));
    [destruct (get_variant d _)|]; eexists; repeat split.
Qed.

(** C2, at a concrete state.  For the state with
    category 1 ("أكواب"), variant 5 and quantity 1000 the order details are
    the greeting text: a string, in which no category, variant or quantity
    is stored.  The second half of the claim holds: [reset_state] leaves the
    stored order as it is. *)
Example order_details_are_greeting_text :
  let d := db (world_with at_confirm) in
  let order := fst (create_order_from_state d 7 at_confirm) in
  let d' := snd (create_order_from_state d 7 at_confirm) in
  Order.order_details order = PyStr _greeting_message
  /\ py_get (Order.order_details order) (u "variant") = Raise AttributeError
  /\ orders (snd (reset_state d' 8 customer)) = [ order ].
Proof. vm_compute. repeat split; reflexivity. Qed.

(** ** The variant step *)

Lemma variant_types_of_acc (variants : list ProductVariant.t)
    (acc : list pystr) :
  (forall v, In v variants ->
     some_nonempty (ProductVariant.variant_type v) = false) ->
  fold_left
    (fun variant_types v =>
       match ProductVariant.variant_type v with
       | Some vt =>
         if some_nonempty (Some vt) then set_add vt variant_types
         else variant_types
       | None => variant_types
       end)
    variants acc = acc.
Proof.
  revert acc. induction variants as [|v l IH]; intros acc H;
    cbn [fold_left]; [reflexivity|].
  rewrite IH by (intros x Hx; apply H; now right).
  specialize (H v (or_introl eq_refl)).
  destruct (ProductVariant.variant_type v) as [vt|]; [|reflexivity].
  now rewrite H.
Qed.

(** For a type none of whose variants carries a variant-kind label, the
    prompt of the [variant] step is [None]. *)
Lemma variant_step_without_kinds rt py_format d state :
  ConversationState.current_step state = PyStr (u "variant") ->
  (forall v,
     In v (variants_of_type d (ConversationState.selected_type_id state)) ->
     some_nonempty (ProductVariant.variant_type v) = false) ->
  generate_step_message rt py_format d state = Ok PyNone.
Proof.
  intros Hs Hv. unfold generate_step_message. rewrite Hs.
  replace (eq_str (PyStr (u "variant")) (u "greeting")) with false
    by reflexivity.
  replace (eq_str (PyStr (u "variant")) (u "category")) with false
    by reflexivity.
  replace (eq_str (PyStr (u "variant")) (u "type")) with false
    by reflexivity.
  replace (eq_str (PyStr (u "variant")) (u "size")) with false
    by reflexivity.
  rewrite eq_str_refl.
  unfold _variant_message, variant_types_of.
  now rewrite variant_types_of_acc.
Qed.

(** C5, at a concrete turn.  The customer stands at step
    [variant] with the burger boxes (type 6) selected, none of whose
    variants has a variant kind, and the model answers with an empty text.
    The prompt is [None]; the handler passes [None] to [send_response] as
    the text of the reply, and the customer's row is still at step
    [variant]: no later step is entered. *)
Example variant_step_is_not_passed :
  let prior := row (u "variant") (PyInt 3) (PyInt 6) PyNone PyNone PyNone in
  let w' :=
    process_message_task sqlite lower_ascii format_plain json_sample [] []
      api_silent 7 (u "hello") customer (world_with prior) in
  generate_step_message sqlite format_plain (db (world_with prior)) prior
  = Ok PyNone
  /\ outbox w' = [ (customer, PyNone) ]
  /\ map ConversationState.current_step (conversation_states (db w'))
     = [ PyStr (u "variant") ].
Proof. vm_compute. repeat split; reflexivity. Qed.

(* ================================================================== *)
(** ** Orders *)

Lemma find_app_some {A : Type} (p : A -> bool) (l l' : list A) (x : A) :
  find p l = Some x -> find p (l ++ l') = Some x.
Proof.
  induction l as [|y l IH]; simpl; [discriminate|].
  destruct (p y); auto.
Qed.

Lemma find_update_first_other {A : Type} (p q : A -> bool) (l : list A)
    (y : A) :
  (forall x, q x = true -> p x = false) -> q y = true ->
  find p (update_first q (fun _ => y) l) = find p l.
Proof.
  intros Hpq Hy. induction l as [|z l IH]; simpl; [reflexivity|].
  destruct (q z) eqn:Hz; simpl.
  - now rewrite (Hpq y Hy), (Hpq z Hz).
  - now rewrite IH.
Qed.

Lemma has_id_true (i : Z) (o : Order.t) :
  has_id i o = true -> Order.id o = i.
Proof. unfold has_id. apply Z.eqb_eq. Qed.

Lemma get_order_id (d : DB) (i : Z) (o : Order.t) :
  get_order d i = Some o -> Order.id o = i.
Proof.
  intros H. apply find_some in H as [_ H]. now apply has_id_true.
Qed.



(** *** A created order until the management decision *)

Lemma le_fold_max (ids : list Z) (z : Z) :
  In z ids -> z <= fold_right Z.max 0 ids.
Proof.
  induction ids as [|y ids IH]; simpl; [contradiction|].
  intros [->|H]; [lia|]. specialize (IH H). lia.
Qed.

Lemma find_fresh_id (l : list Order.t) :
  find (has_id (next_id (map Order.id l))) l = None.
Proof.
  assert (H : forall i, (forall o, In o l -> Order.id o < i) ->
                        find (has_id i) l = None).
  { intros i. induction l as [|o l IH]; simpl; intros Hlt; [reflexivity|].
    unfold has_id at 1.
    destruct (Z.eqb_spec (Order.id o) i) as [E|_].
    - specialize (Hlt o (or_introl eq_refl)). lia.
    - apply IH. intros x Hx. apply Hlt. now right. }
  apply H. intros o Ho. unfold next_id.
  pose proof (le_fold_max (map Order.id l) (Order.id o)
                          (in_map Order.id l o Ho)). lia.
Qed.

(** The created order is pending approval, has no total amount, and is the
    row the store holds under its key. *)
Lemma create_order_from_state_spec (d : DB) (now : Z)
    (state : ConversationState.t) :
  let order := fst (create_order_from_state d now state) in
  let d' := snd (create_order_from_state d now state) in
  Order.status order = PyStr (u "PendingApproval")
  /\ Order.total_amount order = PyNone
  /\ Order.customer_phone order = ConversationState.phone_number state
  /\ Order.order_details order = get_order_summary d state
  /\ get_order d' (Order.id order) = Some order
  /\ conversation_states d' = conversation_states d.
Proof.
  cbv zeta. repeat split.
  unfold get_order, create_order_from_state. cbn [fst snd orders with_orders
    Order.id].
  apply find_app_none; [apply find_fresh_id|].
  unfold has_id. apply Z.eqb_refl.
Qed.

(** Rewriting the row of an order by a function that keeps the key and the
    total amount leaves every unpriced order unpriced. *)
Lemma unpriced_rewrite (d : DB) (i j : Z) (o : Order.t)
    (f : Order.t -> Order.t) :
  Order.id (f o) = Order.id o ->
  Order.total_amount (f o) = Order.total_amount o ->
  get_order d j = Some o ->
  unpriced i d ->
  unpriced i (with_orders d
                (update_first (has_id j) (fun _ => f o) (orders d))).
Proof.
  intros Hid Htot Hj (o' & Hi & Hnone).
  pose proof (get_order_id d j o Hj) as Hoj.
  assert (Hfo : has_id j (f o) = true).
  { unfold has_id. rewrite Hid, Hoj. apply Z.eqb_refl. }
  destruct (Z.eq_dec i j) as [->|Hne].
  - exists (f o). split.
    + unfold get_order. simpl. eapply find_update_first; eauto.
    + rewrite Htot. rewrite Hj in Hi. now injection Hi as ->.
  - exists o'. split; [|exact Hnone].
    unfold get_order. simpl. rewrite find_update_first_other; auto.
    intros x Hx. apply has_id_true in Hx. unfold has_id.
    apply Z.eqb_neq. lia.
Qed.

Lemma unpriced_same_orders (i : Z) (d d' : DB) :
  orders d' = orders d -> unpriced i d -> unpriced i d'.
Proof.
  intros E (o & Ho & Hn). exists o. split; [|exact Hn].
  unfold get_order in *. now rewrite E.
Qed.

Lemma unpriced_more_orders (i : Z) (d d' : DB) (l : list Order.t) :
  orders d' = orders d ++ l -> unpriced i d -> unpriced i d'.
Proof.
  intros E (o & Ho & Hn). exists o. split; [|exact Hn].
  unfold get_order in *. rewrite E. now apply find_app_some.
Qed.

Lemma mark_order_paid_unpriced (d : DB) (now i j : Z) :
  unpriced i d -> unpriced i (snd (mark_order_paid d now j)).
Proof.
  intros H. unfold mark_order_paid.
  destruct (get_order d j) as [o|] eqn:Hj; [|exact H]. cbn [snd].
  apply (unpriced_rewrite d i j o
           (fun o => Order.set_paid_at (PyDateTime now)
                       (Order.set_status (PyStr (u "Paid"))
                          (Order.set_payment_status (PyStr (u "Paid")) o))));
    auto.
Qed.

Lemma create_payment_link_unpriced (d : DB) (i j : Z) (o : Order.t) :
  get_order d j = Some o ->
  unpriced i d -> unpriced i (snd (create_payment_link d o)).
Proof.
  intros Hj H. unfold create_payment_link.
  destruct (Order.id o =? 0); [exact H|].
  pose proof (get_order_id d j o Hj) as Hid.
  change (Order.id (Order.set_payment_status (PyStr (u "Pending"))
            (Order.set_payment_url
               (PyStr (u "https://pay.example.com/order/"
                       ++ str_of_Z (Order.id o))) o)))
    with (Order.id o).
  rewrite Hid, Hj. cbn [snd].
  apply (unpriced_rewrite d i j o
           (fun x => Order.set_payment_status (PyStr (u "Pending"))
                       (Order.set_payment_url
                          (PyStr (u "https://pay.example.com/order/"
                                  ++ str_of_Z j)) x)));
    auto.
Qed.

(** *** What a turn does to the table of orders *)

Lemma appends_keeps {A : Type} (m : M A) : keeps orders m -> appends m.
Proof. intros H w. exists []. rewrite app_nil_r. apply H. Qed.

Lemma appends_bind {A B : Type} (m : M A) (k : A -> M B) :
  appends m -> (forall a, appends (k a)) -> appends (bind m k).
Proof.
  intros Hm Hk w. unfold bind. destruct (Hm w) as [l Hl].
  destruct (m w) as [[a|e] w1]; simpl in *.
  - destruct (Hk a w1) as [l' Hl']. exists (l ++ l').
    now rewrite Hl', Hl, app_assoc.
  - now exists l.
Qed.

Lemma appends_create_order (now : Z) (state : ConversationState.t) :
  appends (on_db (fun d => create_order_from_state d now state)).
Proof. intros w. now eexists. Qed.

Section Histories.

Variable rt : Runtime.
Variable py_lower : pystr -> pystr.
Variable py_format : pyval -> pystr.
Variable json_loads : pystr -> result pyval.
Variable SYSTEM_PROMPT : pystr.
Variable EXTRACTION_PROMPT : pystr.

Let turn := process_message_task rt py_lower py_format json_loads
                                 SYSTEM_PROMPT EXTRACTION_PROMPT.
Let body := process_body rt py_lower py_format json_loads
                         SYSTEM_PROMPT EXTRACTION_PROMPT.
Let history := run rt py_lower py_format json_loads
                   SYSTEM_PROMPT EXTRACTION_PROMPT.

(** A turn adds at most orders at the end of the table. *)
Lemma process_body_appends acreate now msg phone :
  appends (body acreate now msg phone).
Proof.
  unfold body, process_body.
  apply appends_bind; [apply appends_keeps; frame|intros s0].
  destruct (str_in _ reset_words); [apply appends_keeps; frame|].
  destruct (eq_str _ _);
    [|apply appends_keeps; apply interpret_message_orders].
  destruct (str_in _ approve_words).
  { apply appends_bind; [apply appends_create_order|intros o].
    apply appends_keeps; frame. }
  destruct (str_in _ edit_words); [apply appends_keeps; frame|].
  destruct (str_in _ cancel_words); [apply appends_keeps; frame|].
  apply appends_keeps; apply interpret_message_orders.
Qed.

Lemma turn_unpriced acreate now msg phone w i :
  unpriced i (db w) -> unpriced i (db (turn acreate now msg phone w)).
Proof.
  intros H. unfold turn. rewrite turn_db.
  destruct (process_body_appends acreate now msg phone w) as [l Hl].
  exact (unpriced_more_orders i _ _ l Hl H).
Qed.

Lemma apply_event_unpriced e w i :
  unpriced i (db w) ->
  unpriced i (db (apply_event rt py_lower py_format json_loads
                              SYSTEM_PROMPT EXTRACTION_PROMPT e w)).
Proof.
  intros H. destruct e as [acreate now msg phone|now phone kwargs|now phone
                          |now j|j]; cbn [apply_event].
  - now apply turn_unpriced.
  - eapply unpriced_same_orders; [|exact H]. apply update_state_orders.
  - eapply unpriced_same_orders; [|exact H]. apply reset_state_orders.
  - now apply mark_order_paid_unpriced.
  - destruct (get_order (db w) j) as [o|] eqn:Hj; [|exact H].
    now apply (create_payment_link_unpriced (db w) i j o).
Qed.

Lemma history_unpriced events w i :
  unpriced i (db w) -> unpriced i (db (history events w)).
Proof.
  unfold history, run. revert w.
  induction events as [|e events IH]; intros w H; simpl; [exact H|].
  apply IH. now apply apply_event_unpriced.
Qed.


End Histories.

(* ================================================================== *)
(** ** The text interpretation adapter *)

Section Interpretation.

Variable json_loads : pystr -> result pyval.
Variable SYSTEM_PROMPT : pystr.
Variable EXTRACTION_PROMPT : pystr.

Let analyze := analyze_message json_loads SYSTEM_PROMPT EXTRACTION_PROMPT.
Let try_block := analyze_body json_loads SYSTEM_PROMPT EXTRACTION_PROMPT.

(** C9.  For every remote model, message and history, [analyze_message]
    returns a value and raises nothing.  When the remote call fails, and
    more generally whenever anything inside the [try] block raises, the
    value is the fixed pair: the text "عذراً، حدث خطأ. كيف يمكنني
    مساعدتك؟" and the extracted fields [{"intent": "error"}]. *)
Theorem analyze_message_contains_failures (acreate : chat_api)
    (message : pystr)
    (conversation_history : option (list (pystr * pystr))) :
  (exists r, analyze acreate message conversation_history = Ok r)
  /\ ((forall request, exists e, acreate request = Raise e) ->
      analyze acreate message conversation_history = Ok low_confidence)
  /\ (forall e,
        try_block acreate message conversation_history = Raise e ->
        analyze acreate message conversation_history = Ok low_confidence)
  /\ response low_confidence = u "عذراً، حدث خطأ. كيف يمكنني مساعدتك؟"
  /\ data low_confidence = PyDict [ (u "intent", PyStr (u "error")) ].
Proof.
  unfold analyze, try_block, analyze_message.
  split; [|split; [|split; [|split; reflexivity]]].
  - destruct (analyze_body _ _ _ _ _ _); eauto.
  - intros Hfail. unfold analyze_body.
    match goal with
    | |- context [acreate ?request] =>
      destruct (Hfail request) as [e ->]
    end.
    reflexivity.
  - intros e ->. reflexivity.
Qed.

End Interpretation.

(** C9, witness: the remote model is down. *)
Lemma analyze_message_witness :
  analyze_message json_sample [] [] api_down (u "hello") None
  = Ok low_confidence.
Proof.
  exact (proj1 (proj2 (analyze_message_contains_failures
                         json_sample [] [] api_down (u "hello") None))
               (fun _ => ex_intro _ (RemoteError 503) eq_refl)).
Defined.

(** A model that answers, with text and fields, and one whose answer has
    no choice: the first is passed on, the second is contained. *)
Example analyze_message_examples :
  analyze_message json_sample [] [] api_quantity (u "1000") None
  = Ok (mkAnalysis (u "تمام") (PyDict [ (u "quantity", PyInt 1000) ]))
  /\ analyze_message json_sample [] [] (fun _ => Ok []) (u "1000") None
     = Ok low_confidence
  /\ analyze_message json_sample [] [] (fun _ => Ok [ None ]) (u "1000") None
     = Ok low_confidence.
Proof. vm_compute. repeat split; reflexivity. Qed.

(* ================================================================== *)
(** ** Partial updates of a conversation state *)

Lemma commit_state_ext (rt : Runtime) (d : DB) (names names' : list pystr)
    (s : ConversationState.t) :
  (forall c,
     In c ConversationState.columns ->
     str_in (ConversationState.col_name c) names
     = str_in (ConversationState.col_name c) names') ->
  commit_state rt d names s = commit_state rt d names' s.
Proof.
  intros H. unfold commit_state.
  assert (G : forall cs acc,
             incl cs ConversationState.columns ->
             fold_left (commit_column rt d names) cs acc
             = fold_left (commit_column rt d names') cs acc).
  { induction cs as [|c cs IH]; intros acc Hincl; [reflexivity|].
    cbn [fold_left]. rewrite IH by (intros x Hx; apply Hincl; now right).
    f_equal. unfold commit_column. destruct acc as [st|e]; [|reflexivity].
    now rewrite (H c (Hincl c (or_introl eq_refl))). }
  apply G, incl_refl.
Qed.

Lemma str_in_filter_keys (p : pystr -> bool) (key : pystr)
    (kwargs : list (pystr * pyval)) :
  p key = true ->
  str_in key (map fst (filter (fun kv => p (fst kv)) kwargs))
  = str_in key (map fst kwargs).
Proof.
  intros Hp. induction kwargs as [|[k v] kwargs IH]; [reflexivity|].
  cbn [filter fst map]. destruct (p k) eqn:Hk.
  - cbn [map fst]. now rewrite !str_in_cons, IH.
  - rewrite str_in_cons, IH.
    destruct (pystr_eqb key k) eqn:E; [|reflexivity].
    apply pystr_eqb_eq in E. congruence.
Qed.

Lemma assign_kwargs_known (rt : Runtime) (kwargs : list (pystr * pyval))
    (s0 s : ConversationState.t) :
  assign_kwargs rt (filter (fun kv => hasattr rt s0 (fst kv)) kwargs) s
  = assign_kwargs rt kwargs s.
Proof.
  revert s. induction kwargs as [|[k v] kwargs IH]; intros s; [reflexivity|].
  cbn [filter fst assign_kwargs].
  change (hasattr rt s k) with (hasattr rt s0 k).
  destruct (hasattr rt s0 k) eqn:E; [|apply IH].
  cbn [assign_kwargs]. change (hasattr rt s k) with (hasattr rt s0 k).
  rewrite E. destruct (setattr rt s k v); [apply IH|reflexivity].
Qed.

Lemma column_is_attribute (rt : Runtime) (s : ConversationState.t)
    (c : ConversationState.column) :
  In c ConversationState.columns ->
  hasattr rt s (ConversationState.col_name c) = true.
Proof.
  intros Hc. unfold hasattr, ConversationState.is_column.
  now rewrite (lookup_column c Hc).
Qed.


(** Updates of the customer at [confirm]: one that names a column and an
    unknown attribute; one that names [__class__], an attribute of the
    object that is no column; one that gives the quantity as a list. *)
Example update_state_example :
  let d := db (world_with at_confirm) in
  update_state sqlite d 9 customer
    [ (u "current_step", PyStr (u "quantity"));
      (u "favourite_colour", PyStr (u "red")) ]
  = (Ok (ConversationState.set_updated_at (PyDateTime 9)
           (ConversationState.set_current_step (PyStr (u "quantity"))
                                               at_confirm)),
     with_states d
       [ ConversationState.set_updated_at (PyDateTime 9)
           (ConversationState.set_current_step (PyStr (u "quantity"))
                                               at_confirm) ])
  /\ hasattr sqlite at_confirm (u "favourite_colour") = false
  /\ hasattr sqlite at_confirm (u "current_step") = true
  /\ hasattr sqlite at_confirm (u "__class__") = true
  /\ update_state sqlite d 9 customer
       [ (u "current_step", PyStr (u "quantity"));
         (u "__class__", PyStr (u "Order")) ]
     = (Raise TypeError, d)
  /\ update_state sqlite d 9 customer
       [ (u "selected_quantity", PyList [ PyInt 1000 ]);
         (u "current_step", PyStr (u "confirm")) ]
     = (Raise StatementError, d).
Proof. vm_compute. repeat split; reflexivity. Qed.

(* ================================================================== *)
(** * Further properties *)

(** ** The state store *)

(** X1.  [get_or_create_state] is idempotent: a second call for the same
    customer, at any later time, returns the row of the first call and
    leaves the store as the first call left it. *)
Theorem get_or_create_state_idempotent (d : DB) (now now' : Z)
    (phone : pystr) :
  get_or_create_state (snd (get_or_create_state d now phone)) now' phone
  = get_or_create_state d now phone.
Proof.
  destruct (get_or_create_state_spec d now phone) as (Hf & _).
  rewrite (get_or_create_state_found _ now' _ _ Hf).
  now destruct (get_or_create_state d now phone).
Qed.

Lemma in_int_ids (l : list pyval) (z : Z) :
  In (PyInt z) l -> In z (int_ids l).
Proof.
  intros H. unfold int_ids. apply in_flat_map. exists (PyInt z).
  split; [exact H|now left].
Qed.

Arguments next_id : simpl never.

(** X2.  A customer without a row gets one at step [greeting] with no
    selection, name or note; the row is added after the rows of the store,
    which stay as they are, and its key differs from the key of each of
    them. *)
Theorem get_or_create_state_creates (d : DB) (now : Z) (phone : pystr) :
  find (has_phone phone) (conversation_states d) = None ->
  let s := fst (get_or_create_state d now phone) in
  let d' := snd (get_or_create_state d now phone) in
  conversation_states d' = conversation_states d ++ [s]
  /\ ConversationState.phone_number s = PyStr phone
  /\ ConversationState.current_step s = PyStr (u "greeting")
  /\ ConversationState.selected_category_id s = PyNone
  /\ ConversationState.selected_type_id s = PyNone
  /\ ConversationState.selected_variant_id s = PyNone
  /\ ConversationState.selected_quantity s = PyNone
  /\ ConversationState.selected_accessories s = PyNone
  /\ ConversationState.customer_name s = PyNone
  /\ ConversationState.notes s = PyNone
  /\ (forall x, In x (conversation_states d) ->
        ConversationState.id x <> ConversationState.id s).
Proof.
  intros Hnone. unfold get_or_create_state. rewrite Hnone. cbn.
  repeat split.
  intros x Hx E.
  pose proof (in_map ConversationState.id _ _ Hx) as Hin.
  rewrite E in Hin. apply in_int_ids in Hin.
  apply le_fold_max in Hin. unfold next_id in Hin. lia.
Qed.

(** X2, witness: the store holds the catalogue and no conversation. *)
Lemma get_or_create_state_creates_witness :
  let s := fst (get_or_create_state catalogue 7 customer) in
  let d' := snd (get_or_create_state catalogue 7 customer) in
  conversation_states d' = conversation_states catalogue ++ [s]
  /\ ConversationState.phone_number s = PyStr customer
  /\ ConversationState.current_step s = PyStr (u "greeting")
  /\ ConversationState.selected_category_id s = PyNone
  /\ ConversationState.selected_type_id s = PyNone
  /\ ConversationState.selected_variant_id s = PyNone
  /\ ConversationState.selected_quantity s = PyNone
  /\ ConversationState.selected_accessories s = PyNone
  /\ ConversationState.customer_name s = PyNone
  /\ ConversationState.notes s = PyNone
  /\ (forall x, In x (conversation_states catalogue) ->
        ConversationState.id x <> ConversationState.id s).
Proof. exact (get_or_create_state_creates catalogue 7 customer eq_refl). Defined.

(** X3.  Update then look up: when the keyword arguments do not assign
    [phone_number] and [update_state] returns, a later
    [get_or_create_state] for the customer returns the row [update_state]
    returned (with the values as the database holds them) and changes
    nothing. *)
Theorem update_state_then_lookup (rt : Runtime) (d : DB) (now now' : Z)
    (phone : pystr) (kwargs : list (pystr * pyval))
    (s : ConversationState.t) :
  ~ In (u "phone_number") (map fst kwargs) ->
  fst (update_state rt d now phone kwargs) = Ok s ->
  get_or_create_state (snd (update_state rt d now phone kwargs)) now' phone
  = (s, snd (update_state rt d now phone kwargs)).
Proof.
  intros H Hs.
  destruct (update_state rt d now phone kwargs) as [r d'] eqn:E.
  cbn [fst snd] in *. subst r.
  apply get_or_create_state_found.
  exact (update_state_stored rt d now phone kwargs s d' H E).
Qed.

Lemma not_in_keys_example :
  ~ In (u "phone_number")
       (map fst [ (u "current_step", PyStr (u "size"));
                  (u "selected_type_id", PyInt 1) ]).
Proof.
  vm_compute. intros [H|[H|[]]]; discriminate H.
Defined.

(** X3, witness: the customer at [confirm] is moved to [size] with type 1. *)
Lemma update_state_then_lookup_witness :
  let r :=
    update_state sqlite (db (world_with at_confirm)) 8 customer
      [ (u "current_step", PyStr (u "size"));
        (u "selected_type_id", PyInt 1) ] in
  get_or_create_state (snd r) 9 customer
  = (ConversationState.set_updated_at (PyDateTime 8)
       (ConversationState.set_selected_type_id (PyInt 1)
          (ConversationState.set_current_step (PyStr (u "size"))
                                              at_confirm)),
     snd r).
Proof.
  exact (update_state_then_lookup sqlite (db (world_with at_confirm)) 8 9
           customer _ _ not_in_keys_example eq_refl).
Defined.

(** X4.  [get_next_step] always answers with a step of [STEPS]: each step
    but the last is followed by the next one of the list, and the last
    step, like any text that is no step, is followed by [greeting]. *)
Theorem get_next_step_walks_steps :
  (forall current_step, In (get_next_step current_step) STEPS)
  /\ (forall i, (i < 8)%nat ->
        get_next_step (nth i STEPS []) = nth (S i) STEPS [])
  /\ get_next_step (u "invoice") = u "greeting"
  /\ (forall current_step,
        ~ In current_step STEPS ->
        get_next_step current_step = u "greeting").
Proof.
  split; [|split; [|split]].
  - intros s. unfold get_next_step, STEPS. cbn [index_of].
    repeat (destruct (pystr_eqb _ s); [vm_compute; tauto|]).
    vm_compute; tauto.
  - intros i Hi.
    do 8 (destruct i as [|i]; [reflexivity|]). lia.
  - reflexivity.
  - intros s Hn. unfold get_next_step.
    assert (H : forall l, ~ In s l -> index_of s l = None).
    { induction l as [|y l IH]; intros Hl; simpl; [reflexivity|].
      destruct (pystr_eqb y s) eqn:E.
      - apply pystr_eqb_eq in E. subst. exfalso. apply Hl. now left.
      - rewrite IH; [reflexivity|]. intros Hin. apply Hl. now right. }
    now rewrite H.
Qed.

(** ** Rules for the messages a computation sends *)

Lemma quiet_ret {A : Type} (a : A) : quiet (ret a).
Proof. intros w. reflexivity. Qed.

Lemma quiet_raise {A : Type} (e : exn) : quiet (@raise A e).
Proof. intros w. reflexivity. Qed.

Lemma quiet_of_result {A : Type} (r : result A) : quiet (of_result r).
Proof. intros w. reflexivity. Qed.

Lemma quiet_read_db {A : Type} (g : DB -> result A) : quiet (read_db g).
Proof. intros w. reflexivity. Qed.

Lemma quiet_on_db {A : Type} (op : DB -> A * DB) : quiet (on_db op).
Proof. intros w. unfold on_db. now destruct (op (db w)). Qed.

Lemma quiet_try_db {A : Type} (op : DB -> result A * DB) :
  quiet (try_db op).
Proof. intros w. unfold try_db. now destruct (op (db w)). Qed.

Lemma quiet_commit_logs (rt : Runtime) (logs : list ChatLog.t) :
  quiet (commit_logs rt logs).
Proof.
  intros w. unfold commit_logs. now destruct (stored_logs rt (db w) logs).
Qed.

Lemma quiet_bind {A B : Type} (m : M A) (k : A -> M B) :
  quiet m -> (forall a, quiet (k a)) -> quiet (bind m k).
Proof.
  intros Hm Hk w. unfold bind. specialize (Hm w).
  destruct (m w) as [[a|e] w1]; simpl in *.
  - now rewrite Hk.
  - exact Hm.
Qed.

Lemma replies_send (to : pystr) (msg : pyval) :
  replies to (send_response to msg).
Proof. intros w. simpl. now exists msg. Qed.

Lemma replies_raise {A : Type} (to : pystr) (e : exn) :
  replies to (@raise A e).
Proof. intros w. reflexivity. Qed.

Lemma replies_bind {A B : Type} (to : pystr) (m : M A) (k : A -> M B) :
  quiet m -> (forall a, replies to (k a)) -> replies to (bind m k).
Proof.
  intros Hm Hk w. unfold replied, bind. specialize (Hm w).
  destruct (m w) as [[a|e] w1]; simpl in *.
  - specialize (Hk a w1). unfold replied in Hk.
    destruct (k a w1) as [[b|e] w2]; now rewrite <- Hm.
  - exact Hm.
Qed.

Create HintDb hush.

(** A computation that sends one message when it returns, followed by
    one that sends none: the message is sent, whatever follows raises. *)
Lemma answers_then_quiet {A B : Type} (to : pystr) (m : M A)
    (k : A -> M B) :
  replies to m -> (forall a, quiet (k a)) -> answers to (bind m k).
Proof.
  intros Hm Hk w. unfold bind. specialize (Hm w). unfold replied in Hm.
  destruct (m w) as [[a|e] w1]; simpl in *.
  - specialize (Hk a w1). destruct Hm as [msg Hm].
    destruct (k a w1) as [[b|e] w2]; cbn [snd] in Hk; rewrite Hk, Hm.
    + now exists msg.
    + right. now exists msg.
  - now left.
Qed.

Lemma answers_replies {A : Type} (to : pystr) (m : M A) :
  replies to m -> answers to m.
Proof.
  intros H w. specialize (H w). unfold replied in H.
  destruct (m w) as [[a|e] w1]; [exact H|now left].
Qed.

Lemma answers_bind {A B : Type} (to : pystr) (m : M A) (k : A -> M B) :
  quiet m -> (forall a, answers to (k a)) -> answers to (bind m k).
Proof.
  intros Hm Hk w. unfold bind. specialize (Hm w).
  destruct (m w) as [[a|e] w1]; simpl in *.
  - specialize (Hk a w1). destruct (k a w1) as [[b|e] w2];
      now rewrite <- Hm.
  - now left.
Qed.

#[local] Hint Resolve quiet_ret quiet_raise quiet_of_result quiet_read_db
  quiet_on_db quiet_try_db quiet_commit_logs : hush.

(** Splits a goal [quiet m] along the binds and conditionals of [m]. *)
Ltac hush :=
  repeat first
    [ apply quiet_bind; [|intros ?]
    | solve [auto with hush]
    | match goal with
      | |- quiet (if ?c then _ else _) => destruct c
      | |- quiet (match ?c with _ => _ end) => destruct c
      end ].

(** ** Other customers *)

Lemma find_app_skip {A : Type} (p : A -> bool) (l : list A) (x : A) :
  p x = false -> find p (l ++ [x]) = find p l.
Proof.
  intros Hx. induction l as [|y l IH]; simpl.
  - now rewrite Hx.
  - now rewrite IH.
Qed.

Lemma has_phone_other (phone other : pystr) (s : ConversationState.t) :
  phone <> other ->
  ConversationState.phone_number s = PyStr phone ->
  has_phone other s = false.
Proof.
  intros Hne Hp. unfold has_phone. rewrite Hp. simpl.
  destruct (pystr_eqb phone other) eqn:E; [|reflexivity].
  apply pystr_eqb_eq in E. contradiction.
Qed.

Lemma get_or_create_state_other (d : DB) (now : Z) (phone other : pystr) :
  phone <> other ->
  row_of other (snd (get_or_create_state d now phone)) = row_of other d.
Proof.
  intros Hne. unfold row_of, get_or_create_state.
  destruct (find (has_phone phone) (conversation_states d));
    [reflexivity|].
  cbn [snd conversation_states with_states].
  apply find_app_skip. now apply (has_phone_other phone).
Qed.

(** Rewriting the row of one customer leaves the row of another. *)
Lemma rewrite_row_other (d : DB) (phone other : pystr)
    (s : ConversationState.t) :
  phone <> other ->
  ConversationState.phone_number s = PyStr phone ->
  row_of other
    (with_states d
       (update_first (has_phone phone) (fun _ => s) (conversation_states d)))
  = row_of other d.
Proof.
  intros Hne Hp. unfold row_of. cbn [conversation_states with_states].
  apply find_update_first_other.
  - intros x Hx. apply (has_phone_other phone); [exact Hne|].
    now apply eq_str_true.
  - unfold has_phone. rewrite Hp. apply eq_str_refl.
Qed.

Lemma reset_state_other (d : DB) (now : Z) (phone other : pystr) :
  phone <> other ->
  row_of other (snd (reset_state d now phone)) = row_of other d.
Proof.
  intros Hne.
  pose proof (get_or_create_state_spec d now phone) as (_ & Hp & _).
  pose proof (get_or_create_state_other d now phone other Hne) as Ho.
  unfold reset_state.
  destruct (get_or_create_state d now phone) as [s d1]. cbn [fst snd] in *.
  rewrite rewrite_row_other; auto.
Qed.

Lemma update_state_other (rt : Runtime) (d : DB) (now : Z)
    (phone other : pystr) (kwargs : list (pystr * pyval)) :
  phone <> other ->
  ~ In (u "phone_number") (map fst kwargs) ->
  row_of other (snd (update_state rt d now phone kwargs)) = row_of other d.
Proof.
  intros Hne Hk.
  pose proof (get_or_create_state_other d now phone other Hne) as Ho.
  destruct (update_state rt d now phone kwargs) as [[s|e] d'] eqn:E;
    cbn [snd].
  - pose proof (update_state_phone rt d now phone kwargs s d' Hk E) as Hp.
    destruct (update_state_returns rt d now phone kwargs s d' E) as [-> _].
    rewrite rewrite_row_other; auto.
  - now rewrite (update_state_raises rt d now phone kwargs e d' E).
Qed.

Lemma create_order_from_state_other (d : DB) (now : Z)
    (state : ConversationState.t) (other : pystr) :
  row_of other (snd (create_order_from_state d now state)) = row_of other d.
Proof. reflexivity. Qed.

Lemma keeps_row_commit_logs (rt : Runtime) (other : pystr)
    (logs : list ChatLog.t) :
  keeps (row_of other) (commit_logs rt logs).
Proof.
  intros w. unfold commit_logs. now destruct (stored_logs rt (db w) logs).
Qed.

Lemma step_kwarg_keeps_phone (x : pyval) :
  ~ In (u "phone_number") (map fst [ (u "current_step", x) ]).
Proof. vm_compute. intros [H|[]]. discriminate H. Qed.

(** ** The turn handler, branch by branch *)

Section TurnFacts.

Variable rt : Runtime.
Variable py_lower : pystr -> pystr.
Variable py_format : pyval -> pystr.
Variable json_loads : pystr -> result pyval.
Variable SYSTEM_PROMPT : pystr.
Variable EXTRACTION_PROMPT : pystr.

Let turn := process_message_task rt py_lower py_format json_loads
                                 SYSTEM_PROMPT EXTRACTION_PROMPT.
Let body := process_body rt py_lower py_format json_loads
                         SYSTEM_PROMPT EXTRACTION_PROMPT.
Let interpret := interpret_message rt py_format json_loads
                                   SYSTEM_PROMPT EXTRACTION_PROMPT.
Let analyze := analyze_message json_loads SYSTEM_PROMPT EXTRACTION_PROMPT.

Lemma edit_not_reset_nor_approve (x : pystr) :
  str_in x edit_words = true ->
  str_in x reset_words = false /\ str_in x approve_words = false.
Proof.
  intros H. apply str_in_inv in H. unfold edit_words in H. simpl in H.
  repeat destruct H as [<-|H]; try (split; reflexivity). contradiction.
Qed.

Lemma generate_step_message_quantity d state :
  ConversationState.current_step state = PyStr (u "quantity") ->
  generate_step_message rt py_format d state
  = Ok (PyStr (_quantity_message d state)).
Proof.
  intros H. unfold generate_step_message. rewrite H.
  replace (eq_str (PyStr (u "quantity")) (u "greeting")) with false
    by reflexivity.
  replace (eq_str (PyStr (u "quantity")) (u "category")) with false
    by reflexivity.
  replace (eq_str (PyStr (u "quantity")) (u "type")) with false
    by reflexivity.
  replace (eq_str (PyStr (u "quantity")) (u "size")) with false
    by reflexivity.
  replace (eq_str (PyStr (u "quantity")) (u "variant")) with false
    by reflexivity.
  now rewrite eq_str_refl.
Qed.

Lemma body_edit acreate now msg phone w s :
  find (has_phone phone) (conversation_states (db w)) = Some s ->
  ConversationState.current_step s = PyStr (u "confirm") ->
  str_in (py_lower (strip msg)) edit_words = true ->
  let r := updated (db w) now phone
             [ (u "current_step", PyStr (u "quantity")) ] in
  body acreate now msg phone w
  = (Ok tt,
     mkWorld (snd r)
       (outbox w ++ [(phone, PyStr (_quantity_message (snd r) (fst r)))])).
Proof.
  intros Hf Hs He r. unfold body, process_body, bind, on_db.
  rewrite (get_or_create_state_found _ now _ _ Hf).
  destruct (edit_not_reset_nor_approve _ He) as [Hr Ha].
  rewrite Hr, Hs, eq_str_refl, Ha, He.
  rewrite try_update_fit by reflexivity.
  unfold on_db, read_db. simpl.
  fold r.
  assert (Hq : ConversationState.current_step (fst r) = PyStr (u "quantity")).
  { unfold r. destruct (updated_spec (db w) now phone
                          [ (u "current_step", PyStr (u "quantity")) ])
      as (E & _).
    rewrite E. reflexivity. }
  destruct r as [s' d']. simpl in *.
  now rewrite (generate_step_message_quantity d' s' Hq).
Qed.

(** X5.  At step [confirm], the word "تعديل" or "edit" moves the customer's
    row to step [quantity] and keeps every selection, the name and the
    notes; no order is created and the reply is the quantity prompt. *)
Theorem edit_word_returns_to_quantity acreate now msg phone w s :
  find (has_phone phone) (conversation_states (db w)) = Some s ->
  ConversationState.current_step s = PyStr (u "confirm") ->
  str_in (py_lower (strip msg)) edit_words = true ->
  let w' := turn acreate now msg phone w in
  orders (db w') = orders (db w)
  /\ (exists s',
        find (has_phone phone) (conversation_states (db w')) = Some s'
        /\ ConversationState.current_step s' = PyStr (u "quantity")
        /\ ConversationState.selected_category_id s'
           = ConversationState.selected_category_id s
        /\ ConversationState.selected_type_id s'
           = ConversationState.selected_type_id s
        /\ ConversationState.selected_variant_id s'
           = ConversationState.selected_variant_id s
        /\ ConversationState.selected_quantity s'
           = ConversationState.selected_quantity s
        /\ ConversationState.selected_accessories s'
           = ConversationState.selected_accessories s
        /\ ConversationState.customer_name s'
           = ConversationState.customer_name s
        /\ ConversationState.notes s' = ConversationState.notes s
        /\ outbox w'
           = outbox w ++ [(phone, PyStr (_quantity_message (db w') s'))]).
Proof.
  intros Hf Hs He w'.
  pose proof (body_edit acreate now msg phone w s Hf Hs He) as Hb.
  cbv zeta in Hb.
  assert (Hw : w' = snd (body acreate now msg phone w)).
  { unfold w', turn, process_message_task. fold body. now rewrite Hb. }
  rewrite Hw, Hb. cbn [snd db outbox].
  destruct (updated_spec (db w) now phone
              [ (u "current_step", PyStr (u "quantity")) ])
    as (E & _ & Ho & _).
  split; [exact Ho|].
  exists (fst (updated (db w) now phone
                 [ (u "current_step", PyStr (u "quantity")) ])).
  split; [apply updated_stored, step_kwarg_keeps_phone|].
  rewrite E, (get_or_create_state_found _ now _ _ Hf).
  repeat split.
Qed.

Lemma cancel_not_reset_is_unhamzated (x : pystr) :
  str_in x cancel_words = true -> str_in x reset_words = false ->
  x = u "الغاء".
Proof.
  intros H Hr. apply str_in_inv in H. unfold cancel_words in H. simpl in H.
  repeat destruct H as [<-|H]; try discriminate Hr; try reflexivity.
  contradiction.
Qed.

Lemma body_cancel acreate now msg phone w s :
  find (has_phone phone) (conversation_states (db w)) = Some s ->
  ConversationState.current_step s = PyStr (u "confirm") ->
  str_in (py_lower (strip msg)) cancel_words = true ->
  str_in (py_lower (strip msg)) reset_words = false ->
  body acreate now msg phone w
  = (Ok tt,
     mkWorld (snd (reset_state (db w) now phone))
             (outbox w ++ [(phone, PyStr order_cancelled)])).
Proof.
  intros Hf Hs Hc Hr. unfold body, process_body, bind, on_db.
  rewrite (get_or_create_state_found _ now _ _ Hf).
  rewrite Hr, Hs, eq_str_refl, Hc.
  rewrite (cancel_not_reset_is_unhamzated _ Hc Hr).
  replace (str_in (u "الغاء") approve_words) with false by reflexivity.
  replace (str_in (u "الغاء") edit_words) with false by reflexivity.
  simpl. now destruct (reset_state (db w) now phone).
Qed.

(** X6.  The cancellation branch of step [confirm] answers one word only.
    A message that is among its three words and was not taken by the reset
    command before is "الغاء"; the customer's row is then reset to
    [greeting] with the selections cleared, no order is created, and the
    reply is the cancellation acknowledgement.  (The two other words,
    "إلغاء" and "cancel", are reset words: the reset command answers them
    with the greeting text.) *)
Theorem cancel_word_at_confirm acreate now msg phone w s :
  find (has_phone phone) (conversation_states (db w)) = Some s ->
  ConversationState.current_step s = PyStr (u "confirm") ->
  str_in (py_lower (strip msg)) cancel_words = true ->
  str_in (py_lower (strip msg)) reset_words = false ->
  let w' := turn acreate now msg phone w in
  py_lower (strip msg) = u "الغاء"
  /\ orders (db w') = orders (db w)
  /\ (exists s',
        find (has_phone phone) (conversation_states (db w')) = Some s'
        /\ ConversationState.current_step s' = PyStr (u "greeting")
        /\ ConversationState.selected_category_id s' = PyNone
        /\ ConversationState.selected_variant_id s' = PyNone
        /\ ConversationState.selected_quantity s' = PyNone)
  /\ outbox w' = outbox w ++ [(phone, PyStr order_cancelled)].
Proof.
  intros Hf Hs Hc Hr w'.
  pose proof (body_cancel acreate now msg phone w s Hf Hs Hc Hr) as Hb.
  assert (Hw : w' = snd (body acreate now msg phone w)).
  { unfold w', turn, process_message_task. fold body. now rewrite Hb. }
  rewrite Hw, Hb. cbn [snd db outbox].
  destruct (reset_state_row (db w) now phone)
    as (H1 & H2 & _ & H4 & H5 & _ & _ & _ & _ & _ & Hfind).
  split; [now apply cancel_not_reset_is_unhamzated|].
  split; [apply reset_state_orders|].
  split; [|reflexivity].
  eexists. repeat split; eauto.
Qed.

(** *** Orders *)

Lemma confirm_row_existed d now phone :
  ConversationState.current_step (fst (get_or_create_state d now phone))
  = PyStr (u "confirm") ->
  get_or_create_state d now phone
  = (fst (get_or_create_state d now phone), d)
  /\ find (has_phone phone) (conversation_states d)
     = Some (fst (get_or_create_state d now phone)).
Proof.
  unfold get_or_create_state.
  destruct (find (has_phone phone) (conversation_states d)) as [s|];
    cbn [fst]; [now split|].
  intros H. vm_compute in H. discriminate H.
Qed.

(** X7.  A turn creates an order in one case only: the customer's row is
    at step [confirm] and the message is a word of approval.  Then the
    table of orders grows by the order materialised from that row, and by
    nothing else; in every other turn, whatever the message and whatever
    the remote model answers, the table of orders is left as it was. *)
Theorem turn_creates_order_only_on_approval acreate now msg phone w :
  let s0 := fst (get_or_create_state (db w) now phone) in
  let approving :=
    eq_str (ConversationState.current_step s0) (u "confirm")
    && str_in (py_lower (strip msg)) approve_words in
  orders (db (turn acreate now msg phone w))
  = if approving
    then orders (db w) ++ [fst (create_order_from_state (db w) now s0)]
    else orders (db w).
Proof.
  cbv zeta.
  destruct (eq_str _ (u "confirm") && str_in _ approve_words) eqn:Happ.
  - apply andb_true_iff in Happ as [Hs Ha]. apply eq_str_true in Hs.
    destruct (confirm_row_existed (db w) now phone Hs) as (_ & Hf).
    exact (proj1 (approve_turn rt py_lower py_format json_loads SYSTEM_PROMPT
                    EXTRACTION_PROMPT acreate now msg phone w _ Hf Hs Ha)).
  - unfold turn. rewrite turn_db. unfold process_body.
    unfold bind at 1. unfold on_db at 1.
    pose proof (get_or_create_state_orders (db w) now phone) as Ho.
    destruct (get_or_create_state (db w) now phone) as [s0 d1].
    cbn [fst snd] in *. rewrite <- Ho.
    set (w1 := mkWorld d1 (outbox w)).
    change (orders d1) with (orders (db w1)).
    destruct (str_in _ reset_words).
    { match goal with |- orders (db (snd (?m w1))) = _ =>
        assert (K : keeps orders m) by frame; apply K end. }
    destruct (eq_str _ (u "confirm")); simpl in Happ;
      [|apply interpret_message_orders].
    rewrite Happ.
    destruct (str_in _ edit_words).
    { match goal with |- orders (db (snd (?m w1))) = _ =>
        assert (K : keeps orders m) by frame; apply K end. }
    destruct (str_in _ cancel_words).
    { match goal with |- orders (db (snd (?m w1))) = _ =>
        assert (K : keeps orders m) by frame; apply K end. }
    apply interpret_message_orders.
Qed.

(** *** Replies *)

Lemma merge_category_quiet now phone extracted state :
  quiet (merge_category rt py_format now phone extracted state).
Proof. unfold merge_category. hush. Qed.

Lemma merge_quantity_quiet now phone extracted state :
  quiet (merge_quantity rt now phone extracted state).
Proof. unfold merge_quantity. hush. Qed.

Lemma invoice_if_ready_quiet now phone extracted text state :
  quiet (invoice_if_ready py_format now phone extracted text state).
Proof. unfold invoice_if_ready, create_invoice. hush. Qed.

(** The reply is sent before the log rows are committed: when the commit
    raises, one message has been sent. *)
Lemma respond_and_log_answers now msg phone extracted text state :
  answers phone
    (respond_and_log rt py_format now msg phone extracted text state).
Proof.
  unfold respond_and_log.
  apply answers_bind; [destruct (negb (truthy text)); hush|intros r].
  apply answers_then_quiet; [apply replies_send|intros _]. hush.
Qed.

Lemma interpret_message_answers acreate now msg phone state :
  answers phone (interpret acreate now msg phone state).
Proof.
  unfold interpret, interpret_message.
  apply answers_bind; [hush|intros a].
  apply answers_bind; [apply merge_category_quiet|intros s1].
  apply answers_bind; [apply merge_quantity_quiet|intros s2].
  apply answers_bind; [apply invoice_if_ready_quiet|intros rs].
  apply respond_and_log_answers.
Qed.

Lemma process_body_answers acreate now msg phone :
  answers phone (body acreate now msg phone).
Proof.
  unfold body, process_body.
  apply answers_bind; [hush|intros s0].
  destruct (str_in _ reset_words).
  { apply answers_bind; [hush|intros s1].
    apply answers_bind; [hush|intros r]. apply answers_replies, replies_send. }
  destruct (eq_str _ (u "confirm")); [|apply interpret_message_answers].
  destruct (str_in _ approve_words).
  { apply answers_bind; [hush|intros o]. apply answers_replies, replies_send. }
  destruct (str_in _ edit_words).
  { apply answers_bind; [hush|intros s1].
    apply answers_bind; [hush|intros r]. apply answers_replies, replies_send. }
  destruct (str_in _ cancel_words).
  { apply answers_bind; [hush|intros s1].
    apply answers_replies, replies_send. }
  apply interpret_message_answers.
Qed.

(** A prompt is a text or [None]. *)
Lemma generate_step_message_text d state v :
  generate_step_message rt py_format d state = Ok v ->
  fits log_text v = true.
Proof.
  unfold generate_step_message.
  repeat (match goal with
          | |- (if eq_str ?a ?b then _ else _) = _ -> _ =>
            destruct (eq_str a b)
          end);
    try (intros H; injection H as <-; reflexivity).
  - unfold _variant_message. intros H. injection H as <-.
    now destruct (variant_types_of _).
  - destruct (_confirm_message py_format d state); [|discriminate].
    intros H. now injection H as <-.
Qed.

(** The invoice block returns the response text it was given: the text
    of the invoice lies behind [create_invoice]. *)
Lemma invoice_if_ready_text now phone extracted text state w :
  match invoice_if_ready py_format now phone extracted text state w with
  | (Ok rs, _) => fst rs = text
  | (Raise _, _) => True
  end.
Proof.
  unfold invoice_if_ready, bind, of_result, read_db, create_invoice, raise,
    ret.
  destruct (py_get extracted (u "ready_for_invoice")) as [ready|e];
    [|exact I].
  destruct (truthy ready); [|reflexivity].
  destruct (py_get (get_order_summary (db w) state) (u "variant"))
    as [variant|e]; [|exact I].
  destruct (truthy variant && truthy _); [|reflexivity].
  now destruct (py_item variant (u "name")).
Qed.

(** With an intent that is a text or [None], the commit of the log rows
    returns: nothing raises once the reply is sent. *)
Lemma respond_and_log_replies now msg phone dd text state :
  fits log_text text = true ->
  fits log_text (dict_get dd (u "intent")) = true ->
  replies phone
    (respond_and_log rt py_format now msg phone (PyDict dd) text state).
Proof.
  intros Ht Hi w.
  unfold respond_and_log, bind, of_result, read_db, ret, send_response,
    commit_logs, replied.
  assert (G : forall r w1,
    fits log_text r = true ->
    exists rows,
      stored_logs rt (db w1)
        [ ChatLog.mk (PyStr phone) (PyStr (u "incoming")) (PyStr msg)
            (dict_get dd (u "intent")) (PyDateTime now);
          ChatLog.mk (PyStr phone) (PyStr (u "outgoing")) r PyNone
            (PyDateTime now) ] = Ok rows).
  { intros r w1 Hr. unfold stored_logs, stored_log, stored.
    cbn [ChatLog.phone_number ChatLog.message_type ChatLog.message_content
         ChatLog.intent ChatLog.timestamp].
    fold log_text. rewrite Hi, Hr.
    replace (fits (Decl Sql.String false false) (PyStr phone)) with true
      by reflexivity.
    replace (fits log_text (PyStr (u "incoming"))) with true by reflexivity.
    replace (fits log_text (PyStr (u "outgoing"))) with true by reflexivity.
    replace (fits log_text (PyStr msg)) with true by reflexivity.
    replace (fits log_text PyNone) with true by reflexivity.
    eauto. }
  destruct (negb (truthy text)).
  - destruct (generate_step_message rt py_format (db w) state) as [r|e] eqn:E;
      [|reflexivity].
    cbn [py_get db outbox].
    destruct (G r (mkWorld (db w) (outbox w ++ [(phone, r)]))
                (generate_step_message_text _ _ _ E)) as [rows Hrows].
    cbn [db] in Hrows. rewrite Hrows. cbn [outbox]. now exists r.
  - cbn [py_get db outbox].
    destruct (G text (mkWorld (db w) (outbox w ++ [(phone, text)])) Ht)
      as [rows Hrows].
    cbn [db] in Hrows. rewrite Hrows. cbn [outbox]. now exists text.
Qed.

Lemma replies_bind_at {A B : Type} (to : pystr) (m : M A) (k : A -> M B)
    (w : World) :
  quiet m ->
  (forall a w1, m w = (Ok a, w1) -> replied to w1 (k a w1)) ->
  replied to w (bind m k w).
Proof.
  intros Hm Hk. unfold bind. specialize (Hm w).
  destruct (m w) as [[a|e] w1] eqn:E; cbn [snd] in Hm.
  - specialize (Hk a w1 eq_refl). unfold replied in *.
    destruct (k a w1) as [[b|e] w2]; now rewrite <- Hm.
  - exact Hm.
Qed.

Lemma interpret_message_replies acreate now msg phone state text dd :
  analyze acreate msg None = Ok (mkAnalysis text (PyDict dd)) ->
  fits log_text (dict_get dd (u "intent")) = true ->
  replies phone (interpret acreate now msg phone state).
Proof.
  intros Han Hi w. unfold interpret, interpret_message. fold analyze.
  rewrite Han. unfold bind at 1. unfold of_result at 1. cbv beta iota.
  cbn [response data].
  apply replies_bind_at; [apply merge_category_quiet|intros s1 w1 _].
  apply replies_bind_at; [apply merge_quantity_quiet|intros s2 w2 _].
  apply replies_bind_at; [apply invoice_if_ready_quiet|intros rs w3 E].
  pose proof (invoice_if_ready_text now phone (PyDict dd) (PyStr text) s2 w2)
    as T.
  rewrite E in T. rewrite T.
  now apply respond_and_log_replies.
Qed.

(** The four branches that answer without interpretation raise nothing
    once they have sent their reply. *)
Lemma process_body_replied acreate now msg phone w :
  (reaches_interpretation py_lower msg
     (fst (get_or_create_state (db w) now phone)) = true ->
   replies phone
     (interpret acreate now msg phone
        (fst (get_or_create_state (db w) now phone)))) ->
  replied phone w (body acreate now msg phone w).
Proof.
  intros Hint. unfold body, process_body.
  apply replies_bind_at; [hush|intros s0 w0 E0].
  assert (Es : s0 = fst (get_or_create_state (db w) now phone)).
  { unfold on_db in E0. destruct (get_or_create_state (db w) now phone).
    now injection E0 as <- _. }
  unfold reaches_interpretation in Hint. rewrite <- Es in Hint.
  destruct (str_in (py_lower (strip msg)) reset_words).
  { apply replies_bind_at; [hush|intros s1 w1 _].
    apply replies_bind_at; [hush|intros r w2 _]. apply replies_send. }
  destruct (eq_str (ConversationState.current_step s0) (u "confirm"));
    [|apply Hint; reflexivity].
  destruct (str_in (py_lower (strip msg)) approve_words).
  { apply replies_bind_at; [hush|intros o w1 _]. apply replies_send. }
  destruct (str_in (py_lower (strip msg)) edit_words).
  { apply replies_bind_at; [hush|intros s1 w1 _].
    apply replies_bind_at; [hush|intros r w2 _]. apply replies_send. }
  destruct (str_in (py_lower (strip msg)) cancel_words).
  { apply replies_bind_at; [hush|intros s1 w1 _]. apply replies_send. }
  apply Hint. reflexivity.
Qed.

Lemma turn_of_replied acreate now msg phone w :
  replied phone w (body acreate now msg phone w) ->
  exists reply,
    outbox (turn acreate now msg phone w) = outbox w ++ [(phone, reply)].
Proof.
  unfold turn, process_message_task, body, replied.
  destruct (process_body _ _ _ _ _ _ _ _ _ _ w) as [[[]|e] w1].
  - trivial.
  - intros H. cbn. rewrite H. now eexists.
Qed.


(** *** Other customers *)

Ltac others Hne :=
  repeat first
    [ apply keeps_bind_raise
    | apply keeps_bind; [|intros ?]
    | apply keeps_on_db; intros ?;
      first
        [ now apply get_or_create_state_other
        | now apply reset_state_other
        | apply create_order_from_state_other ]
    | apply keeps_try_db; intros ?;
      apply update_state_other;
      [exact Hne|vm_compute; intuition discriminate]
    | apply keeps_row_commit_logs
    | solve [auto with frame]
    | match goal with
      | |- keeps _ (if ?c then _ else _) => destruct c
      | |- keeps _ (match ?c with _ => _ end) => destruct c
      end ].

Lemma interpret_message_other acreate now msg phone state other :
  phone <> other ->
  keeps (row_of other) (interpret acreate now msg phone state).
Proof.
  intros Hne.
  unfold interpret, interpret_message, merge_category, merge_quantity,
    invoice_if_ready, respond_and_log, create_invoice.
  others Hne.
Qed.

Lemma process_body_other acreate now msg phone other :
  phone <> other ->
  keeps (row_of other) (body acreate now msg phone).
Proof.
  intros Hne. unfold body, process_body.
  apply keeps_bind; [others Hne|intros s0].
  destruct (str_in _ reset_words); [others Hne|].
  destruct (eq_str _ (u "confirm"));
    [|now apply interpret_message_other].
  destruct (str_in _ approve_words); [others Hne|].
  destruct (str_in _ edit_words); [others Hne|].
  destruct (str_in _ cancel_words); [others Hne|].
  now apply interpret_message_other.
Qed.

(** X9.  A turn of one customer leaves the row of every other customer as
    it was: whatever row the store holds (or does not hold) for another
    identifier before the turn, it holds after it. *)
Theorem turn_leaves_other_customers acreate now msg phone w other :
  phone <> other ->
  row_of other (db (turn acreate now msg phone w)) = row_of other (db w).
Proof.
  intros Hne. unfold turn. rewrite turn_db.
  apply (process_body_other acreate now msg phone other Hne).
Qed.

(** *** Extracted category *)

Lemma find_category_like_catalogue d d' category :
  product_categories d' = product_categories d ->
  find_category_like py_format d' category
  = find_category_like py_format d category.
Proof. unfold find_category_like. now intros ->. Qed.

(** The update of the category block, by what the database makes of the
    key. *)
Lemma update_category d now phone z s0 :
  find (has_phone phone) (conversation_states d) = Some s0 ->
  match stored rt d states_table (u "selected_category_id")
               (Decl Sql.Integer true false) (PyInt z) with
  | Ok key =>
    exists s d',
      update_state rt d now phone
        [ (u "selected_category_id", PyInt z);
          (u "current_step", PyStr (u "type")) ] = (Ok s, d')
      /\ find (has_phone phone) (conversation_states d') = Some s
      /\ ConversationState.selected_category_id s = key
      /\ ConversationState.current_step s = PyStr (u "type")
      /\ ConversationState.selected_type_id s
         = ConversationState.selected_type_id s0
      /\ ConversationState.selected_variant_id s
         = ConversationState.selected_variant_id s0
      /\ ConversationState.selected_quantity s
         = ConversationState.selected_quantity s0
  | Raise _ =>
    exists e,
      update_state rt d now phone
        [ (u "selected_category_id", PyInt z);
          (u "current_step", PyStr (u "type")) ] = (Raise e, d)
  end.
Proof.
  intros Hf.
  set (kw := [ (u "selected_category_id", PyInt z);
               (u "current_step", PyStr (u "type")) ]).
  set (assigned :=
         ConversationState.set_updated_at (PyDateTime now)
           (ConversationState.set_current_step (PyStr (u "type"))
              (ConversationState.set_selected_category_id (PyInt z) s0))).
  assert (Hkeys : ~ In (u "phone_number") (map fst kw))
    by (vm_compute; intuition discriminate).
  assert (Hu : update_state rt d now phone kw
               = match commit_state rt d (map fst kw) assigned with
                 | Ok s =>
                   (Ok s,
                    with_states d
                      (update_first (has_phone phone) (fun _ => s)
                                    (conversation_states d)))
                 | Raise e => (Raise e, d)
                 end).
  { unfold update_state. rewrite (get_or_create_state_found _ now _ _ Hf).
    replace (assign_kwargs rt kw s0)
      with (Ok (ConversationState.set_current_step (PyStr (u "type"))
                  (ConversationState.set_selected_category_id (PyInt z) s0)))
      by reflexivity.
    reflexivity. }
  destruct (stored rt d states_table (u "selected_category_id")
                   (Decl Sql.Integer true false) (PyInt z))
    as [key|e] eqn:St.
  - destruct (commit_state_total rt d (map fst kw) assigned) as [s Hs].
    { intros c Hc. unfold ConversationState.columns in Hc. cbn [In] in Hc.
      repeat destruct Hc as [<-|Hc]; try contradiction; intros Hn;
        try (vm_compute in Hn; discriminate Hn).
      - eexists. reflexivity.
      - exists key. exact St. }
    rewrite Hs in Hu.
    assert (Hg : get_or_create_state d now phone = (s0, d))
      by now apply get_or_create_state_found.
    destruct (update_state_returns rt d now phone kw s _ Hu) as [_ Hc].
    cbv zeta in Hc. rewrite Hg in Hc. cbn [fst snd] in Hc.
    change (ConversationState.set_updated_at (PyDateTime now)
              (apply_kwargs kw s0)) with assigned in Hc.
    assert (Hcol : forall c,
              In c ConversationState.columns ->
              In c ConversationState.columns) by auto.
    exists s. eexists. split; [exact Hu|].
    split; [exact (update_state_stored rt d now phone kw s _ Hkeys Hu)|].
    pose proof (Hc (ConversationState.Column (u "selected_category_id")
                      (Decl Sql.Integer true false)
                      ConversationState.selected_category_id
                      ConversationState.set_selected_category_id)) as H4.
    pose proof (Hc (ConversationState.Column (u "current_step")
                      (Decl Sql.String true false)
                      ConversationState.current_step
                      ConversationState.set_current_step)) as H3.
    pose proof (Hc (ConversationState.Column (u "selected_type_id")
                      (Decl Sql.Integer true false)
                      ConversationState.selected_type_id
                      ConversationState.set_selected_type_id)) as H5.
    pose proof (Hc (ConversationState.Column (u "selected_variant_id")
                      (Decl Sql.Integer true false)
                      ConversationState.selected_variant_id
                      ConversationState.set_selected_variant_id)) as H6.
    pose proof (Hc (ConversationState.Column (u "selected_quantity")
                      (Decl Sql.Integer true false)
                      ConversationState.selected_quantity
                      ConversationState.set_selected_quantity)) as H7.
    clear Hc Hcol.
    assert (Hin : forall c,
              In c
                [ ConversationState.Column (u "selected_category_id")
                    (Decl Sql.Integer true false)
                    ConversationState.selected_category_id
                    ConversationState.set_selected_category_id;
                  ConversationState.Column (u "current_step")
                    (Decl Sql.String true false)
                    ConversationState.current_step
                    ConversationState.set_current_step;
                  ConversationState.Column (u "selected_type_id")
                    (Decl Sql.Integer true false)
                    ConversationState.selected_type_id
                    ConversationState.set_selected_type_id;
                  ConversationState.Column (u "selected_variant_id")
                    (Decl Sql.Integer true false)
                    ConversationState.selected_variant_id
                    ConversationState.set_selected_variant_id;
                  ConversationState.Column (u "selected_quantity")
                    (Decl Sql.Integer true false)
                    ConversationState.selected_quantity
                    ConversationState.set_selected_quantity ] ->
              In c ConversationState.columns).
    { intros c Hc. cbn [In] in Hc. unfold ConversationState.columns.
      cbn [In]. tauto. }
    specialize (H4 (Hin _ (or_introl eq_refl))).
    specialize (H3 (Hin _ (or_intror (or_introl eq_refl)))).
    specialize (H5 (Hin _ (or_intror (or_intror (or_introl eq_refl))))).
    specialize (H6 (Hin _ (or_intror (or_intror (or_intror
                             (or_introl eq_refl)))))).
    specialize (H7 (Hin _ (or_intror (or_intror (or_intror (or_intror
                             (or_introl eq_refl))))))).
    change (stored rt d states_table (u "selected_category_id")
                   (Decl Sql.Integer true false) (PyInt z)
            = Ok (ConversationState.selected_category_id s)) in H4.
    change (Ok (PyStr (u "type")) = Ok (ConversationState.current_step s))
      in H3.
    change (ConversationState.selected_type_id s
            = ConversationState.selected_type_id s0) in H5.
    change (ConversationState.selected_variant_id s
            = ConversationState.selected_variant_id s0) in H6.
    change (ConversationState.selected_quantity s
            = ConversationState.selected_quantity s0) in H7.
    rewrite St in H4. injection H4 as H4. injection H3 as H3.
    repeat split; auto.
  - destruct (commit_state rt d (map fst kw) assigned) as [s|e'] eqn:C.
    + exfalso.
      pose proof (commit_state_spec rt d _ _ _ C
                    (ConversationState.Column (u "selected_category_id")
                       (Decl Sql.Integer true false)
                       ConversationState.selected_category_id
                       ConversationState.set_selected_category_id)) as H4.
      assert (Hin : In (ConversationState.Column (u "selected_category_id")
                          (Decl Sql.Integer true false)
                          ConversationState.selected_category_id
                          ConversationState.set_selected_category_id)
                       ConversationState.columns).
      { unfold ConversationState.columns. cbn [In]. tauto. }
      specialize (H4 Hin).
      change (stored rt d states_table (u "selected_category_id")
                     (Decl Sql.Integer true false) (PyInt z)
              = Ok (ConversationState.selected_category_id s)) in H4.
      rewrite St in H4. discriminate H4.
    + exists e'. exact Hu.
Qed.


End TurnFacts.

(** X5, witness: the customer at [confirm] writes "Edit". *)
Lemma edit_word_witness :
  let w := world_with at_confirm in
  let w' :=
    process_message_task sqlite lower_ascii format_plain json_sample [] []
      api_down 7 (u "Edit") customer w in
  orders (db w') = orders (db w)
  /\ (exists s',
        find (has_phone customer) (conversation_states (db w')) = Some s'
        /\ ConversationState.current_step s' = PyStr (u "quantity")
        /\ ConversationState.selected_category_id s'
           = ConversationState.selected_category_id at_confirm
        /\ ConversationState.selected_type_id s'
           = ConversationState.selected_type_id at_confirm
        /\ ConversationState.selected_variant_id s'
           = ConversationState.selected_variant_id at_confirm
        /\ ConversationState.selected_quantity s'
           = ConversationState.selected_quantity at_confirm
        /\ ConversationState.selected_accessories s'
           = ConversationState.selected_accessories at_confirm
        /\ ConversationState.customer_name s'
           = ConversationState.customer_name at_confirm
        /\ ConversationState.notes s' = ConversationState.notes at_confirm
        /\ outbox w'
           = outbox w ++ [(customer, PyStr (_quantity_message (db w') s'))]).
Proof.
  exact (edit_word_returns_to_quantity
           sqlite lower_ascii format_plain json_sample [] []
           api_down 7 (u "Edit") customer (world_with at_confirm) at_confirm
           eq_refl eq_refl eq_refl).
Defined.

(** X6, witness: the customer at [confirm] writes "الغاء". *)
Lemma cancel_word_witness :
  let w := world_with at_confirm in
  let w' :=
    process_message_task sqlite lower_ascii format_plain json_sample [] []
      api_down 7 (u "الغاء") customer w in
  lower_ascii (strip (u "الغاء")) = u "الغاء"
  /\ orders (db w') = orders (db w)
  /\ (exists s',
        find (has_phone customer) (conversation_states (db w')) = Some s'
        /\ ConversationState.current_step s' = PyStr (u "greeting")
        /\ ConversationState.selected_category_id s' = PyNone
        /\ ConversationState.selected_variant_id s' = PyNone
        /\ ConversationState.selected_quantity s' = PyNone)
  /\ outbox w' = outbox w ++ [(customer, PyStr order_cancelled)].
Proof.
  exact (cancel_word_at_confirm
           sqlite lower_ascii format_plain json_sample [] []
           api_down 7 (u "الغاء") customer (world_with at_confirm)
           at_confirm eq_refl eq_refl eq_refl eq_refl).
Defined.

Lemma customers_differ : customer <> u "+200".
Proof. vm_compute. intros H. discriminate H. Defined.

(** X9, witness: while "+100" approves an order, the row of "+200" (who
    stands at step [size]) is not touched. *)
Lemma turn_leaves_other_customers_witness :
  let other_row :=
    ConversationState.mk (PyInt 2) (PyStr (u "+200")) (PyStr (u "size"))
      (PyInt 1) (PyInt 1) PyNone PyNone PyNone PyNone PyNone PyNone
      (PyDateTime 0) in
  let w := mkWorld (with_states catalogue [ at_confirm; other_row ]) [] in
  row_of (u "+200")
    (db (process_message_task sqlite lower_ascii format_plain json_sample [] []
           api_down 7 (u "ok") customer w))
  = row_of (u "+200") (db w).
Proof.
  exact (turn_leaves_other_customers
           sqlite lower_ascii format_plain json_sample [] []
           api_down 7 (u "ok") customer _ (u "+200") customers_differ).
Defined.


(* ================================================================== *)
(** ** Decisions and payments *)

Lemma get_order_update_other (d : DB) (i j : Z) (o : Order.t) :
  j <> i -> Order.id o = i ->
  get_order
    (with_orders d (update_first (has_id i) (fun _ => o) (orders d))) j
  = get_order d j.
Proof.
  intros Hne Hid. unfold get_order. cbn [orders with_orders].
  apply find_update_first_other.
  - intros x Hx. apply has_id_true in Hx. unfold has_id.
    apply Z.eqb_neq. lia.
  - unfold has_id. rewrite Hid. apply Z.eqb_refl.
Qed.

(** X11.  [mark_order_paid] on a key the store does not hold raises
    [ValueError] and changes nothing.  On a stored order, whatever its
    status, it sets status and payment status to "Paid" and the payment
    time to the time of the call, keeps the key, the total amount and the
    order details, stores the result under the key, and leaves every other
    order and every conversation state as it was. *)
Theorem mark_order_paid_effect (d : DB) (now order_id : Z) :
  (get_order d order_id = None ->
   mark_order_paid d now order_id = (Raise (not_found order_id), d))
  /\ (forall o,
        get_order d order_id = Some o ->
        exists o',
          fst (mark_order_paid d now order_id) = Ok o'
          /\ Order.status o' = PyStr (u "Paid")
          /\ Order.payment_status o' = PyStr (u "Paid")
          /\ Order.paid_at o' = PyDateTime now
          /\ Order.id o' = order_id
          /\ Order.total_amount o' = Order.total_amount o
          /\ Order.order_details o' = Order.order_details o
          /\ get_order (snd (mark_order_paid d now order_id)) order_id
             = Some o'
          /\ (forall j, j <> order_id ->
                get_order (snd (mark_order_paid d now order_id)) j
                = get_order d j)
          /\ conversation_states (snd (mark_order_paid d now order_id))
             = conversation_states d).
Proof.
  unfold mark_order_paid. split.
  - now intros ->.
  - intros o Ho. rewrite Ho. cbn [fst snd].
    pose proof (get_order_id d order_id o Ho) as Hid.
    eexists. repeat split; try exact Hid.
    + unfold get_order. cbn [orders with_orders].
      eapply find_update_first; [exact Ho|].
      unfold has_id. cbn. rewrite Hid. apply Z.eqb_refl.
    + intros j Hj. now apply get_order_update_other.
Qed.


(** *** Payment links *)

Lemma utf8_ascii (bs : list N) :
  Forall (fun b => (b < 128)%N) bs -> utf8_go 0 0%N bs = bs.
Proof.
  induction 1 as [|b bs Hb _ IH]; simpl; [reflexivity|].
  apply N.ltb_lt in Hb. now rewrite Hb, IH.
Qed.

Lemma uint_bytes_ascii (d : Decimal.uint) :
  Forall (fun b => (b < 128)%N) (bytes_of (NilEmpty.string_of_uint d)).
Proof.
  unfold bytes_of.
  induction d; simpl; constructor; try exact IHd; reflexivity.
Qed.

Lemma int_bytes_ascii (d : Decimal.int) :
  Forall (fun b => (b < 128)%N) (bytes_of (NilZero.string_of_int d)).
Proof.
  assert (H : forall x, Forall (fun b => (b < 128)%N)
                               (bytes_of (NilZero.string_of_uint x))).
  { intros x. destruct x; try apply uint_bytes_ascii.
    unfold bytes_of. simpl. constructor; [reflexivity|constructor]. }
  destruct d; simpl; [apply H|].
  unfold bytes_of. simpl. constructor; [reflexivity|apply H].
Qed.

Lemma bytes_of_inj (s t : string) : bytes_of s = bytes_of t -> s = t.
Proof.
  unfold bytes_of. revert t.
  induction s as [|a s IH]; intros [|b t] H; simpl in H;
    try discriminate; [reflexivity|].
  injection H as Hab Hst. f_equal; [|now apply IH].
  rewrite <- (ascii_N_embedding a), <- (ascii_N_embedding b).
  now rewrite Hab.
Qed.

Lemma to_int_proper (z : Z) :
  Z.to_int z <> Decimal.Pos Decimal.Nil
  /\ Z.to_int z <> Decimal.Neg Decimal.Nil.
Proof.
  destruct z as [|p|p]; simpl; split; try discriminate;
    intros H; injection H as H; now apply Unsigned.to_uint_nonnil in H.
Qed.

(** [str] of an integer determines the integer. *)
Lemma str_of_Z_inj (a b : Z) : str_of_Z a = str_of_Z b -> a = b.
Proof.
  unfold str_of_Z, u. intros H.
  rewrite !utf8_ascii in H by apply int_bytes_ascii.
  apply bytes_of_inj in H.
  assert (E : NilZero.int_of_string (NilZero.string_of_int (Z.to_int a))
              = NilZero.int_of_string (NilZero.string_of_int (Z.to_int b)))
    by now rewrite H.
  destruct (to_int_proper a) as [Ha1 Ha2].
  destruct (to_int_proper b) as [Hb1 Hb2].
  rewrite !NilZero.isi in E by assumption.
  injection E as E.
  rewrite <- (DecimalZ.of_to a), <- (DecimalZ.of_to b). now rewrite E.
Qed.

(** X13.  [create_payment_link] refuses an order that has no key
    ([ValueError], nothing changes), and an order with a key the store does
    not hold ([InvalidRequestError] from the refresh, nothing changes).
    For an order that is the stored row of its key it returns the order
    with payment status "Pending" and with a link that is the fixed address
    followed by the key in decimal; the total amount and the status are
    kept, the store then holds the returned order under the key and every
    other order as before.  Two orders with different keys never get the
    same link. *)
Theorem payment_link_identifies_order (d : DB) (o o' : Order.t) :
  (Order.id o = 0 ->
   create_payment_link d o
   = (Raise (ValueError
               (u "Order must be persisted before creating payment link")),
      d))
  /\ (Order.id o <> 0 -> get_order d (Order.id o) = None ->
      create_payment_link d o = (Raise InvalidRequestError, d))
  /\ (Order.id o <> 0 -> get_order d (Order.id o) = Some o ->
      exists linked,
        fst (create_payment_link d o) = Ok linked
        /\ Order.payment_url linked
           = PyStr (u "https://pay.example.com/order/"
                    ++ str_of_Z (Order.id o))
        /\ Order.payment_status linked = PyStr (u "Pending")
        /\ Order.status linked = Order.status o
        /\ Order.total_amount linked = Order.total_amount o
        /\ get_order (snd (create_payment_link d o)) (Order.id o)
           = Some linked
        /\ (forall j,
              j <> Order.id o ->
              get_order (snd (create_payment_link d o)) j = get_order d j))
  /\ (Order.id o <> 0 -> Order.id o' <> 0 -> Order.id o <> Order.id o' ->
      forall l l',
        fst (create_payment_link d o) = Ok l ->
        fst (create_payment_link d o') = Ok l' ->
        Order.payment_url l <> Order.payment_url l').
Proof.
  unfold create_payment_link. split; [|split; [|split]].
  - intros ->. reflexivity.
  - intros H Hn. apply Z.eqb_neq in H. rewrite H.
    cbn [Order.id Order.set_payment_url Order.set_payment_status].
    now rewrite Hn.
  - intros H Hs. apply Z.eqb_neq in H. rewrite H.
    cbn [Order.id Order.set_payment_url Order.set_payment_status].
    rewrite Hs. cbn [fst snd]. eexists.
    split; [reflexivity|]. repeat (split; [reflexivity|]). split.
    + unfold get_order. cbn [orders with_orders].
      apply (find_update_first _ _ o); [exact Hs|].
      unfold has_id. cbn [Order.id]. apply Z.eqb_refl.
    + intros j Hj. now apply get_order_update_other.
  - intros H H' Hne l l'. apply Z.eqb_neq in H. apply Z.eqb_neq in H'.
    rewrite H, H'.
    cbn [Order.id Order.set_payment_url Order.set_payment_status].
    destruct (get_order d (Order.id o)); [|discriminate].
    destruct (get_order d (Order.id o')); [|discriminate].
    cbn [fst]. intros E E'.
    injection E as <-. injection E' as <-. cbn. intros Hurl.
    injection Hurl as Hurl. try apply app_inv_head in Hurl.
    apply str_of_Z_inj in Hurl. contradiction.
Qed.

(* ================================================================== *)
(** ** Prompts and snapshots *)

Lemma set_add_in (x y : pystr) (l : list pystr) :
  In y (set_add x l) <-> In y l \/ y = x.
Proof.
  unfold set_add. destruct (str_in x l) eqn:E.
  - apply str_in_iff in E. split; [tauto|]. intros [H| ->]; assumption.
  - rewrite in_app_iff. simpl. split.
    + intros [H|[<-|[]]]; [now left|now right].
    + intros [H| ->]; [now left|right; now left].
Qed.

Lemma set_add_nodup (x : pystr) (l : list pystr) :
  NoDup l -> NoDup (set_add x l).
Proof.
  intros H. unfold set_add. destruct (str_in x l) eqn:E; [exact H|].
  assert (Hn : ~ In x l).
  { intros Hin. apply str_in_iff in Hin. congruence. }
  clear E. induction H as [|y l Hy Hl IH]; simpl.
  - constructor; [tauto|constructor].
  - constructor.
    + rewrite in_app_iff. simpl. intros [Hin|[->|[]]]; [tauto|].
      apply Hn. now left.
    + apply IH. intros Hin. apply Hn. now right.
Qed.

(** The set of variant kinds, from any starting set. *)
Lemma variant_types_fold (variants : list ProductVariant.t)
    (acc : list pystr) :
  let kinds :=
    fold_left
      (fun variant_types v =>
         match ProductVariant.variant_type v with
         | Some vt =>
           if some_nonempty (Some vt) then set_add vt variant_types
           else variant_types
         | None => variant_types
         end)
      variants acc in
  (NoDup acc -> NoDup kinds)
  /\ (forall x,
        In x kinds <->
        In x acc
        \/ exists v, In v variants
                     /\ ProductVariant.variant_type v = Some x
                     /\ x <> []).
Proof.
  revert acc. induction variants as [|v vs IH]; intros acc; cbn [fold_left].
  - split; [auto|]. intros x. split; [auto|].
    intros [H|(v & [] & _)]. exact H.
  - destruct (IH (match ProductVariant.variant_type v with
                  | Some vt =>
                    if some_nonempty (Some vt) then set_add vt acc else acc
                  | None => acc
                  end)) as [IHn IHi].
    split.
    + intros Hn. apply IHn.
      destruct (ProductVariant.variant_type v) as [vt|]; [|exact Hn].
      destruct (some_nonempty (Some vt)); [|exact Hn].
      now apply set_add_nodup.
    + intros x. rewrite IHi. clear IHn IHi.
      destruct (ProductVariant.variant_type v) as [vt|] eqn:Ev.
      * destruct vt as [|c vt]; cbn [some_nonempty].
        -- split.
           ++ intros [H|(v' & Hin & Hv & Hx)]; [now left|].
              right. exists v'. repeat split; auto. now right.
           ++ intros [H|(v' & [<-|Hin] & Hv & Hx)]; [now left| |].
              ** rewrite Ev in Hv. injection Hv as <-. contradiction.
              ** right. exists v'. now repeat split.
        -- rewrite set_add_in. split.
           ++ intros [[H| ->]|(v' & Hin & Hv & Hx)]; [now left| |].
              ** right. exists v. repeat split; auto; [now left|discriminate].
              ** right. exists v'. repeat split; auto. now right.
           ++ intros [H|(v' & [<-|Hin] & Hv & Hx)]; [now left; left| |].
              ** rewrite Ev in Hv. injection Hv as <-. left. now right.
              ** right. exists v'. now repeat split.
      * split.
        -- intros [H|(v' & Hin & Hv & Hx)]; [now left|].
           right. exists v'. repeat split; auto. now right.
        -- intros [H|(v' & [<-|Hin] & Hv & Hx)]; [now left| |].
           ++ rewrite Ev in Hv. discriminate.
           ++ right. exists v'. now repeat split.
Qed.

(** The prompt grows by one line for each kind. *)
Lemma variant_lines_fold (l : list (Z * pystr)) (msg : pystr) :
  fold_left
    (fun msg ivt =>
       let i := str_of_Z (fst ivt) in
       let vt := snd ivt in
       if contains (u "مزدوج") vt || contains (u "دبل") vt then
         msg ++ i ++ u ". " ++ vt ++ u " (فاخر - عزل حراري عالي) ⭐" ++ nl
       else if contains (u "واحد") vt || contains (u "سنجل") vt then
         msg ++ i ++ u ". " ++ vt ++ u " (اقتصادي)" ++ nl
       else if contains (u "مموج") vt then
         msg ++ i ++ u ". " ++ vt ++ u " (فخم - ملمس بارز) ✨" ++ nl
       else
         msg ++ i ++ u ". " ++ vt ++ nl)
    l msg
  = msg ++ flat_map variant_line l.
Proof.
  revert msg. induction l as [|ivt l IH]; intros msg; cbn [fold_left flat_map].
  - now rewrite app_nil_r.
  - rewrite IH, (app_assoc msg (variant_line ivt)). f_equal.
    unfold variant_line. cbv zeta.
    destruct (contains (u "مزدوج") (snd ivt) || contains (u "دبل") (snd ivt));
      [reflexivity|].
    destruct (contains (u "واحد") (snd ivt) || contains (u "سنجل") (snd ivt));
      [reflexivity|].
    destruct (contains (u "مموج") (snd ivt)); reflexivity.
Qed.

(** X14.  The variant prompt is [None] exactly when no variant of the
    type carries a non-empty variant kind.  Otherwise it is the header
    followed by one numbered line for each kind, in the order in which the
    set of kinds is iterated, numbered from 1; the line of a kind is the
    number, the kind and the description that goes with the words found in
    it.  The kinds are the non-empty kinds of the variants of that type,
    each of them once, and an iteration that is a rearrangement of the set
    lists exactly these, each of them once. *)
Theorem variant_prompt_lists_distinct_kinds (rt : Runtime) (d : DB)
    (type_id : pyval) :
  let kinds := variant_types_of (variants_of_type d type_id) in
  NoDup kinds
  /\ (forall x,
        In x kinds <->
        exists v, In v (product_variants d)
                  /\ eq_int (ProductVariant.type_id v) type_id = true
                  /\ ProductVariant.variant_type v = Some x
                  /\ x <> [])
  /\ (_variant_message rt d type_id = PyNone <->
      forall v, In v (product_variants d) ->
                eq_int (ProductVariant.type_id v) type_id = true ->
                some_nonempty (ProductVariant.variant_type v) = false)
  /\ (kinds <> [] ->
      _variant_message rt d type_id
      = PyStr (u "اختر النوع:" ++ nl ++ nl
               ++ flat_map variant_line (enumerate 1 (set_iter rt kinds))))
  /\ (Permutation (set_iter rt kinds) kinds ->
      NoDup (set_iter rt kinds)
      /\ map snd (enumerate 1 (set_iter rt kinds)) = set_iter rt kinds
      /\ forall x,
           In x (set_iter rt kinds) <->
           exists v, In v (product_variants d)
                     /\ eq_int (ProductVariant.type_id v) type_id = true
                     /\ ProductVariant.variant_type v = Some x
                     /\ x <> []).
Proof.
  cbv zeta. unfold variant_types_of.
  destruct (variant_types_fold (variants_of_type d type_id) [])
    as [Hn Hi]. cbv zeta in Hn, Hi.
  assert (Hin : forall x,
    In x (fold_left
            (fun variant_types v =>
               match ProductVariant.variant_type v with
               | Some vt =>
                 if some_nonempty (Some vt) then set_add vt variant_types
                 else variant_types
               | None => variant_types
               end)
            (variants_of_type d type_id) []) <->
    exists v, In v (product_variants d)
              /\ eq_int (ProductVariant.type_id v) type_id = true
              /\ ProductVariant.variant_type v = Some x
              /\ x <> []).
  { intros x. rewrite Hi. unfold variants_of_type. split.
    - intros [[]|(v & Hv & E & Hx)]. apply filter_In in Hv as [Hv Ht].
      exists v. now repeat split.
    - intros (v & Hv & Ht & E & Hx). right. exists v. repeat split; auto.
      apply filter_In. now split. }
  split; [apply Hn; constructor|]. split; [exact Hin|].
  unfold _variant_message, variant_types_of.
  split; [|split].
  - split.
    + intros Hnone v Hv Ht.
      destruct (ProductVariant.variant_type v) as [[|c vt]|] eqn:E;
        try reflexivity.
      assert (Hx : In (c :: vt)
                     (fold_left
                        (fun variant_types v =>
                           match ProductVariant.variant_type v with
                           | Some vt =>
                             if some_nonempty (Some vt)
                             then set_add vt variant_types
                             else variant_types
                           | None => variant_types
                           end)
                        (variants_of_type d type_id) [])).
      { apply Hin. exists v. repeat split; auto. discriminate. }
      destruct (fold_left _ _ _); [contradiction|discriminate].
    + intros Hall.
      rewrite variant_types_of_acc; [reflexivity|].
      intros v Hv. unfold variants_of_type in Hv.
      apply filter_In in Hv as [Hv Ht]. now apply Hall.
  - intros Hne. cbv zeta.
    destruct (fold_left _ (variants_of_type d type_id) [])
      as [|k ks]; [contradiction|].
    now rewrite variant_lines_fold, <- !app_assoc.
  - intros Hp. split; [|split].
    + apply (Permutation_NoDup (Permutation_sym Hp)). apply Hn. constructor.
    + generalize 1. generalize (set_iter rt
        (fold_left
           (fun variant_types v =>
              match ProductVariant.variant_type v with
              | Some vt =>
                if some_nonempty (Some vt) then set_add vt variant_types
                else variant_types
              | None => variant_types
              end)
           (variants_of_type d type_id) [])).
      induction l as [|x l IH]; intros z; cbn [enumerate map snd];
        [reflexivity|]. now rewrite IH.
    + intros x. rewrite <- Hin. split; intros H.
      * now apply (Permutation_in _ Hp).
      * now apply (Permutation_in _ (Permutation_sym Hp)).
Qed.

Lemma accessory_items_of_dicts (py_format : pyval -> pystr)
    (l : list pyval) :
  Forall (fun v => exists acc, v = PyDict acc) l ->
  exists lines, accessory_items py_format l = Ok lines.
Proof.
  induction 1 as [|v l (acc & ->) _ (lines & IH)]; simpl; [eauto|].
  rewrite IH. destruct (truthy _ && truthy _); eauto.
Qed.

(** X15.  Prompt generation can fail at one step only.  If
    [generate_step_message] raises, the state is at step [confirm], its
    selected add-ons are truthy, and the exception is the one raised while
    the add-ons are listed (a value that is not a list, or a list with an
    element that is not a dictionary).  With add-ons that are [None] or a
    list of dictionaries it returns at every step. *)
Theorem generate_step_message_raises_only_on_accessories
    (rt : Runtime) (py_format : pyval -> pystr) (d : DB)
    (state : ConversationState.t) :
  (forall e,
     generate_step_message rt py_format d state = Raise e ->
     ConversationState.current_step state = PyStr (u "confirm")
     /\ truthy (ConversationState.selected_accessories state) = true
     /\ accessory_lines py_format
          (ConversationState.selected_accessories state) = Raise e)
  /\ (ConversationState.selected_accessories state = PyNone ->
      exists m, generate_step_message rt py_format d state = Ok m)
  /\ (forall l,
        ConversationState.selected_accessories state = PyList l ->
        Forall (fun v => exists acc, v = PyDict acc) l ->
        exists m, generate_step_message rt py_format d state = Ok m).
Proof.
  assert (Hgen : forall e,
    generate_step_message rt py_format d state = Raise e ->
    ConversationState.current_step state = PyStr (u "confirm")
    /\ truthy (ConversationState.selected_accessories state) = true
    /\ accessory_lines py_format
         (ConversationState.selected_accessories state) = Raise e).
  { intros e. unfold generate_step_message.
    repeat (match goal with
            | |- (if eq_str ?a ?b then _ else _) = _ -> _ =>
              destruct (eq_str a b) eqn:?; [try discriminate|]
            end); [|discriminate].
    unfold _confirm_message, build_final_summary.
    destruct (truthy (ConversationState.selected_accessories state));
      [|discriminate].
    destruct (accessory_lines py_format _) as [accs|e']; [discriminate|].
    intros H. injection H as <-.
    repeat split. now apply eq_str_true. }
  split; [exact Hgen|]. split.
  - intros Hnone.
    destruct (generate_step_message rt py_format d state) as [m|e] eqn:E;
      [eauto|].
    destruct (Hgen e eq_refl) as (_ & Ht & _).
    rewrite Hnone in Ht. discriminate.
  - intros l Hl Hd.
    destruct (generate_step_message rt py_format d state) as [m|e] eqn:E;
      [eauto|].
    destruct (Hgen e eq_refl) as (_ & _ & Ha).
    rewrite Hl in Ha. simpl in Ha.
    destruct (accessory_items_of_dicts py_format l Hd) as [lines Hok].
    congruence.
Qed.

(** X16.  For a state with no category selected and a variant the
    catalogue holds, the order details are a dictionary with the name,
    size and kind of that variant under "variant", and the quantity, add-ons
    and customer name of the state; the order is stored under its key and a
    later [reset_state], for any customer, leaves it there unchanged. *)
Theorem order_snapshot_without_category (d : DB) (now : Z)
    (state : ConversationState.t) (v : ProductVariant.t) :
  truthy (ConversationState.selected_category_id state) = false ->
  truthy (ConversationState.selected_variant_id state) = true ->
  get_variant d (ConversationState.selected_variant_id state) = Some v ->
  let order := fst (create_order_from_state d now state) in
  let d' := snd (create_order_from_state d now state) in
  (exists items variant,
     Order.order_details order = PyDict items
     /\ dict_get items (u "variant") = PyDict variant
     /\ dict_get variant (u "name") = PyStr (ProductVariant.name v)
     /\ dict_get variant (u "size") = of_opt_str (ProductVariant.size v)
     /\ dict_get variant (u "variant_type")
        = of_opt_str (ProductVariant.variant_type v)
     /\ dict_get items (u "quantity")
        = ConversationState.selected_quantity state
     /\ dict_get items (u "accessories")
        = ConversationState.selected_accessories state
     /\ dict_get items (u "customer_name")
        = ConversationState.customer_name state)
  /\ (forall now' phone,
        get_order (snd (reset_state d' now' phone)) (Order.id order)
        = Some order).
Proof.
  intros Hc Hv Hg. cbv zeta.
  destruct (create_order_from_state_spec d now state)
    as (_ & _ & _ & Hd & Hget & _).
  split.
  - rewrite Hd. unfold get_order_summary. rewrite Hc, Hv, Hg.
    eexists. eexists. repeat split.
  - intros now' phone. unfold get_order.
    rewrite reset_state_orders. exact Hget.
Qed.

(** X16, witness: variant 5 and a quantity of 1000, no category. *)
Lemma order_snapshot_witness :
  let state := row (u "confirm") PyNone PyNone (PyInt 5) (PyInt 1000) PyNone in
  let d := db (world_with state) in
  let order := fst (create_order_from_state d 7 state) in
  let d' := snd (create_order_from_state d 7 state) in
  (exists items variant,
     Order.order_details order = PyDict items
     /\ dict_get items (u "variant") = PyDict variant
     /\ dict_get variant (u "name") = PyStr (u "كوب ساخن 8oz دبل")
     /\ dict_get variant (u "size") = of_opt_str (Some (u "8 oz"))
     /\ dict_get variant (u "variant_type")
        = of_opt_str (Some (u "جدار مزدوج"))
     /\ dict_get items (u "quantity") = PyInt 1000
     /\ dict_get items (u "accessories") = PyNone
     /\ dict_get items (u "customer_name") = PyNone)
  /\ (forall now' phone,
        get_order (snd (reset_state d' now' phone)) (Order.id order)
        = Some order).
Proof.
  exact (order_snapshot_without_category
           (db (world_with
                  (row (u "confirm") PyNone PyNone (PyInt 5) (PyInt 1000)
                       PyNone)))
           7
           (row (u "confirm") PyNone PyNone (PyInt 5) (PyInt 1000) PyNone)
           (ProductVariant.mk 5 1 (u "كوب ساخن 8oz دبل") (Some (u "8 oz"))
              None (Some (u "جدار مزدوج")) (Some 500) true)
           eq_refl eq_refl eq_refl).
Defined.

(** *** [find_matching_variant] *)

Lemma like_percent (pat t : pystr) :
  like (37%N :: pat) t
  = (like pat t
     || match t with
        | [] => false
        | _ :: t' => like (37%N :: pat) t'
        end)%bool.
Proof. destruct t; reflexivity. Qed.

Lemma like_char (c d : N) (pat s : pystr) :
  (c =? 37)%N = false ->
  like (c :: pat) (d :: s)
  = (((c =? 95)%N || (ascii_fold c =? ascii_fold d)%N) && like pat s)%bool.
Proof.
  intros H. cbv beta iota fix delta [like]. now rewrite H.
Qed.

(** A text followed by [%] matches itself, wildcards in the text
    included. *)
Lemma like_self_percent (s : pystr) : like (s ++ [37%N]) s = true.
Proof.
  induction s as [|c s IH]; [reflexivity|].
  cbn [app]. destruct (c =? 37)%N eqn:E.
  - apply N.eqb_eq in E. subst c.
    rewrite like_percent, like_percent, IH.
    now rewrite !orb_true_r.
  - rewrite like_char by exact E.
    now rewrite N.eqb_refl, orb_true_r, IH.
Qed.

Lemma like_contains_self (s : pystr) : like (u "%" ++ s ++ u "%") s = true.
Proof.
  change (u "%") with [37%N]. cbn [app].
  now rewrite like_percent, like_self_percent.
Qed.


(* ================================================================== *)
(** ** The keyword fallback *)

Lemma drop_until_spec (p : N -> bool) (s : pystr) :
  match drop_until p s with
  | [] => existsb p s = false
  | c :: _ => p c = true /\ existsb p s = true
  end.
Proof.
  induction s as [|c s IH]; simpl; [reflexivity|].
  destruct (p c) eqn:E; simpl; [now split|exact IH].
Qed.

Lemma first_digits_spec (p : N -> bool) (s : pystr) :
  match first_digits p s with
  | [] => existsb p s = false
  | c :: _ => existsb p s = true
  end.
Proof.
  unfold first_digits. pose proof (drop_until_spec p s) as H.
  destruct (drop_until p s) as [|c t]; simpl; [exact H|].
  destruct H as [Hc He]. now rewrite Hc.
Qed.

Section FallbackFacts.

Variable py_lower : pystr -> pystr.
Variable py_isdecimal : N -> bool.
Variable py_int : pystr -> result Z.
Variable json_loads : pystr -> result pyval.
Variable intent_prompt : pystr -> pystr.

Let fallback := fallback_intent_detection py_lower py_isdecimal py_int.
Let intent_of := analyze_intent py_lower py_isdecimal py_int json_loads
                                intent_prompt.
Let intent_body := analyze_intent_body json_loads intent_prompt.

(** The extracted fields, part by part. *)
Lemma detect_extracted_parts (message_lower : pystr) :
  detect_extracted py_isdecimal py_int message_lower
  = let found :=
      match find (fun kv => contains (fst kv) message_lower) sizes with
      | Some kv => [ (u "size", PyStr (snd kv)) ]
      | None => []
      end
      ++ (if contains (u "دبل") message_lower
             || contains (u "مزدوج") message_lower then
            [ (u "variant", PyStr (u "جدار مزدوج")) ]
          else if contains (u "سنجل") message_lower
                  || contains (u "واحد") message_lower
                  || contains (u "عادي") message_lower then
            [ (u "variant", PyStr (u "جدار واحد")) ]
          else if contains (u "مموج") message_lower then
            [ (u "variant", PyStr (u "جدار مموج")) ]
          else []) in
    match first_digits py_isdecimal message_lower with
    | [] => Ok (found ++ [])
    | digits =>
      match py_int digits with
      | Ok quantity => Ok (found ++ [ (u "quantity", PyInt quantity) ])
      | Raise e => Raise e
      end
    end.
Proof.
  unfold detect_extracted. cbv zeta.
  destruct (find _ sizes);
    destruct (contains (u "دبل") message_lower
              || contains (u "مزدوج") message_lower);
    destruct (contains (u "سنجل") message_lower
              || contains (u "واحد") message_lower
              || contains (u "عادي") message_lower);
    destruct (contains (u "مموج") message_lower);
    destruct (first_digits _ _); reflexivity.
Qed.

(** The fallback raises only what [int] raises on the first run of
    digits. *)
Lemma detect_extracted_raises (message_lower : pystr) (e : exn) :
  detect_extracted py_isdecimal py_int message_lower = Raise e <->
  first_digits py_isdecimal message_lower <> []
  /\ py_int (first_digits py_isdecimal message_lower) = Raise e.
Proof.
  rewrite detect_extracted_parts. cbv zeta.
  destruct (first_digits py_isdecimal message_lower) as [|c ds].
  - split; [discriminate|]. now intros [H _].
  - destruct (py_int (c :: ds)) as [q|e'].
    + split; [discriminate|]. intros [_ H]. discriminate H.
    + split.
      * intros H. injection H as ->. split; [discriminate|reflexivity].
      * intros [_ H]. injection H as ->. reflexivity.
Qed.

Lemma fallback_raises (message : pystr) (e : exn) :
  fallback message = Raise e <->
  any_in greetings (py_lower message) = false
  /\ first_digits py_isdecimal (py_lower message) <> []
  /\ py_int (first_digits py_isdecimal (py_lower message)) = Raise e.
Proof.
  unfold fallback, fallback_intent_detection. cbv zeta.
  rewrite <- detect_extracted_raises.
  destruct (any_in greetings (py_lower message)).
  - split; [discriminate|]. now intros [H _].
  - destruct (detect_extracted _ _ _) as [x|e'].
    + split; [discriminate|]. intros [_ H]. discriminate H.
    + split.
      * intros H. injection H as ->. now split.
      * intros [_ H]. injection H as ->. reflexivity.
Qed.

Lemma fallback_returns (message : pystr) (v : pyval) :
  any_in greetings (py_lower message) = false ->
  fallback message = Ok v ->
  exists extracted,
    detect_extracted py_isdecimal py_int (py_lower message) = Ok extracted
    /\ v = PyDict
             [ (u "intent",
                PyStr (if negb (pystr_eqb (detect_category (py_lower message))
                                          (u "none"))
                       then u "inquiry" else u "other"));
               (u "product_category",
                PyStr (detect_category (py_lower message)));
               (u "extracted_info", PyDict extracted) ].
Proof.
  intros H. unfold fallback, fallback_intent_detection. cbv zeta. rewrite H.
  destruct (detect_extracted _ _ _) as [x|e]; [|discriminate].
  intros E. injection E as <-. now exists x.
Qed.

(** X18.  When a greeting word occurs in the lower-cased message the
    fallback answers with intent "greeting", category "none" and no
    extracted field, whatever else the message holds (a product word or a
    number is not looked at).  Otherwise, when it returns, the category is
    one of the four section names or "none", and the intent is "other"
    exactly when the category is "none", "inquiry" in the other cases; it
    raises only when [int] raises on the first run of digits of the
    message, and then raises that exception. *)
Theorem fallback_greeting_and_intent (message : pystr) :
  (any_in greetings (py_lower message) = true ->
   fallback message
   = Ok (PyDict [ (u "intent", PyStr (u "greeting"));
                  (u "product_category", PyStr (u "none"));
                  (u "extracted_info", PyDict []) ]))
  /\ (any_in greetings (py_lower message) = false ->
      match fallback message with
      | Ok v =>
        exists category,
          py_get v (u "product_category") = Ok (PyStr category)
          /\ In category
                [ u "أكواب"; u "أكياس"; u "علب"; u "حلويات"; u "none" ]
          /\ py_get v (u "intent")
             = Ok (PyStr (if pystr_eqb category (u "none")
                          then u "other" else u "inquiry"))
      | Raise e =>
        first_digits py_isdecimal (py_lower message) <> []
        /\ py_int (first_digits py_isdecimal (py_lower message)) = Raise e
      end).
Proof.
  split; intros H.
  - unfold fallback, fallback_intent_detection. now rewrite H.
  - destruct (fallback message) as [v|e] eqn:F.
    + destruct (fallback_returns message v H F) as (extracted & _ & ->).
      exists (detect_category (py_lower message)).
      split; [reflexivity|]. split.
      * unfold detect_category.
        repeat (match goal with
                | |- In (if ?c then _ else _) _ => destruct c
                end); simpl; tauto.
      * cbn [py_get dict_get].
        replace (pystr_eqb (u "intent") (u "intent")) with true
          by reflexivity.
        now destruct (pystr_eqb _ (u "none")).
    + now apply fallback_raises in F.
Qed.

(** X19.  For a message with no greeting word, the extracted fields hold
    a quantity exactly when a decimal digit occurs in the lower-cased
    message; the quantity is then the integer value of the first unbroken
    run of digits, wherever it stands and whatever follows it.  When [int]
    raises on that run the fallback raises the same exception, and it
    raises in no other case. *)
Theorem fallback_quantity_is_first_number (message : pystr) :
  any_in greetings (py_lower message) = false ->
  match fallback message with
  | Ok v =>
    exists extracted,
      py_get v (u "extracted_info") = Ok (PyDict extracted)
      /\ (if existsb py_isdecimal (py_lower message)
          then exists quantity,
                 py_int (first_digits py_isdecimal (py_lower message))
                 = Ok quantity
                 /\ dict_get extracted (u "quantity") = PyInt quantity
          else dict_get extracted (u "quantity") = PyNone)
      /\ (existsb py_isdecimal (py_lower message) = false ->
          ~ In (u "quantity") (map fst extracted))
  | Raise e =>
    existsb py_isdecimal (py_lower message) = true
    /\ py_int (first_digits py_isdecimal (py_lower message)) = Raise e
  end.
Proof.
  intros H.
  pose proof (first_digits_spec py_isdecimal (py_lower message)) as Hd.
  destruct (fallback message) as [v|e] eqn:F.
  - destruct (fallback_returns message v H F) as (extracted & E & ->).
    exists extracted. split; [reflexivity|].
    rewrite detect_extracted_parts in E. cbv zeta in E.
    destruct (find _ sizes) as [kv|];
      destruct (contains (u "دبل") (py_lower message)
                || contains (u "مزدوج") (py_lower message));
      destruct (contains (u "سنجل") (py_lower message)
                || contains (u "واحد") (py_lower message)
                || contains (u "عادي") (py_lower message));
      destruct (contains (u "مموج") (py_lower message));
      destruct (first_digits _ _) as [|c ds]; rewrite Hd;
      try (destruct (py_int (c :: ds)) as [q|e']; [|discriminate E]);
      injection E as <-;
      (split; [first [reflexivity | exists q; split; reflexivity]|]);
      try discriminate;
      intros _; vm_compute; intuition discriminate.
  - apply fallback_raises in F as (_ & Hne & Hr). split; [|exact Hr].
    destruct (first_digits _ _); [contradiction|exact Hd].
Qed.

(** X20.  The size table is searched in its order and its digit keys are
    matched as substrings: a message with no greeting word and none of the
    three size words in which the digit 4 occurs is given the size
    "4 oz", also when the 4 is part of a quantity or of another size.
    The fallback raises only when [int] raises on the first run of digits,
    and then raises that exception. *)
Theorem fallback_size_from_digit_four (message : pystr) :
  any_in greetings (py_lower message) = false ->
  contains (u "صغير") (py_lower message) = false ->
  contains (u "وسط") (py_lower message) = false ->
  contains (u "كبير") (py_lower message) = false ->
  contains (u "4") (py_lower message) = true ->
  match fallback message with
  | Ok v =>
    exists extracted,
      py_get v (u "extracted_info") = Ok (PyDict extracted)
      /\ dict_get extracted (u "size") = PyStr (u "4 oz")
  | Raise e =>
    first_digits py_isdecimal (py_lower message) <> []
    /\ py_int (first_digits py_isdecimal (py_lower message)) = Raise e
  end.
Proof.
  intros H H1 H2 H3 H4.
  destruct (fallback message) as [v|e] eqn:F.
  - destruct (fallback_returns message v H F) as (extracted & E & ->).
    exists extracted. split; [reflexivity|].
    rewrite detect_extracted_parts in E. cbv zeta in E.
    unfold sizes in E. cbn [find fst snd] in E.
    rewrite H1, H2, H3, H4 in E.
    destruct (first_digits _ _) as [|c ds];
      [|destruct (py_int (c :: ds)); [|discriminate E]];
      injection E as <-; reflexivity.
  - now apply fallback_raises in F.
Qed.

(** X21.  What the [try] block of [analyze_intent] returns is returned.
    Whenever the block raises (the remote call fails, the answer has no
    choice or no text, or the text is not JSON) the outcome is that of
    [fallback_intent_detection] on the same message, its exception
    included: [analyze_intent] raises exactly when the block raises, no
    greeting word occurs in the message and [int] raises on the first run
    of digits, and the exception is that of [int]. *)
Theorem analyze_intent_falls_back (acreate : chat_api) (message : pystr) :
  (forall v,
     intent_body acreate message = Ok v ->
     intent_of acreate message = Ok v)
  /\ (forall e,
        intent_body acreate message = Raise e ->
        intent_of acreate message = fallback message)
  /\ ((forall request, exists e, acreate request = Raise e) ->
      intent_of acreate message = fallback message)
  /\ ((forall text, exists e, json_loads text = Raise e) ->
      intent_of acreate message = fallback message)
  /\ (forall e,
        intent_of acreate message = Raise e <->
        (exists e', intent_body acreate message = Raise e')
        /\ any_in greetings (py_lower message) = false
        /\ first_digits py_isdecimal (py_lower message) <> []
        /\ py_int (first_digits py_isdecimal (py_lower message)) = Raise e).
Proof.
  split; [|split; [|split; [|split]]].
  - unfold intent_of, intent_body, analyze_intent. now intros v ->.
  - unfold intent_of, intent_body, fallback, analyze_intent. now intros e ->.
  - intros Hfail.
    unfold intent_of, fallback, analyze_intent, analyze_intent_body.
    destruct (Hfail [ (u "user", intent_prompt message) ]) as [e ->].
    reflexivity.
  - intros Hjson.
    unfold intent_of, fallback, analyze_intent, analyze_intent_body.
    destruct (acreate _) as [[|[content|] choices]|e]; try reflexivity.
    match goal with
    | |- context [json_loads ?text] => destruct (Hjson text) as [e ->]
    end.
    reflexivity.
  - intros e. rewrite <- fallback_raises.
    unfold intent_of, intent_body, fallback, analyze_intent.
    destruct (analyze_intent_body _ _ _ _) as [v|e'].
    + split; [discriminate|]. intros [[e' H] _]. discriminate H.
    + split; [intros H; split; [now exists e'|exact H]|now intros [_ H]].
Qed.

End FallbackFacts.

(** X19, witness: "400 cups". *)
Lemma fallback_quantity_witness :
  match fallback_intent_detection lower_ascii isdecimal_ascii int_ascii
          (u "400 cups") with
  | Ok v =>
    exists extracted,
      py_get v (u "extracted_info") = Ok (PyDict extracted)
      /\ (if existsb isdecimal_ascii (lower_ascii (u "400 cups"))
          then exists quantity,
                 int_ascii (first_digits isdecimal_ascii
                              (lower_ascii (u "400 cups")))
                 = Ok quantity
                 /\ dict_get extracted (u "quantity") = PyInt quantity
          else dict_get extracted (u "quantity") = PyNone)
      /\ (existsb isdecimal_ascii (lower_ascii (u "400 cups")) = false ->
          ~ In (u "quantity") (map fst extracted))
  | Raise e =>
    existsb isdecimal_ascii (lower_ascii (u "400 cups")) = true
    /\ int_ascii (first_digits isdecimal_ascii (lower_ascii (u "400 cups")))
       = Raise e
  end.
Proof.
  exact (fallback_quantity_is_first_number
           lower_ascii isdecimal_ascii int_ascii (u "400 cups") eq_refl).
Defined.

(** X20, witness: in "400 cups" the quantity is read as a size too. *)
Lemma fallback_size_witness :
  match fallback_intent_detection lower_ascii isdecimal_ascii int_ascii
          (u "400 cups") with
  | Ok v =>
    exists extracted,
      py_get v (u "extracted_info") = Ok (PyDict extracted)
      /\ dict_get extracted (u "size") = PyStr (u "4 oz")
  | Raise e =>
    first_digits isdecimal_ascii (lower_ascii (u "400 cups")) <> []
    /\ int_ascii (first_digits isdecimal_ascii (lower_ascii (u "400 cups")))
       = Raise e
  end.
Proof.
  exact (fallback_size_from_digit_four
           lower_ascii isdecimal_ascii int_ascii (u "400 cups")
           eq_refl eq_refl eq_refl eq_refl eq_refl).
Defined.

(** The fallback on "400 cups", in full. *)
Example fallback_example :
  fallback_intent_detection lower_ascii isdecimal_ascii int_ascii
    (u "400 cups")
  = Ok (PyDict [ (u "intent", PyStr (u "inquiry"));
                 (u "product_category", PyStr (u "أكواب"));
                 (u "extracted_info",
                  PyDict [ (u "size", PyStr (u "4 oz"));
                           (u "quantity", PyInt 400) ]) ]).
Proof. vm_compute. reflexivity. Qed.

(** A message of 4301 digits, the remote model being out of reach:
    [analyze_intent] raises the [ValueError] of [int]. *)
Example analyze_intent_raises :
  analyze_intent lower_ascii isdecimal_ascii int_ascii
    (fun _ => Raise (ValueError (u "Expecting value")))
    (fun message => message)
    (fun _ => Raise (RemoteError 503))
    (repeat 49%N 4301)
  = Raise (ValueError
             (u "Exceeds the limit (4300 digits) for integer string conversion")).
Proof. vm_compute. reflexivity. Qed.

(* ================================================================== *)
(** ** The steps a turn can leave a customer at *)

Lemma maintains_bind {A B : Type} (P : DB -> Prop) (m : M A)
    (k : A -> M B) :
  maintains P m -> (forall a, maintains P (k a)) -> maintains P (bind m k).
Proof.
  intros Hm Hk w Hw. unfold bind. specialize (Hm w Hw).
  destruct (m w) as [[a|e] w1]; simpl in *; [now apply Hk|exact Hm].
Qed.

Lemma maintains_bind_raise {A B : Type} (P : DB -> Prop) (e : exn)
    (k : A -> M B) :
  maintains P (bind (raise e) k).
Proof. intros w Hw. exact Hw. Qed.

Section StepFacts.

Variable rt : Runtime.
Variable py_lower : pystr -> pystr.
Variable py_format : pyval -> pystr.
Variable json_loads : pystr -> result pyval.
Variable SYSTEM_PROMPT : pystr.
Variable EXTRACTION_PROMPT : pystr.

Variable phone : pystr.
Variable before : pyval.

(** The customer has a row, at the step it had or at a written step. *)
Let settled (d : DB) : Prop :=
  exists s,
    find (has_phone phone) (conversation_states d) = Some s
    /\ (ConversationState.current_step s = before
        \/ In (ConversationState.current_step s) written_steps).

Lemma settled_keeps {A : Type} (m : M A) :
  keeps conversation_states m -> maintains settled m.
Proof.
  intros K w (s & Hf & Hs). exists s. split; [|exact Hs]. now rewrite K.
Qed.

Lemma settled_update now (kwargs : list (pystr * pyval)) (step : pystr) :
  ~ In (u "phone_number") (map fst kwargs) ->
  str_in (u "current_step") (map fst kwargs) = true ->
  (forall s,
     ConversationState.current_step (apply_kwargs kwargs s) = PyStr step) ->
  In (PyStr step) written_steps ->
  maintains settled (try_db (fun d => update_state rt d now phone kwargs)).
Proof.
  intros Hk Hn Hstep Hin w (s0 & Hf0 & Hs0). unfold try_db.
  destruct (update_state rt (db w) now phone kwargs) as [[s|e] d1] eqn:E;
    cbn [snd db].
  - exists s.
    split; [exact (update_state_stored rt (db w) now phone kwargs s d1 Hk E)|].
    right.
    destruct (update_state_returns rt (db w) now phone kwargs s d1 E)
      as [_ Hc].
    specialize (Hc (ConversationState.Column (u "current_step")
                      (Decl Sql.String true false)
                      ConversationState.current_step
                      ConversationState.set_current_step)).
    cbv zeta in Hc.
    cbn [ConversationState.col_name ConversationState.col_decl
         ConversationState.col_get] in Hc.
    rewrite Hn in Hc.
    change (ConversationState.current_step
              (ConversationState.set_updated_at (PyDateTime now)
                 (apply_kwargs kwargs
                    (fst (get_or_create_state (db w) now phone)))))
      with (ConversationState.current_step
              (apply_kwargs kwargs
                 (fst (get_or_create_state (db w) now phone)))) in Hc.
    rewrite Hstep in Hc.
    assert (Hcol : In (ConversationState.Column (u "current_step")
                         (Decl Sql.String true false)
                         ConversationState.current_step
                         ConversationState.set_current_step)
                      ConversationState.columns).
    { unfold ConversationState.columns. cbn [In]. tauto. }
    specialize (Hc Hcol).
    change (Ok (PyStr step) = Ok (ConversationState.current_step s)) in Hc.
    injection Hc as <-. exact Hin.
  - rewrite (update_state_raises rt (db w) now phone kwargs e d1 E).
    rewrite (get_or_create_state_found _ now _ _ Hf0). cbn [snd].
    exists s0. now split.
Qed.

Lemma settled_reset now :
  maintains settled (on_db (fun d => reset_state d now phone)).
Proof.
  intros w _. unfold on_db.
  pose proof (reset_state_row (db w) now phone) as H. cbv zeta in H.
  destruct (reset_state (db w) now phone) as [s d1]. cbn [fst snd db] in *.
  destruct H as (Hs & _ & _ & _ & _ & _ & _ & _ & _ & _ & Hf).
  exists s. split; [exact Hf|]. right. rewrite Hs. now left.
Qed.

Lemma keeps_states_create_order now state :
  keeps conversation_states
        (on_db (fun d => create_order_from_state d now state)).
Proof. apply keeps_on_db. reflexivity. Qed.

Ltac settle :=
  repeat first
    [ apply maintains_bind_raise
    | apply maintains_bind; [|intros ?]
    | apply settled_reset
    | match goal with
      | |- maintains _ (try_db (fun d => update_state _ d ?n _ ?kw)) =>
        match kw with
        | context [(u "current_step", PyStr ?x)] =>
          apply (settled_update n kw x);
          [ vm_compute; intuition discriminate
          | reflexivity
          | intros ?; reflexivity
          | unfold written_steps; cbn [In];
            first [ left; reflexivity
                  | right; left; reflexivity
                  | right; right; left; reflexivity
                  | right; right; right; left; reflexivity ] ]
        end
      end
    | apply settled_keeps;
      first [ apply keeps_states_create_order | solve [auto with frame] ]
    | match goal with
      | |- maintains _ (if ?c then _ else _) => destruct c
      | |- maintains _ (match ?c with _ => _ end) => destruct c
      end ].

Lemma interpret_message_settled acreate now msg state :
  maintains settled
    (interpret_message rt py_format json_loads SYSTEM_PROMPT EXTRACTION_PROMPT
       acreate now msg phone state).
Proof.
  unfold interpret_message, merge_category, merge_quantity.
  apply maintains_bind; [settle|intros a].
  apply maintains_bind; [settle|intros s1].
  apply maintains_bind; [settle|intros s2].
  apply settled_keeps. apply keeps_bind.
  - apply invoice_if_ready_states.
  - intros rs. apply respond_and_log_states.
Qed.

Lemma process_body_settled acreate now msg :
  forall s0,
    maintains settled
      (if str_in (py_lower (strip msg)) reset_words then
         state <- on_db (fun d => reset_state d now phone) ;;
         response_text <-
           read_db (fun d => generate_step_message rt py_format d state) ;;
         send_response phone response_text
       else if eq_str (ConversationState.current_step s0) (u "confirm") then
         if str_in (py_lower (strip msg)) approve_words then
           order <- on_db (fun d => create_order_from_state d now s0) ;;
           send_response phone (PyStr order_received)
         else if str_in (py_lower (strip msg)) edit_words then
           state <- try_db (fun d =>
                      update_state rt d now phone
                        [ (u "current_step", PyStr (u "quantity")) ]) ;;
           response_text <-
             read_db (fun d => generate_step_message rt py_format d state) ;;
           send_response phone response_text
         else if str_in (py_lower (strip msg)) cancel_words then
           state <- on_db (fun d => reset_state d now phone) ;;
           send_response phone (PyStr order_cancelled)
         else interpret_message rt py_format json_loads SYSTEM_PROMPT
                EXTRACTION_PROMPT acreate now msg phone s0
       else interpret_message rt py_format json_loads SYSTEM_PROMPT
              EXTRACTION_PROMPT acreate now msg phone s0).
Proof.
  intros s0.
  destruct (str_in _ reset_words); [settle|].
  destruct (eq_str _ (u "confirm")); [|apply interpret_message_settled].
  destruct (str_in _ approve_words); [settle|].
  destruct (str_in _ edit_words); [settle|].
  destruct (str_in _ cancel_words); [settle|].
  apply interpret_message_settled.
Qed.

End StepFacts.

(** X22.  After a turn the customer has a row, and its step is the step
    the customer stood at before the turn or one of "greeting", "type",
    "quantity" and "confirm": the handler writes no other step, so it never
    moves a customer to [category], [size], [variant], [accessories] or
    [invoice]. *)
Theorem turn_writes_four_steps (rt : Runtime) (py_lower : pystr -> pystr)
    (py_format : pyval -> pystr) (json_loads : pystr -> result pyval)
    (SYSTEM_PROMPT EXTRACTION_PROMPT : pystr)
    (acreate : chat_api) (now : Z) (msg phone : pystr) (w : World) :
  let s0 := fst (get_or_create_state (db w) now phone) in
  let w' :=
    process_message_task rt py_lower py_format json_loads SYSTEM_PROMPT
      EXTRACTION_PROMPT acreate now msg phone w in
  exists s,
    find (has_phone phone) (conversation_states (db w')) = Some s
    /\ (ConversationState.current_step s = ConversationState.current_step s0
        \/ In (ConversationState.current_step s) written_steps).
Proof.
  cbv zeta. rewrite turn_db. unfold process_body.
  unfold bind at 1. unfold on_db at 1.
  destruct (get_or_create_state_spec (db w) now phone) as (Hf & _).
  destruct (get_or_create_state (db w) now phone) as [s0 d1].
  cbn [fst snd] in *.
  apply (process_body_settled rt py_lower py_format json_loads SYSTEM_PROMPT
           EXTRACTION_PROMPT phone (ConversationState.current_step s0)
           acreate now msg s0 (mkWorld d1 (outbox w))).
  exists s0. split; [exact Hf|now left].
Qed.
